(** * Space Dogfight editor scripts: a shallow embedding

    The four scripts of [unreal_internal_scripts] drive the editor's Python
    API.  Nothing in them computes: they sequence calls into the host, look
    at what comes back, log, and catch exceptions.  The embedding therefore
    keeps the host abstract.

    - A [Host] answers every call of the editor API (and of [importlib]) with
      a [Reply]: a returned value or a raised exception.  The host has a
      state of its own, the [World], which a call may change.
    - A script function is a computation [M A]: it takes the interpreter
      state and gives a result (a value or an exception that escaped), the
      final state and the list of [Event]s it produced, in order.
    - An event is a host call with its reply, a line written with
      [unreal.log], or the entry of a script function.  The last kind is a
      ghost event: it has no effect and records which function was entered.

    Conventions of the embedding:
    - [unreal.log] only appends a line to the output log; it is total.
    - Reading an attribute of the [unreal] module ([unreal.Key.E],
      [unreal.Pawn]), [X.static_class()] and the constructors of plain
      structs ([Vector], [Rotator], [Transform], [EdGraphPinType],
      [InputActionKeyMapping], [InputAxisKeyMapping]) build a value and do
      not go through the host.
    - A method call whose receiver is [None] is answered by the host like any
      other call (Python raises [AttributeError], which every host may do).
    - Float literals are kept as the decimal the source writes; no arithmetic
      is ever done on them. *)

From Stdlib Require Import List String ZArith QArith Bool Lia.
Import ListNotations.
Open Scope string_scope.
Set Warnings "-register-all".

(** ** Values of the scripts *)

(** [unreal.Key.X], by the name of the key. *)
Definition Key := string.

(** [unreal.InputActionKeyMapping]: the struct of the engine, with its four
    modifier flags. *)
Record InputActionKeyMapping := {
  action_name : string;
  action_key : Key;
  b_shift : bool;
  b_ctrl : bool;
  b_alt : bool;
  b_cmd : bool
}.

(** [unreal.InputAxisKeyMapping]. *)
Record InputAxisKeyMapping := {
  axis_name : string;
  axis_key : Key;
  scale : Q
}.

Inductive Value :=
| VNone
| VBool (b : bool)
| VInt (z : Z)
| VFloat (q : Q)
| VStr (s : string)
| VKey (k : Key)
| VType (name : string)          (* unreal.Pawn, unreal.InputSettings, ... *)
| VClass (name : string)         (* unreal.X.static_class() *)
| VEnum (enum member : string)   (* unreal.CollisionEnabled.QUERY_ONLY *)
| VVector (x y z : Q)
| VRotator (a b c : Q)
| VTransform (location rotation scale3d : Value)
| VPinType (category : string) (object_type : Value)
| VActionMapping (m : InputActionKeyMapping)
| VAxisMapping (m : InputAxisKeyMapping)
| VObj (handle : nat)            (* an object owned by the host *)
| VList (items : list Value).

(** [x is None]. *)
Definition is_none (v : Value) : bool :=
  match v with VNone => true | _ => false end.

(** Python's truth value of an object, as [if x] and [not x] read it. *)
Definition truthy (v : Value) : bool :=
  match v with
  | VNone => false
  | VBool b => b
  | VInt z => negb (Z.eqb z 0)
  | VFloat q => negb (Z.eqb (Qnum q) 0)
  | VStr s => negb (String.eqb s "")
  | VList l => match l with [] => false | _ => true end
  | _ => true
  end.

(** [v == s] for a string literal [s]. *)
Definition eq_str (v : Value) (s : string) : bool :=
  match v with VStr s' => String.eqb s' s | _ => false end.

(** A Python exception, by its message ([str(e)]). *)
Definition Exn := string.

(** ** The host API *)

Inductive Call :=
(* functions of the unreal module *)
| get_default_object (cls : Value)
| get_editor_subsystem (cls : Value)
| unreal_load_asset (path : string)
| BlueprintFactory
| get_asset_tools
(* unreal.EditorAssetLibrary *)
| does_directory_exist (path : string)
| make_directory (path : string)
| does_asset_exist (path : string)
| load_asset (path : string)
| load_blueprint_class (path : string)
| save_asset (path : string)
(* asset tools, blueprint editor subsystem, blueprint editor library *)
| set_editor_property (obj : Value) (name : string) (value : Value)
| create_asset (tools : Value) (name path : string) (cls factory : Value)
| open_blueprint (editor blueprint : Value)
| add_new_component_to_blueprint
    (editor blueprint cls : Value) (name : string) (parent : option Value)
| compile_blueprint (editor blueprint : Value)
| add_member_variable
    (editor blueprint : Value) (name : string) (type default : Value)
| get_components_from_blueprint (blueprint : Value)
| does_member_variable_exist (blueprint : Value) (name : string)
| get_name (obj : Value)
(* unreal.EditorLevelLibrary and actors *)
| get_all_level_actors
| get_actor_label (actor : Value)
| destroy_actor (actor : Value)
| spawn_actor_from_class (cls transform : Value)
| set_actor_label (actor : Value) (label : string)
(* unreal.InputSettings and the preferences subsystem *)
| get_action_mappings (settings : Value)
| remove_action_mapping (settings mapping : Value)
| add_action_mapping (settings mapping : Value)
| get_axis_mappings (settings : Value)
| remove_axis_mapping (settings mapping : Value)
| add_axis_mapping (settings mapping : Value)
| save_config_file (subsystem settings : Value)
(* importlib *)
| spec_from_file_location (name path : string)
| module_from_spec (spec : Value)
| loader_get_code (path : string).  (* exec_module: read and compile the file *)

Inductive Reply :=
| Returns (v : Value)
| Raises (e : Exn).

(** The editor the scripts run in: its state, how it answers a call, and the
    directory the scripts were copied to ([SCRIPT_DIR]). *)
Class Host := {
  World : Type;
  respond : World -> Call -> Reply * World;
  SCRIPT_DIR : string
}.

(** ** Events *)

(** A piece of a logged line: literal text, or a host value formatted into
    an f-string (the rendering is the host's). *)
Inductive Fragment :=
| Txt (s : string)
| Fmt (v : Value).

Definition Message := list Fragment.

Definition txt (s : string) : Message := [Txt s].
Coercion txt : string >-> Message.

Inductive Event :=
| ECall (c : Call) (r : Reply)
| ELog (prefix : string) (msg : Message)
| EEnter (fn : string) (args : list Value).

(** ** The monad of script computations *)

Inductive Res (A : Type) :=
| Val (a : A)
| Exc (e : Exn).
Arguments Val {A} a.
Arguments Exc {A} e.

Section Monad.
Context {H : Host}.

(** The interpreter's state: the host's world and [sys.path]. *)
Record PyState := {
  world : World;
  sys_path : list string
}.

Record Run (A : Type) := mkRun {
  result : Res A;
  final : PyState;
  events : list Event
}.
Arguments mkRun {A} _ _ _.
Arguments result {A} _.
Arguments final {A} _.
Arguments events {A} _.

Definition M (A : Type) := PyState -> Run A.

Definition ret {A} (a : A) : M A := fun s => mkRun (Val a) s [].

(** [raise e]. *)
Definition raise {A} (e : Exn) : M A := fun s => mkRun (Exc e) s [].

Definition bind {A B} (m : M A) (f : A -> M B) : M B := fun s =>
  let o := m s in
  match result o with
  | Val a =>
      let o' := f a (final o) in
      mkRun (result o') (final o') (events o ++ events o')
  | Exc e => mkRun (Exc e) (final o) (events o)
  end.

(** [try: body except Exception as e: handler(e)]. *)
Definition try_except {A} (body : M A) (handler : Exn -> M A) : M A := fun s =>
  let o := body s in
  match result o with
  | Val a => o
  | Exc e =>
      let o' := handler e (final o) in
      mkRun (result o') (final o') (events o ++ events o')
  end.

Definition emit (e : Event) : M unit := fun s => mkRun (Val tt) s [e].

(** A call into the host: the host answers and moves to its next state; a
    raised exception becomes the exception of the computation. *)
Definition call (c : Call) : M Value := fun s =>
  let (r, w) := respond (world s) c in
  mkRun (match r with Returns v => Val v | Raises e => Exc e end)
        {| world := w; sys_path := sys_path s |}
        [ECall c r].

(** Entry of the script function [fn] (ghost). *)
Definition enter (fn : string) (args : list Value) : M unit :=
  emit (EEnter fn args).

Definition get_sys_path : M (list string) := fun s => mkRun (Val (sys_path s)) s [].

Definition sys_path_append (d : string) : M unit := fun s =>
  mkRun (Val tt) {| world := world s; sys_path := sys_path s ++ [d] |} [].

End Monad.

Arguments mkRun {H A} _ _ _.
Arguments result {H A} _.
Arguments final {H A} _.
Arguments events {H A} _.

Declare Scope py_scope.
Delimit Scope py_scope with py.
Notation "x <- m ;; k" := (bind m (fun x => k))
  (at level 61, m at next level, right associativity) : py_scope.
Notation "m ;; k" := (bind m (fun _ => k))
  (at level 61, right associativity) : py_scope.
Open Scope py_scope.

Section Python.
Context {H : Host}.

(** [for x in l: body(x)] over a Python list. *)
Fixpoint for_ {A} (l : list A) (body : A -> M unit) : M unit :=
  match l with
  | [] => ret tt
  | x :: l' => body x ;; for_ l' body
  end.

(** [iter(v)]: only a list can be iterated. *)
Definition py_iter (v : Value) : M (list Value) :=
  match v with
  | VList l => ret l
  | _ => raise "TypeError: object is not iterable"
  end.

(** [existing.action_name]. *)
Definition get_action_name (v : Value) : M string :=
  match v with
  | VActionMapping m => ret (action_name m)
  | _ => raise "AttributeError: action_name"
  end.

(** [existing.axis_name]. *)
Definition get_axis_name (v : Value) : M string :=
  match v with
  | VAxisMapping m => ret (axis_name m)
  | _ => raise "AttributeError: axis_name"
  end.

(** The search loop the component scripts share:
    [for comp in comps: if comp.get_name() == name: found = comp; break]
    starting from [found = None]. *)
Fixpoint find_by_name (name : string) (comps : list Value) : M Value :=
  match comps with
  | [] => ret VNone
  | comp :: rest =>
      n <- call (get_name comp) ;;
      if eq_str n name then ret comp else find_by_name name rest
  end.

End Python.

(** ** internal_spaceship_creator.py *)

Module Creator.
Section Script.
Context {H : Host}.

Definition BLUEPRINT_PATH : string := "/Game/SpaceDogfight/Blueprints".
Definition SPACESHIP_BP_NAME : string := "BP_Spaceship".
Definition SPACESHIP_FULL_PATH : string :=
  BLUEPRINT_PATH ++ "/" ++ SPACESHIP_BP_NAME.

Definition log (message : Message) : M unit :=
  emit (ELog "[SPACESHIP CREATOR] " message).

Definition ensure_directory_exists (path : string) : M bool :=
  enter "internal_spaceship_creator.ensure_directory_exists" [VStr path] ;;
  found <- call (does_directory_exist path) ;;
  if negb (truthy found) then
    log (txt ("Creating directory: " ++ path)) ;;
    call (make_directory path) ;;
    ret true
  else
    log (txt ("Directory already exists: " ++ path)) ;;
    ret true.

Definition create_spaceship_blueprint : M Value :=
  enter "internal_spaceship_creator.create_spaceship_blueprint" [] ;;
  ok <- ensure_directory_exists BLUEPRINT_PATH ;;
  if negb ok then
    log "Failed to create blueprint directory" ;;
    ret VNone
  else
    found <- call (does_asset_exist SPACESHIP_FULL_PATH) ;;
    if truthy found then
      log (txt ("Blueprint already exists at " ++ SPACESHIP_FULL_PATH
                ++ ", using existing blueprint")) ;;
      call (load_asset SPACESHIP_FULL_PATH)
    else
      factory <- call BlueprintFactory ;;
      call (set_editor_property factory "ParentClass" (VType "Pawn")) ;;
      asset_tools <- call get_asset_tools ;;
      new_blueprint <-
        call (create_asset asset_tools SPACESHIP_BP_NAME BLUEPRINT_PATH
                           VNone factory) ;;
      if is_none new_blueprint then
        log "Failed to create spaceship blueprint" ;;
        ret VNone
      else
        log (txt ("Successfully created blueprint at " ++ SPACESHIP_FULL_PATH)) ;;
        ret new_blueprint.

(** The [try] block of [add_components_to_blueprint]. *)
Definition add_components_try (blueprint : Value) : M bool :=
  blueprint_editor <- call (get_editor_subsystem (VType "BlueprintEditorSubsystem")) ;;
  call (open_blueprint blueprint_editor blueprint) ;;
  root_components <- call (get_components_from_blueprint blueprint) ;;
  comps <- py_iter root_components ;;
  root_comp <- find_by_name "DefaultSceneRoot" comps ;;
  root_comp <-
    (if is_none root_comp then
       created <- call (add_new_component_to_blueprint blueprint_editor blueprint
                          (VClass "SceneComponent") "DefaultSceneRoot" None) ;;
       log "Created DefaultSceneRoot component" ;;
       ret created
     else ret root_comp) ;;
  ship_mesh <- call (add_new_component_to_blueprint blueprint_editor blueprint
                       (VClass "StaticMeshComponent") "ShipMesh" (Some root_comp)) ;;
  (if negb (is_none ship_mesh) then
     cone_mesh <- call (unreal_load_asset "/Engine/BasicShapes/Cone") ;;
     if negb (is_none cone_mesh) then
       call (set_editor_property ship_mesh "StaticMesh" cone_mesh) ;;
       log "Set ship mesh to cone"
     else log "Failed to load cone mesh"
   else log "Failed to create ship mesh component") ;;
  collision <- call (add_new_component_to_blueprint blueprint_editor blueprint
                       (VClass "SphereComponent") "CollisionSphere" (Some root_comp)) ;;
  (if negb (is_none collision) then
     call (set_editor_property collision "SphereRadius" (VFloat 50.0)) ;;
     log "Created collision sphere component with 50.0 radius"
   else log "Failed to create collision component") ;;
  spring_arm <- call (add_new_component_to_blueprint blueprint_editor blueprint
                        (VClass "SpringArmComponent") "CameraSpringArm" (Some root_comp)) ;;
  (if negb (is_none spring_arm) then
     call (set_editor_property spring_arm "TargetArmLength" (VFloat 400.0)) ;;
     call (set_editor_property spring_arm "bEnableCameraLag" (VBool true)) ;;
     call (set_editor_property spring_arm "bEnableCameraRotationLag" (VBool true)) ;;
     call (set_editor_property spring_arm "CameraLagSpeed" (VFloat 5.0)) ;;
     call (set_editor_property spring_arm "CameraRotationLagSpeed" (VFloat 5.0)) ;;
     call (set_editor_property spring_arm "bUsePawnControlRotation" (VBool true)) ;;
     call (set_editor_property spring_arm "RelativeLocation" (VVector 0.0 0.0 50.0)) ;;
     call (set_editor_property spring_arm "RelativeRotation" (VRotator (-20.0) 0.0 0.0)) ;;
     log "Created and configured camera spring arm"
   else log "Failed to create spring arm component") ;;
  camera <- call (add_new_component_to_blueprint blueprint_editor blueprint
                    (VClass "CameraComponent") "FollowCamera" (Some spring_arm)) ;;
  (if negb (is_none camera) then
     call (set_editor_property camera "FieldOfView" (VFloat 90.0)) ;;
     log "Created and configured camera component"
   else log "Failed to create camera component") ;;
  movement <- call (add_new_component_to_blueprint blueprint_editor blueprint
                      (VClass "FloatingPawnMovement") "MovementComponent" (Some root_comp)) ;;
  (if negb (is_none movement) then
     call (set_editor_property movement "MaxSpeed" (VFloat 1000.0)) ;;
     call (set_editor_property movement "Acceleration" (VFloat 4000.0)) ;;
     call (set_editor_property movement "Deceleration" (VFloat 2000.0)) ;;
     call (set_editor_property movement "TurningBoost" (VFloat 8.0)) ;;
     call (set_editor_property movement "bConstrainToPlane" (VBool false)) ;;
     log "Created and configured movement component"
   else log "Failed to create movement component") ;;
  call (compile_blueprint blueprint_editor blueprint) ;;
  call (save_asset SPACESHIP_FULL_PATH) ;;
  log "Successfully added components to spaceship blueprint" ;;
  ret true.

Definition add_components_to_blueprint (blueprint : Value) : M bool :=
  enter "internal_spaceship_creator.add_components_to_blueprint" [blueprint] ;;
  if is_none blueprint then
    log "No blueprint provided, cannot add components" ;;
    ret false
  else
    blueprint_obj <- call (load_blueprint_class SPACESHIP_FULL_PATH) ;;
    if is_none blueprint_obj then
      log "Failed to load blueprint class" ;;
      ret false
    else
      try_except (add_components_try blueprint)
        (fun e => log (txt ("Error adding components: " ++ e)) ;; ret false).

Definition float_pin : Value := VPinType "float" VNone.

(** An entry of the table [variables]: [var["name"]], [var["type"]] and
    [var["default_value"]]. *)
Definition var_name (var : string * Value * Value) : string := fst (fst var).
Definition var_type (var : string * Value * Value) : Value := snd (fst var).
Definition var_default (var : string * Value * Value) : Value := snd var.

(** The table [variables]: name, pin type, default value. *)
Definition variables : list (string * Value * Value) :=
  [ ("Health", float_pin, VFloat 100.0);
    ("MaxSpeed", float_pin, VFloat 1000.0);
    ("ThrustForce", float_pin, VFloat 4000.0);
    ("RollRate", float_pin, VFloat 100.0);
    ("PitchRate", float_pin, VFloat 90.0);
    ("YawRate", float_pin, VFloat 90.0);
    ("LinearDamping", float_pin, VFloat 0.1);
    ("AngularDamping", float_pin, VFloat 0.3);
    ("BoostMultiplier", float_pin, VFloat 2.0);
    ("BrakeForce", float_pin, VFloat 3000.0);
    ("MinZoomDistance", float_pin, VFloat 200.0);
    ("MaxZoomDistance", float_pin, VFloat 800.0);
    ("ZoomSpeed", float_pin, VFloat 50.0);
    ("CurrentZoomTarget", float_pin, VFloat 400.0);
    ("BoostCameraShakeIntensity", float_pin, VFloat 1.0);
    ("DamageCameraShakeIntensity", float_pin, VFloat 2.0);
    ("CameraShakeDuration", float_pin, VFloat 0.3) ].

(** The [try] block of [add_blueprint_variables]. *)
Definition add_blueprint_variables_try (blueprint : Value) : M bool :=
  blueprint_editor <- call (get_editor_subsystem (VType "BlueprintEditorSubsystem")) ;;
  for_ variables (fun var =>
    try_except
      (found <- call (does_member_variable_exist blueprint (var_name var)) ;;
       if truthy found then
         log (txt ("Variable " ++ var_name var ++ " already exists, skipping"))
       else
         added <- call (add_member_variable blueprint_editor blueprint
                          (var_name var) (var_type var) (var_default var)) ;;
         if truthy added then
           log [Txt ("Added variable " ++ var_name var ++ " with value ");
                Fmt (var_default var)]
         else log (txt ("Failed to add variable " ++ var_name var)))
      (fun var_error =>
         log (txt ("Error adding variable " ++ var_name var ++ ": " ++ var_error)))) ;;
  call (compile_blueprint blueprint_editor blueprint) ;;
  call (save_asset SPACESHIP_FULL_PATH) ;;
  log "Successfully added variables to spaceship blueprint" ;;
  ret true.

Definition add_blueprint_variables (blueprint : Value) : M bool :=
  enter "internal_spaceship_creator.add_blueprint_variables" [blueprint] ;;
  if is_none blueprint then
    log "No blueprint provided, cannot add variables" ;;
    ret false
  else
    try_except (add_blueprint_variables_try blueprint)
      (fun e => log (txt ("Error adding blueprint variables: " ++ e)) ;; ret false).

(** The loop of [spawn_test_instance] that removes a test instance left by
    an earlier run: it stops at the first actor labelled TestSpaceship. *)
Fixpoint destroy_test_instance (actors : list Value) : M unit :=
  match actors with
  | [] => ret tt
  | actor :: rest =>
      label <- call (get_actor_label actor) ;;
      if eq_str label "TestSpaceship" then
        log "Test spaceship already exists, removing it" ;;
        call (destroy_actor actor) ;;
        ret tt
      else destroy_test_instance rest
  end.

(** The [try] block of [spawn_test_instance]. *)
Definition spawn_test_instance_try : M bool :=
  blueprint_class <- call (load_blueprint_class SPACESHIP_FULL_PATH) ;;
  if is_none blueprint_class then
    log "Failed to load spaceship blueprint class" ;;
    ret false
  else
    actors <- call get_all_level_actors ;;
    actor_list <- py_iter actors ;;
    destroy_test_instance actor_list ;;
    let location := VVector 0.0 0.0 200.0 in
    let rotation := VRotator 0.0 0.0 0.0 in
    let spawn_transform := VTransform location rotation (VVector 1.0 1.0 1.0) in
    spawned_actor <- call (spawn_actor_from_class blueprint_class spawn_transform) ;;
    if is_none spawned_actor then
      log "Failed to spawn test spaceship" ;;
      ret false
    else
      call (set_actor_label spawned_actor "TestSpaceship") ;;
      log "Successfully spawned test spaceship" ;;
      ret true.

Definition spawn_test_instance : M bool :=
  enter "internal_spaceship_creator.spawn_test_instance" [] ;;
  try_except spawn_test_instance_try
    (fun e => log (txt ("Error spawning test instance: " ++ e)) ;; ret false).

Definition main : M unit :=
  enter "internal_spaceship_creator.main" [] ;;
  log "Starting spaceship setup..." ;;
  blueprint <- create_spaceship_blueprint ;;
  if is_none blueprint then
    log "Failed to create or get spaceship blueprint, aborting"
  else
    ok <- add_components_to_blueprint blueprint ;;
    (if negb ok then
       log "Failed to add components to blueprint, continuing anyway"
     else ret tt) ;;
    ok <- add_blueprint_variables blueprint ;;
    (if negb ok then
       log "Failed to add variables to blueprint, continuing anyway"
     else ret tt) ;;
    ok <- spawn_test_instance ;;
    (if negb ok then
       log "Failed to spawn test instance, continuing anyway"
     else ret tt) ;;
    log "Spaceship setup completed!" ;;
    log "You can now use the blueprint in the Unreal Editor" ;;
    log (txt ("Blueprint path: " ++ SPACESHIP_FULL_PATH)) ;;
    log "Test instance spawned in the current level".

(** The module's top level: after the definitions, the guarded call of
    [main]. *)
Definition module_body (__name__ : string) : M unit :=
  if String.eqb __name__ "__main__" || true then main else ret tt.

End Script.
End Creator.

(** ** internal_input_setup.py *)

Module InputSetup.
Section Script.
Context {H : Host}.

Definition log (message : Message) : M unit :=
  emit (ELog "[INPUT SETUP] " message).

(** [unreal.InputActionKeyMapping(name, key)]: the modifiers keep their
    default, false. *)
Definition new_action_mapping (name : string) (key : Key) : InputActionKeyMapping :=
  {| action_name := name; action_key := key;
     b_shift := false; b_ctrl := false; b_alt := false; b_cmd := false |}.

(** [unreal.InputAxisKeyMapping(name, key, scale)]. *)
Definition new_axis_mapping (name : string) (key : Key) (s : Q) : InputAxisKeyMapping :=
  {| axis_name := name; axis_key := key; scale := s |}.

(** The table [action_mappings]: name, key. *)
Definition action_mappings : list (string * Key) :=
  [ ("Boost", "E");
    ("Brake", "R");
    ("PrimaryFire", "LEFT_MOUSE_BUTTON");
    ("SecondaryFire", "RIGHT_MOUSE_BUTTON") ].

(** The table [axis_mappings]: name, key, scale. *)
Definition axis_mappings : list (string * Key * Q) :=
  [ ("MoveForward", "W", 1.0%Q);
    ("MoveForward", "S", (-1.0)%Q);
    ("MoveRight", "D", 1.0%Q);
    ("MoveRight", "A", (-1.0)%Q);
    ("MoveUp", "Q", 1.0%Q);
    ("MoveUp", "Z", (-1.0)%Q);
    ("Turn", "MOUSE_X", 1.0%Q);
    ("LookUp", "MOUSE_Y", (-1.0)%Q);
    ("CameraZoom", "MOUSE_WHEEL_AXIS", 1.0%Q) ].

(** [unreal.InputActionKeyMapping(action["name"], action["key"])]. *)
Definition action_mapping_of (action : string * Key) : InputActionKeyMapping :=
  new_action_mapping (fst action) (snd action).

(** [unreal.InputAxisKeyMapping(axis["name"], axis["key"], axis["scale"])]. *)
Definition axis_mapping_of (axis : string * Key * Q) : InputAxisKeyMapping :=
  new_axis_mapping (fst (fst axis)) (snd (fst axis)) (snd axis).

(** The [try] block of [setup_input_mappings]. *)
Definition setup_input_mappings_try : M bool :=
  input_settings <- call (get_default_object (VType "InputSettings")) ;;
  if is_none input_settings then
    log "Failed to get input settings" ;;
    ret false
  else
    existing_action_mappings <- call (get_action_mappings input_settings) ;;
    for_ action_mappings (fun action =>
      existing_list <- py_iter existing_action_mappings ;;
      for_ existing_list (fun existing =>
        name <- get_action_name existing ;;
        if String.eqb name (fst action) then
          call (remove_action_mapping input_settings existing) ;; ret tt
        else ret tt)) ;;
    existing_axis_mappings <- call (get_axis_mappings input_settings) ;;
    for_ axis_mappings (fun axis =>
      existing_list <- py_iter existing_axis_mappings ;;
      for_ existing_list (fun existing =>
        name <- get_axis_name existing ;;
        if String.eqb name (fst (fst axis)) then
          call (remove_axis_mapping input_settings existing) ;; ret tt
        else ret tt)) ;;
    for_ action_mappings (fun action =>
      let mapping := VActionMapping (action_mapping_of action) in
      call (add_action_mapping input_settings mapping) ;;
      log [Txt ("Added action mapping: " ++ fst action ++ " -> ");
           Fmt (VKey (snd action))]) ;;
    for_ axis_mappings (fun axis =>
      let mapping := VAxisMapping (axis_mapping_of axis) in
      call (add_axis_mapping input_settings mapping) ;;
      log [Txt ("Added axis mapping: " ++ fst (fst axis) ++ " -> ");
           Fmt (VKey (snd (fst axis)));
           Txt " (scale: "; Fmt (VFloat (snd axis)); Txt ")"]) ;;
    editor_subsystem <- call (get_editor_subsystem (VType "EditorPreferencesSubsystem")) ;;
    call (save_config_file editor_subsystem input_settings) ;;
    log "Successfully set up input mappings" ;;
    ret true.

Definition setup_input_mappings : M bool :=
  enter "internal_input_setup.setup_input_mappings" [] ;;
  try_except setup_input_mappings_try
    (fun e => log (txt ("Error setting up input mappings: " ++ e)) ;; ret false).

Definition main : M unit :=
  enter "internal_input_setup.main" [] ;;
  log "Starting input control system setup..." ;;
  ok <- setup_input_mappings ;;
  if negb ok then
    log "Failed to set up input mappings, aborting"
  else
    log "Input control system setup completed!" ;;
    log "You can now use the input mappings in the game" ;;
    log "To test them, enter Play-in-Editor mode and use the WASD keys for movement, mouse for aim".

Definition module_body (__name__ : string) : M unit :=
  if String.eqb __name__ "__main__" || true then main else ret tt.

End Script.
End InputSetup.

(** ** internal_weapon_system.py

    Line 453 of the file reads [unreal.PinCategory.class].  [class] is a
    reserved word of Python, so the interpreter refuses the whole file with
    a SyntaxError before any of it runs; the functions below are what the
    file says, with that attribute read as the pin category named class,
    like its neighbours float, int and object. *)

Module Weapon.
Section Script.
Context {H : Host}.

Definition BLUEPRINT_PATH : string := "/Game/SpaceDogfight/Blueprints".
Definition WEAPONS_PATH : string := "/Game/SpaceDogfight/Weapons".
Definition SPACESHIP_BP_NAME : string := "BP_Spaceship".
Definition LASER_BP_NAME : string := "BP_LaserProjectile".
Definition MISSILE_BP_NAME : string := "BP_MissileProjectile".
Definition SPACESHIP_FULL_PATH : string := BLUEPRINT_PATH ++ "/" ++ SPACESHIP_BP_NAME.
Definition LASER_FULL_PATH : string := WEAPONS_PATH ++ "/" ++ LASER_BP_NAME.
Definition MISSILE_FULL_PATH : string := WEAPONS_PATH ++ "/" ++ MISSILE_BP_NAME.

Definition log (message : Message) : M unit :=
  emit (ELog "[WEAPON SYSTEM] " message).

Definition ensure_directory_exists (path : string) : M bool :=
  enter "internal_weapon_system.ensure_directory_exists" [VStr path] ;;
  found <- call (does_directory_exist path) ;;
  if negb (truthy found) then
    log (txt ("Creating directory: " ++ path)) ;;
    call (make_directory path) ;;
    ret true
  else
    log (txt ("Directory already exists: " ++ path)) ;;
    ret true.

Definition create_laser_projectile_blueprint : M Value :=
  enter "internal_weapon_system.create_laser_projectile_blueprint" [] ;;
  ok <- ensure_directory_exists WEAPONS_PATH ;;
  if negb ok then
    log "Failed to create weapons directory" ;;
    ret VNone
  else
    found <- call (does_asset_exist LASER_FULL_PATH) ;;
    if truthy found then
      log (txt ("Laser blueprint already exists at " ++ LASER_FULL_PATH
                ++ ", using existing blueprint")) ;;
      call (load_asset LASER_FULL_PATH)
    else
      factory <- call BlueprintFactory ;;
      call (set_editor_property factory "ParentClass" (VType "Actor")) ;;
      asset_tools <- call get_asset_tools ;;
      new_blueprint <-
        call (create_asset asset_tools LASER_BP_NAME WEAPONS_PATH VNone factory) ;;
      if is_none new_blueprint then
        log "Failed to create laser projectile blueprint" ;;
        ret VNone
      else
        log (txt ("Successfully created laser blueprint at " ++ LASER_FULL_PATH)) ;;
        ret new_blueprint.

Definition create_missile_projectile_blueprint : M Value :=
  enter "internal_weapon_system.create_missile_projectile_blueprint" [] ;;
  ok <- ensure_directory_exists WEAPONS_PATH ;;
  if negb ok then
    log "Failed to create weapons directory" ;;
    ret VNone
  else
    found <- call (does_asset_exist MISSILE_FULL_PATH) ;;
    if truthy found then
      log (txt ("Missile blueprint already exists at " ++ MISSILE_FULL_PATH
                ++ ", using existing blueprint")) ;;
      call (load_asset MISSILE_FULL_PATH)
    else
      factory <- call BlueprintFactory ;;
      call (set_editor_property factory "ParentClass" (VType "Actor")) ;;
      asset_tools <- call get_asset_tools ;;
      new_blueprint <-
        call (create_asset asset_tools MISSILE_BP_NAME WEAPONS_PATH VNone factory) ;;
      if is_none new_blueprint then
        log "Failed to create missile projectile blueprint" ;;
        ret VNone
      else
        log (txt ("Successfully created missile blueprint at " ++ MISSILE_FULL_PATH)) ;;
        ret new_blueprint.

Definition float_pin : Value := VPinType "float" VNone.
Definition int_pin : Value := VPinType "int" VNone.
Definition query_only : Value := VEnum "CollisionEnabled" "QUERY_ONLY".

(** The [try] block of [setup_laser_components]. *)
Definition setup_laser_components_try (blueprint : Value) : M bool :=
  blueprint_editor <- call (get_editor_subsystem (VType "BlueprintEditorSubsystem")) ;;
  call (open_blueprint blueprint_editor blueprint) ;;
  root_components <- call (get_components_from_blueprint blueprint) ;;
  comps <- py_iter root_components ;;
  root_comp <- find_by_name "DefaultSceneRoot" comps ;;
  root_comp <-
    (if is_none root_comp then
       created <- call (add_new_component_to_blueprint blueprint_editor blueprint
                          (VClass "SceneComponent") "DefaultSceneRoot" None) ;;
       log "Created DefaultSceneRoot component for laser" ;;
       ret created
     else ret root_comp) ;;
  projectile_movement <-
    call (add_new_component_to_blueprint blueprint_editor blueprint
            (VClass "ProjectileMovementComponent") "ProjectileMovement" (Some root_comp)) ;;
  (if negb (is_none projectile_movement) then
     call (set_editor_property projectile_movement "InitialSpeed" (VFloat 8000.0)) ;;
     call (set_editor_property projectile_movement "MaxSpeed" (VFloat 8000.0)) ;;
     call (set_editor_property projectile_movement "bRotationFollowsVelocity" (VBool true)) ;;
     call (set_editor_property projectile_movement "ProjectileGravityScale" (VFloat 0.0)) ;;
     log "Created and configured projectile movement component for laser"
   else log "Failed to create projectile movement component for laser") ;;
  cylinder <- call (add_new_component_to_blueprint blueprint_editor blueprint
                      (VClass "StaticMeshComponent") "LaserVisual" (Some root_comp)) ;;
  (if negb (is_none cylinder) then
     cylinder_mesh <- call (unreal_load_asset "/Engine/BasicShapes/Cylinder") ;;
     if negb (is_none cylinder_mesh) then
       call (set_editor_property cylinder "StaticMesh" cylinder_mesh) ;;
       call (set_editor_property cylinder "RelativeScale3D" (VVector 0.1 0.1 1.5)) ;;
       call (set_editor_property cylinder "RelativeRotation" (VRotator 90.0 0.0 0.0)) ;;
       log "Set laser visual to scaled cylinder"
     else log "Failed to load cylinder mesh for laser"
   else log "Failed to create visual component for laser") ;;
  collision <- call (add_new_component_to_blueprint blueprint_editor blueprint
                       (VClass "CapsuleComponent") "CollisionCapsule" (Some root_comp)) ;;
  (if negb (is_none collision) then
     call (set_editor_property collision "CapsuleHalfHeight" (VFloat 75.0)) ;;
     call (set_editor_property collision "CapsuleRadius" (VFloat 5.0)) ;;
     call (set_editor_property collision "CollisionEnabled" query_only) ;;
     call (set_editor_property collision "RelativeRotation" (VRotator 90.0 0.0 0.0)) ;;
     log "Created and configured collision component for laser"
   else log "Failed to create collision component for laser") ;;
  try_except
    (call (add_member_variable blueprint_editor blueprint "Damage" float_pin (VFloat 20.0)) ;;
     log "Added Damage variable to laser" ;;
     call (add_member_variable blueprint_editor blueprint "Lifetime" float_pin (VFloat 2.0)) ;;
     log "Added Lifetime variable to laser")
    (fun var_error => log (txt ("Error adding variables to laser: " ++ var_error))) ;;
  call (compile_blueprint blueprint_editor blueprint) ;;
  call (save_asset LASER_FULL_PATH) ;;
  log "Successfully set up laser projectile components" ;;
  ret true.

Definition setup_laser_components (blueprint : Value) : M bool :=
  enter "internal_weapon_system.setup_laser_components" [blueprint] ;;
  if is_none blueprint then
    log "No blueprint provided, cannot add components" ;;
    ret false
  else
    try_except (setup_laser_components_try blueprint)
      (fun e => log (txt ("Error setting up laser components: " ++ e)) ;; ret false).

(** The [try] block of [setup_missile_components]. *)
Definition setup_missile_components_try (blueprint : Value) : M bool :=
  blueprint_editor <- call (get_editor_subsystem (VType "BlueprintEditorSubsystem")) ;;
  call (open_blueprint blueprint_editor blueprint) ;;
  root_components <- call (get_components_from_blueprint blueprint) ;;
  comps <- py_iter root_components ;;
  root_comp <- find_by_name "DefaultSceneRoot" comps ;;
  root_comp <-
    (if is_none root_comp then
       created <- call (add_new_component_to_blueprint blueprint_editor blueprint
                          (VClass "SceneComponent") "DefaultSceneRoot" None) ;;
       log "Created DefaultSceneRoot component for missile" ;;
       ret created
     else ret root_comp) ;;
  projectile_movement <-
    call (add_new_component_to_blueprint blueprint_editor blueprint
            (VClass "ProjectileMovementComponent") "ProjectileMovement" (Some root_comp)) ;;
  (if negb (is_none projectile_movement) then
     call (set_editor_property projectile_movement "InitialSpeed" (VFloat 3000.0)) ;;
     call (set_editor_property projectile_movement "MaxSpeed" (VFloat 6000.0)) ;;
     call (set_editor_property projectile_movement "bRotationFollowsVelocity" (VBool true)) ;;
     call (set_editor_property projectile_movement "ProjectileGravityScale" (VFloat 0.0)) ;;
     call (set_editor_property projectile_movement "bIsHomingProjectile" (VBool true)) ;;
     call (set_editor_property projectile_movement "HomingAccelerationMagnitude"
                               (VFloat 8000.0)) ;;
     log "Created and configured projectile movement component for missile"
   else log "Failed to create projectile movement component for missile") ;;
  cone <- call (add_new_component_to_blueprint blueprint_editor blueprint
                  (VClass "StaticMeshComponent") "MissileVisual" (Some root_comp)) ;;
  (if negb (is_none cone) then
     cone_mesh <- call (unreal_load_asset "/Engine/BasicShapes/Cone") ;;
     if negb (is_none cone_mesh) then
       call (set_editor_property cone "StaticMesh" cone_mesh) ;;
       call (set_editor_property cone "RelativeScale3D" (VVector 0.3 0.3 0.6)) ;;
       call (set_editor_property cone "RelativeRotation" (VRotator 0.0 0.0 0.0)) ;;
       log "Set missile visual to scaled cone"
     else log "Failed to load cone mesh for missile"
   else log "Failed to create visual component for missile") ;;
  collision <- call (add_new_component_to_blueprint blueprint_editor blueprint
                       (VClass "SphereComponent") "CollisionSphere" (Some root_comp)) ;;
  (if negb (is_none collision) then
     call (set_editor_property collision "SphereRadius" (VFloat 15.0)) ;;
     call (set_editor_property collision "CollisionEnabled" query_only) ;;
     log "Created and configured collision component for missile"
   else log "Failed to create collision component for missile") ;;
  try_except
    (call (add_member_variable blueprint_editor blueprint "Damage" float_pin (VFloat 50.0)) ;;
     log "Added Damage variable to missile" ;;
     call (add_member_variable blueprint_editor blueprint "Lifetime" float_pin (VFloat 5.0)) ;;
     log "Added Lifetime variable to missile" ;;
     call (add_member_variable blueprint_editor blueprint "ExplosionRadius" float_pin
                               (VFloat 200.0)) ;;
     log "Added ExplosionRadius variable to missile" ;;
     let actor_type := VPinType "object" (VClass "Actor") in
     call (add_member_variable blueprint_editor blueprint "HomingTarget" actor_type VNone) ;;
     log "Added HomingTarget variable to missile")
    (fun var_error => log (txt ("Error adding variables to missile: " ++ var_error))) ;;
  call (compile_blueprint blueprint_editor blueprint) ;;
  call (save_asset MISSILE_FULL_PATH) ;;
  log "Successfully set up missile projectile components" ;;
  ret true.

Definition setup_missile_components (blueprint : Value) : M bool :=
  enter "internal_weapon_system.setup_missile_components" [blueprint] ;;
  if is_none blueprint then
    log "No blueprint provided, cannot add components" ;;
    ret false
  else
    try_except (setup_missile_components_try blueprint)
      (fun e => log (txt ("Error setting up missile components: " ++ e)) ;; ret false).

(** The [try] block of [add_weapon_components_to_spaceship]. *)
Definition add_weapon_components_to_spaceship_try : M bool :=
  spaceship_bp <- call (load_asset SPACESHIP_FULL_PATH) ;;
  if is_none spaceship_bp then
    log (txt ("Failed to load spaceship blueprint at " ++ SPACESHIP_FULL_PATH)) ;;
    log "Make sure to run the spaceship creator script first" ;;
    ret false
  else
    blueprint_editor <- call (get_editor_subsystem (VType "BlueprintEditorSubsystem")) ;;
    call (open_blueprint blueprint_editor spaceship_bp) ;;
    components <- call (get_components_from_blueprint spaceship_bp) ;;
    comps <- py_iter components ;;
    ship_mesh <- find_by_name "ShipMesh" comps ;;
    if is_none ship_mesh then
      log "Could not find ShipMesh component in spaceship blueprint" ;;
      ret false
    else
      left_mount <- call (add_new_component_to_blueprint blueprint_editor spaceship_bp
                            (VClass "SceneComponent") "LeftWeaponMount" (Some ship_mesh)) ;;
      (if negb (is_none left_mount) then
         call (set_editor_property left_mount "RelativeLocation"
                                   (VVector (-30.0) (-30.0) 0.0)) ;;
         log "Added left weapon mount point"
       else log "Failed to add left weapon mount point") ;;
      right_mount <- call (add_new_component_to_blueprint blueprint_editor spaceship_bp
                             (VClass "SceneComponent") "RightWeaponMount" (Some ship_mesh)) ;;
      (if negb (is_none right_mount) then
         call (set_editor_property right_mount "RelativeLocation"
                                   (VVector (-30.0) 30.0 0.0)) ;;
         log "Added right weapon mount point"
       else log "Failed to add right weapon mount point") ;;
      center_mount <- call (add_new_component_to_blueprint blueprint_editor spaceship_bp
                              (VClass "SceneComponent") "CenterWeaponMount" (Some ship_mesh)) ;;
      (if negb (is_none center_mount) then
         call (set_editor_property center_mount "RelativeLocation"
                                   (VVector (-30.0) 0.0 (-20.0))) ;;
         log "Added center weapon mount point"
       else log "Failed to add center weapon mount point") ;;
      try_except
        (call (add_member_variable blueprint_editor spaceship_bp "LaserCooldown"
                                   float_pin (VFloat 0.2)) ;;
         log "Added LaserCooldown variable to spaceship" ;;
         call (add_member_variable blueprint_editor spaceship_bp "MissileCooldown"
                                   float_pin (VFloat 2.0)) ;;
         log "Added MissileCooldown variable to spaceship" ;;
         call (add_member_variable blueprint_editor spaceship_bp "MaxMissiles"
                                   int_pin (VInt 8)) ;;
         log "Added MaxMissiles variable to spaceship" ;;
         call (add_member_variable blueprint_editor spaceship_bp "CurrentMissiles"
                                   int_pin (VInt 8)) ;;
         log "Added CurrentMissiles variable to spaceship" ;;
         let class_type := VPinType "class" VNone in
         call (add_member_variable blueprint_editor spaceship_bp "LaserProjectileClass"
                                   class_type VNone) ;;
         call (add_member_variable blueprint_editor spaceship_bp "MissileProjectileClass"
                                   class_type VNone) ;;
         log "Added weapon class reference variables to spaceship")
        (fun var_error =>
           log (txt ("Error adding weapon variables to spaceship: " ++ var_error))) ;;
      call (compile_blueprint blueprint_editor spaceship_bp) ;;
      call (save_asset SPACESHIP_FULL_PATH) ;;
      log "Successfully added weapon components to spaceship" ;;
      ret true.

Definition add_weapon_components_to_spaceship : M bool :=
  enter "internal_weapon_system.add_weapon_components_to_spaceship" [] ;;
  try_except add_weapon_components_to_spaceship_try
    (fun e => log (txt ("Error adding weapon components to spaceship: " ++ e)) ;;
              ret false).

Definition main : M unit :=
  enter "internal_weapon_system.main" [] ;;
  log "Starting weapon system setup..." ;;
  laser_bp <- create_laser_projectile_blueprint ;;
  (if is_none laser_bp then
     log "Failed to create or get laser projectile blueprint, continuing anyway"
   else
     ok <- setup_laser_components laser_bp ;;
     if negb ok then log "Failed to set up laser components, continuing anyway"
     else ret tt) ;;
  missile_bp <- create_missile_projectile_blueprint ;;
  (if is_none missile_bp then
     log "Failed to create or get missile projectile blueprint, continuing anyway"
   else
     ok <- setup_missile_components missile_bp ;;
     if negb ok then log "Failed to set up missile components, continuing anyway"
     else ret tt) ;;
  ok <- add_weapon_components_to_spaceship ;;
  (if negb ok then
     log "Failed to add weapon components to spaceship, continuing anyway"
   else ret tt) ;;
  log "Weapon system setup completed!" ;;
  log "Note: You'll need to manually wire up the weapon firing logic in the spaceship blueprint:" ;;
  log "1. Create Fire functions that spawn projectiles from the weapon mounts" ;;
  log "2. Connect the PrimaryFire and SecondaryFire input events to these functions" ;;
  log "3. Set the LaserProjectileClass and MissileProjectileClass references in the spaceship blueprint".

Definition module_body (__name__ : string) : M unit :=
  if String.eqb __name__ "__main__" || true then main else ret tt.

End Script.
End Weapon.

(** ** internal_complete_setup.py *)

Module Complete.
Section Script.
Context {H : Host}.

Definition log (message : Message) : M unit :=
  emit (ELog "[SETUP] " message).

(** [os.path.join(d, f)] for a relative file name [f]. *)
Definition path_join (d f : string) : string := d ++ "/" ++ f.

(** What a script file gives once it is loaded: the code of its top level,
    run with the module's [__name__], and its attribute [main] if it
    defines one. *)
Record Script := {
  script_body : string -> M unit;
  script_main : option (M unit)
}.

(** The script files in [SCRIPT_DIR]. *)
Definition script_at (file_path : string) : option Script :=
  if String.eqb file_path (path_join SCRIPT_DIR "internal_spaceship_creator.py") then
    Some {| script_body := Creator.module_body; script_main := Some Creator.main |}
  else if String.eqb file_path (path_join SCRIPT_DIR "internal_input_setup.py") then
    Some {| script_body := InputSetup.module_body; script_main := Some InputSetup.main |}
  else if String.eqb file_path (path_join SCRIPT_DIR "internal_weapon_system.py") then
    Some {| script_body := Weapon.module_body; script_main := Some Weapon.main |}
  else None.

(** [spec.loader.exec_module(module)]: the loader reads and compiles the
    file (the host's answer to [loader_get_code]), then runs its top level
    in the new module, whose [__name__] is [module_name]. *)
Definition exec_module (module_name file_path : string) : M unit :=
  call (loader_get_code file_path) ;;
  match script_at file_path with
  | Some script => script_body script module_name
  | None => raise "FileNotFoundError"
  end.

(** [getattr(module, 'main', None)] after the module was executed. *)
Definition module_main (file_path : string) : option (M unit) :=
  match script_at file_path with
  | Some script => script_main script
  | None => None
  end.

(** The [try] block of [import_and_run_module]. *)
Definition import_and_run_module_try (module_name file_path : string) : M bool :=
  path <- get_sys_path ;;
  (if negb (existsb (String.eqb SCRIPT_DIR) path) then sys_path_append SCRIPT_DIR
   else ret tt) ;;
  log (txt ("Importing module: " ++ module_name)) ;;
  spec <- call (spec_from_file_location module_name file_path) ;;
  if negb (truthy spec) then
    log (txt ("Could not find module spec for " ++ file_path)) ;;
    ret false
  else
    module <- call (module_from_spec spec) ;;
    if negb (truthy module) then
      log (txt ("Could not create module from spec for " ++ file_path)) ;;
      ret false
    else
      exec_module module_name file_path ;;
      match module_main file_path with
      | Some module_main =>
          log (txt ("Running main() from " ++ module_name)) ;;
          module_main ;;
          log (txt ("Completed " ++ module_name)) ;;
          ret true
      | None =>
          log (txt ("Module " ++ module_name ++ " does not have a main() function")) ;;
          ret false
      end.

Definition import_and_run_module (module_name file_path : string) : M bool :=
  enter "internal_complete_setup.import_and_run_module"
        [VStr module_name; VStr file_path] ;;
  try_except (import_and_run_module_try module_name file_path)
    (fun e => log (txt ("Error loading or running module " ++ module_name ++ ": " ++ e)) ;;
              ret false).

(** The table [scripts]: name, file. *)
Definition scripts : list (string * string) :=
  [ ("internal_spaceship_creator", "internal_spaceship_creator.py");
    ("internal_input_setup", "internal_input_setup.py");
    ("internal_weapon_system", "internal_weapon_system.py") ].

Definition main : M unit :=
  enter "internal_complete_setup.main" [] ;;
  log "Starting complete Space Dogfight setup process..." ;;
  for_ scripts (fun script =>
    let script_path := path_join SCRIPT_DIR (snd script) in
    log (txt ("Running script: " ++ fst script)) ;;
    success <- import_and_run_module (fst script) script_path ;;
    if negb success then
      log (txt ("⚠️ Failed to run script: " ++ fst script))
    else ret tt) ;;
  log "✅ Space Dogfight setup process completed!" ;;
  log "Open the BP_Spaceship asset to verify all components were created correctly" ;;
  log "Some manual setup may be required - see README.md for details".

Definition module_body (__name__ : string) : M unit :=
  if String.eqb __name__ "__main__" || true then main else ret tt.

End Script.
End Complete.

(** * Observing a run *)

(** The events of a run are read through a few filters. *)

Definition is_enter (fn : string) (e : Event) : bool :=
  match e with EEnter f _ => String.eqb f fn | _ => false end.

(** How many times the script function [fn] was entered. *)
Definition entries (fn : string) (evs : list Event) : nat :=
  List.length (filter (is_enter fn) evs).

Definition is_create_asset (e : Event) : bool :=
  match e with ECall (create_asset _ _ _ _ _) _ => true | _ => false end.

Definition is_load_asset (e : Event) : bool :=
  match e with ECall (load_asset _) _ => true | _ => false end.

Definition is_add_component (e : Event) : bool :=
  match e with ECall (add_new_component_to_blueprint _ _ _ _ _) _ => true | _ => false end.

Definition is_set_property (e : Event) : bool :=
  match e with ECall (set_editor_property _ _ _) _ => true | _ => false end.

Definition is_add_mapping (e : Event) : bool :=
  match e with
  | ECall (add_action_mapping _ _) _ | ECall (add_axis_mapping _ _) _ => true
  | _ => false
  end.

Definition is_log (e : Event) : bool :=
  match e with ELog _ _ => true | _ => false end.

(** The host calls of a run, without their replies. *)
Definition calls (evs : list Event) : list Call :=
  flat_map (fun e => match e with ECall c _ => [c] | _ => [] end) evs.

(** What a reply makes of the call that got it. *)
Definition res_of (r : Reply) : Res Value :=
  match r with Returns v => Val v | Raises e => Exc e end.

(** ** Properties of computations *)

Section Properties.
Context {H : Host}.

(** [m] never lets an exception escape. *)
Definition total {A} (m : M A) : Prop :=
  forall s, exists a, result (m s) = Val a.

(** In every run of [m], at most [n] events satisfy [P]. *)
Definition at_most {A} (n : nat) (P : Event -> bool) (m : M A) : Prop :=
  forall s, (List.length (filter P (events (m s))) <= n)%nat.

End Properties.

(** ** The input settings of the engine

    [setup_input_mappings] changes the editor's input settings only
    through the host.  What it leaves there depends on what the host does
    with [remove_action_mapping], [add_action_mapping] and their axis
    twins; the engine's [UInputSettings] removes every stored mapping equal
    to the one given, and adds a mapping that is not stored yet at the end
    of the array. *)

Definition Qeqb_lit (a b : Q) : bool :=
  Z.eqb (Qnum a) (Qnum b) && Pos.eqb (Qden a) (Qden b).

Definition action_mapping_eqb (a b : InputActionKeyMapping) : bool :=
  String.eqb (action_name a) (action_name b)
  && String.eqb (action_key a) (action_key b)
  && Bool.eqb (b_shift a) (b_shift b) && Bool.eqb (b_ctrl a) (b_ctrl b)
  && Bool.eqb (b_alt a) (b_alt b) && Bool.eqb (b_cmd a) (b_cmd b).

Definition axis_mapping_eqb (a b : InputAxisKeyMapping) : bool :=
  String.eqb (axis_name a) (axis_name b)
  && String.eqb (axis_key a) (axis_key b)
  && Qeqb_lit (scale a) (scale b).

(** A host keeps the input settings as the engine does: [actions] and
    [axes] read the two arrays off its world; the getters return a copy of
    the array; removing drops every equal entry; adding an absent entry
    appends it; and the other calls of [setup_input_mappings] leave both
    arrays alone.  Only calls that return are constrained. *)
Record keeps_input_settings (H : Host)
    (actions : World -> list InputActionKeyMapping)
    (axes : World -> list InputAxisKeyMapping) : Prop := {
  get_default_object_law : forall w cls v w',
    respond w (get_default_object cls) = (Returns v, w') ->
    actions w' = actions w /\ axes w' = axes w;
  get_editor_subsystem_law : forall w cls v w',
    respond w (get_editor_subsystem cls) = (Returns v, w') ->
    actions w' = actions w /\ axes w' = axes w;
  save_config_file_law : forall w sub st v w',
    respond w (save_config_file sub st) = (Returns v, w') ->
    actions w' = actions w /\ axes w' = axes w;
  get_action_mappings_law : forall w st v w',
    respond w (get_action_mappings st) = (Returns v, w') ->
    v = VList (map VActionMapping (actions w))
    /\ actions w' = actions w /\ axes w' = axes w;
  get_axis_mappings_law : forall w st v w',
    respond w (get_axis_mappings st) = (Returns v, w') ->
    v = VList (map VAxisMapping (axes w))
    /\ actions w' = actions w /\ axes w' = axes w;
  remove_action_mapping_law : forall w st m v w',
    respond w (remove_action_mapping st (VActionMapping m)) = (Returns v, w') ->
    actions w' = filter (fun x => negb (action_mapping_eqb x m)) (actions w)
    /\ axes w' = axes w;
  remove_axis_mapping_law : forall w st m v w',
    respond w (remove_axis_mapping st (VAxisMapping m)) = (Returns v, w') ->
    axes w' = filter (fun x => negb (axis_mapping_eqb x m)) (axes w)
    /\ actions w' = actions w;
  add_action_mapping_law : forall w st m v w',
    respond w (add_action_mapping st (VActionMapping m)) = (Returns v, w') ->
    existsb (action_mapping_eqb m) (actions w) = false ->
    actions w' = (actions w ++ [m])%list /\ axes w' = axes w;
  add_axis_mapping_law : forall w st m v w',
    respond w (add_axis_mapping st (VAxisMapping m)) = (Returns v, w') ->
    existsb (axis_mapping_eqb m) (axes w) = false ->
    axes w' = (axes w ++ [m])%list /\ actions w' = actions w
}.

(** The names the two tables of [setup_input_mappings] bind. *)
Definition action_names : list string := map fst InputSetup.action_mappings.
Definition axis_names : list string :=
  map (fun a => fst (fst a)) InputSetup.axis_mappings.

Definition named (names : list string) (n : string) : bool :=
  existsb (String.eqb n) names.

(** ** Editors to run the scripts against

    A small editor, used to run the scripts on concrete inputs.  Its world
    is the two arrays of the input settings, kept as the engine keeps
    them; every other call succeeds with a fixed answer: directories
    exist, assets do not, blueprints have no components yet, the level
    has no actors.  [fault] overrides the answer to chosen calls.  Python
    refuses to compile internal_weapon_system.py (the attribute named
    class on line 453), so this editor answers [loader_get_code] for that
    file with a SyntaxError. *)

Record Editor := {
  action_store : list InputActionKeyMapping;
  axis_store : list InputAxisKeyMapping
}.

Definition editor_dir : string := "/Project/Content/Python".

Definition editor_respond (fault : Call -> option Reply)
    (w : Editor) (c : Call) : Reply * Editor :=
  match fault c with
  | Some r => (r, w)
  | None =>
    match c with
    | get_default_object _ => (Returns (VObj 1), w)
    | get_editor_subsystem _ => (Returns (VObj 2), w)
    | unreal_load_asset _ => (Returns (VObj 3), w)
    | BlueprintFactory => (Returns (VObj 4), w)
    | get_asset_tools => (Returns (VObj 5), w)
    | does_directory_exist _ => (Returns (VBool true), w)
    | does_asset_exist _ => (Returns (VBool false), w)
    | load_asset _ => (Returns (VObj 6), w)
    | load_blueprint_class _ => (Returns (VObj 7), w)
    | create_asset _ _ _ _ _ => (Returns (VObj 8), w)
    | add_new_component_to_blueprint _ _ _ name _ => (Returns (VObj (10 + String.length name)), w)
    | get_components_from_blueprint _ => (Returns (VList []), w)
    | does_member_variable_exist _ _ => (Returns (VBool false), w)
    | add_member_variable _ _ _ _ _ => (Returns (VBool true), w)
    | get_name _ => (Returns (VStr ""), w)
    | get_all_level_actors => (Returns (VList []), w)
    | get_actor_label _ => (Returns (VStr ""), w)
    | spawn_actor_from_class _ _ => (Returns (VObj 9), w)
    | get_action_mappings _ =>
        (Returns (VList (map VActionMapping (action_store w))), w)
    | get_axis_mappings _ =>
        (Returns (VList (map VAxisMapping (axis_store w))), w)
    | remove_action_mapping _ (VActionMapping m) =>
        (Returns VNone,
         {| action_store := filter (fun x => negb (action_mapping_eqb x m)) (action_store w);
            axis_store := axis_store w |})
    | remove_axis_mapping _ (VAxisMapping m) =>
        (Returns VNone,
         {| action_store := action_store w;
            axis_store := filter (fun x => negb (axis_mapping_eqb x m)) (axis_store w) |})
    | add_action_mapping _ (VActionMapping m) =>
        (Returns VNone,
         {| action_store :=
              if existsb (action_mapping_eqb m) (action_store w) then action_store w
              else (action_store w ++ [m])%list;
            axis_store := axis_store w |})
    | add_axis_mapping _ (VAxisMapping m) =>
        (Returns VNone,
         {| action_store := action_store w;
            axis_store :=
              if existsb (axis_mapping_eqb m) (axis_store w) then axis_store w
              else (axis_store w ++ [m])%list |})
    | remove_action_mapping _ _ | remove_axis_mapping _ _
    | add_action_mapping _ _ | add_axis_mapping _ _ =>
        (Raises "TypeError: wrong mapping type", w)
    | spec_from_file_location _ _ => (Returns (VObj 20), w)
    | module_from_spec _ => (Returns (VObj 21), w)
    | loader_get_code path =>
        if String.eqb path (editor_dir ++ "/internal_weapon_system.py")
        then (Raises "SyntaxError: invalid syntax", w)
        else (Returns VNone, w)
    | _ => (Returns VNone, w)
    end
  end.

Definition editor (fault : Call -> option Reply) : Host :=
  {| World := Editor; respond := editor_respond fault; SCRIPT_DIR := editor_dir |}.

Definition no_fault (c : Call) : option Reply := None.

(** The asset tools fail to create any asset: [create_asset] returns
    [None]. *)
Definition create_returns_none (c : Call) : option Reply :=
  match c with
  | create_asset _ _ _ _ _ => Some (Returns VNone)
  | _ => None
  end.

(** The asset tools raise on [create_asset]. *)
Definition create_raises (c : Call) : option Reply :=
  match c with
  | create_asset _ _ _ _ _ => Some (Raises "RuntimeError: asset tools failed")
  | _ => None
  end.

(** The blueprint editor cannot add the collision sphere: it returns
    [None] for that component and adds the others. *)
Definition no_collision_sphere (c : Call) : option Reply :=
  match c with
  | add_new_component_to_blueprint _ _ _ name _ =>
      if String.eqb name "CollisionSphere" then Some (Returns VNone) else None
  | _ => None
  end.

(** An editor that already has two bindings named Boost and one named
    Jump. *)
Definition used_editor : Editor :=
  {| action_store :=
       [ InputSetup.new_action_mapping "Boost" "SpaceBar";
         InputSetup.new_action_mapping "Jump" "J";
         InputSetup.new_action_mapping "Boost" "E" ];
     axis_store := [ InputSetup.new_axis_mapping "Turn" "Gamepad_RightX" 1.0%Q ] |}.

Definition fresh_editor : Editor := {| action_store := []; axis_store := [] |}.

(** The interpreter before a script runs, on the editor with [fault]. *)
Definition start (fault : Call -> option Reply) (w : Editor) : @PyState (editor fault) :=
  {| world := w : @World (editor fault); sys_path := [] |}.


(** The state after a call: the host's new world, [sys.path] untouched. *)
Definition after {H : Host} (s : PyState) (w : World) : PyState :=
  {| world := w; sys_path := sys_path s |}.

(** What [ensure_directory_exists] gives, read off the host's answers: the
    exception of the first call that raises, and [True] otherwise. *)
Definition ensure_directory_result {H : Host} (path : string) (s : PyState) : Res bool :=
  match respond (world s) (does_directory_exist path) with
  | (Raises e, _) => Exc e
  | (Returns found, w) =>
      if truthy found then Val true
      else match respond w (make_directory path) with
           | (Raises e, _) => Exc e
           | (Returns _, _) => Val true
           end
  end.

(** The event is the logged line [text]. *)
Definition logs_text (text : string) (e : Event) : bool :=
  match e with
  | ELog _ [Txt t] => String.eqb t text
  | _ => false
  end.

(** ** Check, then load or create

    What C3 asks of a creation function, read on the events of a run. *)

Definition is_asset_check (path : string) (e : Event) : bool :=
  match e with
  | ECall (does_asset_exist p) _ => String.eqb p path
  | _ => false
  end.

(** No asset is loaded or created before the host was asked whether the
    asset at [path] exists; [seen] says whether it was asked already. *)
Fixpoint checked_first (path : string) (seen : bool) (evs : list Event) : bool :=
  match evs with
  | [] => true
  | e :: rest =>
      if is_load_asset e || is_create_asset e
      then seen && checked_first path seen rest
      else checked_first path (seen || is_asset_check path e) rest
  end.

(** [m] run from [s] gives [r], produces the events [t] and leaves the
    interpreter in [s']. *)
Definition runs {H : Host} {A} (m : M A) (s : PyState)
    (r : Res A) (t : list Event) (s' : PyState) : Prop :=
  m s = mkRun r s' t.

(** ** A run of the complete setup *)

(** [import_and_run_module] on the script [name], whose file is [file] in
    [SCRIPT_DIR], from the state [s]. *)
Definition run_script {H : Host} (name file : string) (s : PyState) : Run bool :=
  Complete.import_and_run_module name (Complete.path_join SCRIPT_DIR file) s.

(** The line [main] logs when a script gave [False]. *)
Definition failure_warning (name : string) : Event :=
  ELog "[SETUP] " (txt ("⚠️ Failed to run script: " ++ name)).

(** One turn of the loop of [main]: the announcement, the run [r] of the
    script, and the warning if the run gave [False]. *)
Definition script_events {H : Host} (name : string) (r : Run bool) : list Event :=
  ELog "[SETUP] " (txt ("Running script: " ++ name))
  :: events r
  ++ match result r with Val false => [failure_warning name] | _ => [] end.

(** The three lines [main] ends with. *)
Definition completion_logs : list Event :=
  [ ELog "[SETUP] " "✅ Space Dogfight setup process completed!";
    ELog "[SETUP] " "Open the BP_Spaceship asset to verify all components were created correctly";
    ELog "[SETUP] " "Some manual setup may be required - see README.md for details" ].

(** The body of the loop of [main] for the script [name] in [file]. *)
Definition turn {H : Host} (name file : string) : M unit :=
  Complete.log (txt ("Running script: " ++ name)) ;;
  success <- Complete.import_and_run_module name (Complete.path_join SCRIPT_DIR file) ;;
  if negb success then Complete.log (txt ("⚠️ Failed to run script: " ++ name))
  else ret tt.

(** [Complete.main] with its loop over the three scripts written out. *)
Definition unrolled_main {H : Host} : M unit :=
  enter "internal_complete_setup.main" [] ;;
  Complete.log "Starting complete Space Dogfight setup process..." ;;
  (turn "internal_spaceship_creator" "internal_spaceship_creator.py" ;;
   turn "internal_input_setup" "internal_input_setup.py" ;;
   turn "internal_weapon_system" "internal_weapon_system.py" ;;
   ret tt) ;;
  Complete.log "✅ Space Dogfight setup process completed!" ;;
  Complete.log "Open the BP_Spaceship asset to verify all components were created correctly" ;;
  Complete.log "Some manual setup may be required - see README.md for details".

(** The entry of [import_and_run_module] for a script. *)
Definition import_entry {H : Host} (name file : string) : Event :=
  EEnter "internal_complete_setup.import_and_run_module"
         [VStr name; VStr (Complete.path_join SCRIPT_DIR file)].

(** ** The stages of the script mains *)

(** The state in which [Weapon.main] turns to the missile, when the
    creation of the laser blueprint returned: the state the creation left if
    it gave [None], and the state its component setup left otherwise. *)
Definition after_laser {H : Host} (s : PyState) : PyState :=
  let created := Weapon.create_laser_projectile_blueprint s in
  match result created with
  | Val laser_bp =>
      if is_none laser_bp then final created
      else final (Weapon.setup_laser_components laser_bp (final created))
  | Exc _ => final created
  end.

(** The state in which it turns to the weapon mounts of the spaceship, when
    the creation of the missile blueprint returned. *)
Definition after_missile {H : Host} (s : PyState) : PyState :=
  let created := Weapon.create_missile_projectile_blueprint (after_laser s) in
  match result created with
  | Val missile_bp =>
      if is_none missile_bp then final created
      else final (Weapon.setup_missile_components missile_bp (final created))
  | Exc _ => final created
  end.

(** What [Creator.main] does once it has a blueprint. *)
Definition creator_steps {H : Host} (blueprint : Value) : M unit :=
  ok <- Creator.add_components_to_blueprint blueprint ;;
  (if negb ok then
     Creator.log "Failed to add components to blueprint, continuing anyway"
   else ret tt) ;;
  ok <- Creator.add_blueprint_variables blueprint ;;
  (if negb ok then
     Creator.log "Failed to add variables to blueprint, continuing anyway"
   else ret tt) ;;
  ok <- Creator.spawn_test_instance ;;
  (if negb ok then
     Creator.log "Failed to spawn test instance, continuing anyway"
   else ret tt) ;;
  Creator.log "Spaceship setup completed!" ;;
  Creator.log "You can now use the blueprint in the Unreal Editor" ;;
  Creator.log (txt ("Blueprint path: " ++ Creator.SPACESHIP_FULL_PATH)) ;;
  Creator.log "Test instance spawned in the current level".

(** The line [Creator.main] stops with when it has no blueprint. *)
Definition creator_abort_log : Event :=
  ELog "[SPACESHIP CREATOR] " "Failed to create or get spaceship blueprint, aborting".

(** ** Loading a script *)

(** The interpreter once [import_and_run_module] has seen to it that
    [SCRIPT_DIR] is on [sys.path]. *)
Definition with_script_dir {H : Host} (s : PyState) : PyState :=
  if existsb (String.eqb SCRIPT_DIR) (sys_path s) then s
  else {| world := world s; sys_path := sys_path s ++ [SCRIPT_DIR] |}.

(** From [s] the import machinery finds, creates and compiles the module
    [name] at [path], and the module's top level starts in [s']. *)
Definition module_loads {H : Host} (name path : string) (s s' : PyState) : Prop :=
  exists spec w1 module w2 code w3,
    respond (world s) (spec_from_file_location name path) = (Returns spec, w1)
    /\ truthy spec = true
    /\ respond w1 (module_from_spec spec) = (Returns module, w2)
    /\ truthy module = true
    /\ respond w2 (loader_get_code path) = (Returns code, w3)
    /\ s' = after (with_script_dir s) w3.

(** ** Reading the end of a run *)

(** The events [evs] end with [suffix]. *)
Definition ends_with (suffix evs : list Event) : Prop :=
  exists before, evs = (before ++ suffix)%list.

(** ** The components of the spaceship

    The fixed names and values of [add_components_to_blueprint], as C4
    lists them. *)

Definition collision_properties : list (string * Value) :=
  [ ("SphereRadius", VFloat 50.0) ].

Definition spring_arm_properties : list (string * Value) :=
  [ ("TargetArmLength", VFloat 400.0);
    ("bEnableCameraLag", VBool true);
    ("bEnableCameraRotationLag", VBool true);
    ("CameraLagSpeed", VFloat 5.0);
    ("CameraRotationLagSpeed", VFloat 5.0);
    ("bUsePawnControlRotation", VBool true);
    ("RelativeLocation", VVector 0.0 0.0 50.0);
    ("RelativeRotation", VRotator (-20.0) 0.0 0.0) ].

Definition camera_properties : list (string * Value) :=
  [ ("FieldOfView", VFloat 90.0) ].

Definition movement_properties : list (string * Value) :=
  [ ("MaxSpeed", VFloat 1000.0);
    ("Acceleration", VFloat 4000.0);
    ("Deceleration", VFloat 2000.0);
    ("TurningBoost", VFloat 8.0);
    ("bConstrainToPlane", VBool false) ].

(** The properties set on the component [obj]: all of [props], in order,
    when the host gave a component, and none when it gave [None]. *)
Definition property_calls (obj : Value) (props : list (string * Value)) : list Call :=
  if is_none obj then []
  else map (fun p => set_editor_property obj (fst p) (snd p)) props.

(** The mesh of the ship is set to the cone when the host gave both. *)
Definition mesh_calls (mesh cone : Value) : list Call :=
  if is_none mesh || is_none cone then []
  else [set_editor_property mesh "StaticMesh" cone].

(** The request to add the component [name] of class [cls] under [parent]
    to [blueprint], answered with [v]. *)
Definition added (editor blueprint : Value) (cls name : string)
    (parent : option Value) (v : Value) : Event :=
  ECall (add_new_component_to_blueprint editor blueprint (VClass cls) name parent)
        (Returns v).

(** The call sets the property [name]. *)
Definition sets_property (name : string) (c : Call) : bool :=
  match c with
  | set_editor_property _ n _ => String.eqb n name
  | _ => false
  end.

(** ** The input settings after the setup (C8) *)

(** The stored mappings bound to the name [n]. *)
Definition actions_named (n : string) (l : list InputActionKeyMapping) :
    list InputActionKeyMapping :=
  filter (fun m => String.eqb (action_name m) n) l.

Definition axes_named (n : string) (l : list InputAxisKeyMapping) :
    list InputAxisKeyMapping :=
  filter (fun m => String.eqb (axis_name m) n) l.

(** The stored mappings whose name is not one of the tables'. *)
Definition other_actions (l : list InputActionKeyMapping) : list InputActionKeyMapping :=
  filter (fun m => negb (named action_names (action_name m))) l.

Definition other_axes (l : list InputAxisKeyMapping) : list InputAxisKeyMapping :=
  filter (fun m => negb (named axis_names (axis_name m))) l.

(** The mappings the tables list for the name [n]. *)
Definition table_actions (n : string) : list InputActionKeyMapping :=
  map InputSetup.action_mapping_of
      (filter (fun a => String.eqb (fst a) n) InputSetup.action_mappings).

Definition table_axes (n : string) : list InputAxisKeyMapping :=
  map InputSetup.axis_mapping_of
      (filter (fun a => String.eqb (fst (fst a)) n) InputSetup.axis_mappings).

(** What the removal loops take out of the store: [x] goes when it equals
    an entry of the snapshot whose name is one of [names]. *)
Definition removed_by {T} (name : T -> string) (eqb : T -> T -> bool)
    (names : list string) (snapshot : list T) (x : T) : bool :=
  existsb (fun n => existsb (fun e => String.eqb (name e) n && eqb x e) snapshot) names.


(** * More of the scripts: what the other functions do *)

(** ** The variables of the spaceship blueprint *)

Definition is_variable_check (e : Event) : bool :=
  match e with ECall (does_member_variable_exist _ _) _ => true | _ => false end.

(** The variables a run asked the editor to add: blueprint, name, pin
    type, default value. *)
Definition added_variables (evs : list Event) : list (Value * string * Value * Value) :=
  flat_map (fun e => match e with
                     | ECall (add_member_variable _ bp n ty d) _ => [(bp, n, ty, d)]
                     | _ => []
                     end) evs.

Definition is_add_variable (e : Event) : bool :=
  match e with ECall (add_member_variable _ _ _ _ _) _ => true | _ => false end.

(** The run was told that the blueprint has no variable [n]. *)
Definition answered_absent (evs : list Event) (n : string) : bool :=
  existsb (fun e => match e with
                    | ECall (does_member_variable_exist _ m) (Returns found) =>
                        String.eqb m n && negb (truthy found)
                    | _ => false
                    end) evs.

(** What [add_blueprint_variables] asks for the row [var] of its table. *)
Definition variable_check (bp : Value) (var : string * Value * Value) : Call :=
  does_member_variable_exist bp (Creator.var_name var).

Definition variable_row (bp : Value) (var : string * Value * Value) :
    Value * string * Value * Value :=
  (bp, Creator.var_name var, Creator.var_type var, Creator.var_default var).

(** The body of the loop of [add_blueprint_variables], for one row. *)
Definition add_one_variable {H : Host} (blueprint_editor blueprint : Value)
    (var : string * Value * Value) : M unit :=
  try_except
    (found <- call (does_member_variable_exist blueprint (Creator.var_name var)) ;;
     if truthy found then
       Creator.log (txt ("Variable " ++ Creator.var_name var ++ " already exists, skipping"))
     else
       added <- call (add_member_variable blueprint_editor blueprint
                        (Creator.var_name var) (Creator.var_type var)
                        (Creator.var_default var)) ;;
       if truthy added then
         Creator.log [Txt ("Added variable " ++ Creator.var_name var ++ " with value ");
                      Fmt (Creator.var_default var)]
       else Creator.log (txt ("Failed to add variable " ++ Creator.var_name var)))
    (fun var_error =>
       Creator.log (txt ("Error adding variable " ++ Creator.var_name var ++ ": "
                         ++ var_error))).

(** How a run of [add_blueprint_variables] ends once the loop is over. *)
Definition variables_error (e : Exn) : Event :=
  ELog "[SPACESHIP CREATOR] " (txt ("Error adding blueprint variables: " ++ e)).

Definition variables_done : Event :=
  ELog "[SPACESHIP CREATOR] " "Successfully added variables to spaceship blueprint".

(** An editor on which every question about a member variable raises. *)
Definition variable_checks_raise (c : Call) : option Reply :=
  match c with
  | does_member_variable_exist _ _ => Some (Raises "RuntimeError: blueprint is locked")
  | _ => None
  end.

(** ** The test instance in the level *)

Definition is_destroy (e : Event) : bool :=
  match e with ECall (destroy_actor _) _ => true | _ => false end.

Definition is_spawn (e : Event) : bool :=
  match e with ECall (spawn_actor_from_class _ _) _ => true | _ => false end.

Definition is_label_query (e : Event) : bool :=
  match e with ECall (get_actor_label _) _ => true | _ => false end.

(** The host answered that an actor carries the label of the test
    instance. *)
Definition found_test_instance (e : Event) : bool :=
  match e with
  | ECall (get_actor_label _) (Returns label) => eq_str label "TestSpaceship"
  | _ => false
  end.

(** Where [spawn_test_instance] puts the ship: 200 units up, not rotated,
    at scale one. *)
Definition spawn_transform : Value :=
  VTransform (VVector 0.0 0.0 200.0) (VRotator 0.0 0.0 0.0) (VVector 1.0 1.0 1.0).

(** Events that neither destroy an actor nor find a test instance. *)
Definition quiet_about_actors (evs : list Event) : Prop :=
  filter is_destroy evs = [] /\ filter found_test_instance evs = [].

(** ** The interpreter's search path *)

(** [m] leaves [sys.path] as it was, however it ends. *)
Definition keeps_sys_path {H : Host} {A} (m : M A) : Prop :=
  forall s, sys_path (final (m s)) = sys_path s.

(** [sys.path] once [SCRIPT_DIR] is on it: appended when it was absent. *)
Definition path_with_script_dir {H : Host} (path : list string) : list string :=
  if existsb (String.eqb SCRIPT_DIR) path then path else (path ++ [SCRIPT_DIR])%list.

(** [m] leaves [sys.path] with [SCRIPT_DIR] on it and otherwise as it
    was. *)
Definition settles_sys_path {H : Host} {A} (m : M A) : Prop :=
  forall s, sys_path (final (m s)) = path_with_script_dir (sys_path s).

(** ** Loading a script *)

Definition is_entry (e : Event) : bool :=
  match e with EEnter _ _ => true | _ => false end.

Definition is_loader_call (e : Event) : bool :=
  match e with ECall (loader_get_code _) _ => true | _ => false end.

(** The import machinery finds no spec for any file. *)
Definition no_module_spec (c : Call) : option Reply :=
  match c with
  | spec_from_file_location _ _ => Some (Returns VNone)
  | _ => None
  end.

(** ** Searching the components of a blueprint *)

Definition is_get_name (e : Event) : bool :=
  match e with ECall (get_name _) _ => true | _ => false end.

(** The components whose name the run asked for, in order. *)
Definition asked_names (evs : list Event) : list Value :=
  flat_map (fun e => match e with ECall (get_name comp) _ => [comp] | _ => [] end) evs.

(** The first component the host named [name], if there is one. *)
Fixpoint search_result (name : string) (evs : list Event) : option Value :=
  match evs with
  | [] => None
  | ECall (get_name comp) (Returns n) :: rest =>
      if eq_str n name then Some comp else search_result name rest
  | _ :: rest => search_result name rest
  end.

(** [root_comp] after the search loop of a setup function: the component
    found, [None] when there is none. *)
Definition root_found (evs : list Event) : Value :=
  match search_result "DefaultSceneRoot" evs with
  | Some comp => comp
  | None => VNone
  end.

(** ** The weapons *)

(** The host answered that a component is named ShipMesh. *)
Definition found_ship_mesh (e : Event) : bool :=
  match e with
  | ECall (get_name _) (Returns n) => eq_str n "ShipMesh"
  | _ => false
  end.

Definition is_compile_or_save (e : Event) : bool :=
  match e with
  | ECall (compile_blueprint _ _) _ | ECall (save_asset _) _ => true
  | _ => false
  end.

(** The run asked for no component and no variable, and neither compiled
    nor saved. *)
Definition adds_nothing_to_blueprint (evs : list Event) : Prop :=
  filter is_add_component evs = [] /\ filter is_compile_or_save evs = []
  /\ filter is_add_variable evs = [].

(** Where [add_weapon_components_to_spaceship] puts the three mounts,
    relative to the mesh of the ship. *)
Definition left_mount_properties : list (string * Value) :=
  [ ("RelativeLocation", VVector (-30.0) (-30.0) 0.0) ].

Definition right_mount_properties : list (string * Value) :=
  [ ("RelativeLocation", VVector (-30.0) 30.0 0.0) ].

Definition center_mount_properties : list (string * Value) :=
  [ ("RelativeLocation", VVector (-30.0) 0.0 (-20.0)) ].

(** The variables [add_weapon_components_to_spaceship] adds to the
    spaceship: name, pin type, default value. *)
Definition weapon_variables : list (string * Value * Value) :=
  [ ("LaserCooldown", Weapon.float_pin, VFloat 0.2);
    ("MissileCooldown", Weapon.float_pin, VFloat 2.0);
    ("MaxMissiles", Weapon.int_pin, VInt 8);
    ("CurrentMissiles", Weapon.int_pin, VInt 8);
    ("LaserProjectileClass", VPinType "class" VNone, VNone);
    ("MissileProjectileClass", VPinType "class" VNone, VNone) ].

(** The variables of the laser and of the missile. *)
Definition laser_variables : list (string * Value * Value) :=
  [ ("Damage", Weapon.float_pin, VFloat 20.0);
    ("Lifetime", Weapon.float_pin, VFloat 2.0) ].

Definition missile_variables : list (string * Value * Value) :=
  [ ("Damage", Weapon.float_pin, VFloat 50.0);
    ("Lifetime", Weapon.float_pin, VFloat 5.0);
    ("ExplosionRadius", Weapon.float_pin, VFloat 200.0);
    ("HomingTarget", VPinType "object" (VClass "Actor"), VNone) ].

(** The properties of the components of the two projectiles. *)
Definition laser_movement_properties : list (string * Value) :=
  [ ("InitialSpeed", VFloat 8000.0);
    ("MaxSpeed", VFloat 8000.0);
    ("bRotationFollowsVelocity", VBool true);
    ("ProjectileGravityScale", VFloat 0.0) ].

Definition laser_visual_properties : list (string * Value) :=
  [ ("RelativeScale3D", VVector 0.1 0.1 1.5);
    ("RelativeRotation", VRotator 90.0 0.0 0.0) ].

Definition laser_collision_properties : list (string * Value) :=
  [ ("CapsuleHalfHeight", VFloat 75.0);
    ("CapsuleRadius", VFloat 5.0);
    ("CollisionEnabled", Weapon.query_only);
    ("RelativeRotation", VRotator 90.0 0.0 0.0) ].

Definition missile_movement_properties : list (string * Value) :=
  [ ("InitialSpeed", VFloat 3000.0);
    ("MaxSpeed", VFloat 6000.0);
    ("bRotationFollowsVelocity", VBool true);
    ("ProjectileGravityScale", VFloat 0.0);
    ("bIsHomingProjectile", VBool true);
    ("HomingAccelerationMagnitude", VFloat 8000.0) ].

Definition missile_visual_properties : list (string * Value) :=
  [ ("RelativeScale3D", VVector 0.3 0.3 0.6);
    ("RelativeRotation", VRotator 0.0 0.0 0.0) ].

Definition missile_collision_properties : list (string * Value) :=
  [ ("SphereRadius", VFloat 15.0);
    ("CollisionEnabled", Weapon.query_only) ].

(** The properties set on the visual component [obj] of a projectile: its
    mesh and then [props], when the host gave both the component and the
    mesh, and none otherwise. *)
Definition visual_calls (obj mesh : Value) (props : list (string * Value)) : list Call :=
  if is_none obj || is_none mesh then []
  else set_editor_property obj "StaticMesh" mesh
       :: map (fun p => set_editor_property obj (fst p) (snd p)) props.

(** What a run that set up a projectile did: the root is the first
    component the host named DefaultSceneRoot, or, when there is none, the
    one requested under that name first; the run requested the movement,
    the visual and the collision component, in this order and under the
    root; it set the fixed properties on each component the host gave, the
    visual's, with the mesh loaded from [mesh_path], only when that mesh
    was given as well; it requested the variables of
    [vars] in order, up to the first that raised; and it ended with the
    compilation, the saving of [path] and the line [done]. *)
Definition projectile_set_up (evs : list Event) (bp : Value) (path : string)
    (visual_name collision_class collision_name mesh_path : string)
    (movement_props visual_props collision_props : list (string * Value))
    (vars : list (string * Value * Value)) (done : string) : Prop :=
  exists ed root movement visual mesh collision k compiled saved,
    In (ECall (get_editor_subsystem (VType "BlueprintEditorSubsystem")) (Returns ed)) evs
    /\ (is_none (root_found evs) = false -> root = root_found evs)
    /\ filter is_add_component evs
       = ((if is_none (root_found evs)
           then [added ed bp "SceneComponent" "DefaultSceneRoot" None root]
           else [])
          ++ [ added ed bp "ProjectileMovementComponent" "ProjectileMovement"
                     (Some root) movement;
               added ed bp "StaticMeshComponent" visual_name (Some root) visual;
               added ed bp collision_class collision_name (Some root) collision ])%list
    /\ (is_none visual = false ->
        In (ECall (unreal_load_asset mesh_path) (Returns mesh)) evs)
    /\ calls (filter is_set_property evs)
       = (property_calls movement movement_props
          ++ visual_calls visual mesh visual_props
          ++ property_calls collision collision_props)%list
    /\ added_variables evs = firstn k (map (variable_row bp) vars)
    /\ ends_with [ ECall (compile_blueprint ed bp) (Returns compiled);
                   ECall (save_asset path) (Returns saved);
                   ELog "[WEAPON SYSTEM] " (txt done) ]
                 evs.

(** An editor whose blueprints have one component, named ShipMesh. *)
Definition ship_mesh_there (c : Call) : option Reply :=
  match c with
  | get_components_from_blueprint _ => Some (Returns (VList [VObj 18]))
  | get_name _ => Some (Returns (VStr "ShipMesh"))
  | _ => None
  end.

(** ** The input settings, in every run *)

Definition is_save_config (e : Event) : bool :=
  match e with ECall (save_config_file _ _) _ => true | _ => false end.

(** All the mappings of the two tables, added to [settings]. *)
Definition all_mappings_added (settings : Value) : list Call :=
  (map (fun a => add_action_mapping settings (VActionMapping (InputSetup.action_mapping_of a)))
       InputSetup.action_mappings
   ++ map (fun a => add_axis_mapping settings (VAxisMapping (InputSetup.axis_mapping_of a)))
          InputSetup.axis_mappings)%list.

(** The run asked to remove a mapping that does not bear one of the names
    of the tables. *)
Definition removes_other_name (e : Event) : bool :=
  match e with
  | ECall (remove_action_mapping _ v) _ =>
      match v with
      | VActionMapping m => negb (named action_names (action_name m))
      | _ => true
      end
  | ECall (remove_axis_mapping _ v) _ =>
      match v with
      | VAxisMapping m => negb (named axis_names (axis_name m))
      | _ => true
      end
  | _ => false
  end.

(** The editor has no input settings object. *)
Definition no_input_settings (c : Call) : option Reply :=
  match c with
  | get_default_object _ => Some (Returns VNone)
  | _ => None
  end.

(** ** What the mains report *)

(** The four lines [internal_spaceship_creator.main] ends with when it
    had a blueprint. *)
Definition creator_closing : list Event :=
  [ ELog "[SPACESHIP CREATOR] " "Spaceship setup completed!";
    ELog "[SPACESHIP CREATOR] " "You can now use the blueprint in the Unreal Editor";
    ELog "[SPACESHIP CREATOR] " (txt ("Blueprint path: " ++ Creator.SPACESHIP_FULL_PATH));
    ELog "[SPACESHIP CREATOR] " "Test instance spawned in the current level" ].

(** How [internal_input_setup.main] ends, by what
    [setup_input_mappings] gave. *)
Definition input_closing (ok : bool) : list Event :=
  if ok then
    [ ELog "[INPUT SETUP] " "Input control system setup completed!";
      ELog "[INPUT SETUP] " "You can now use the input mappings in the game";
      ELog "[INPUT SETUP] "
           "To test them, enter Play-in-Editor mode and use the WASD keys for movement, mouse for aim" ]
  else [ ELog "[INPUT SETUP] " "Failed to set up input mappings, aborting" ].

(** The level cannot take a new actor: [spawn_actor_from_class] gives
    [None]. *)
Definition spawn_gives_none (c : Call) : option Reply :=
  match c with
  | spawn_actor_from_class _ _ => Some (Returns VNone)
  | _ => None
  end.


(** * Definitions for the handlers, the creation functions and the loader *)

(** ** A module that does not load *)

(** From [s] the import machinery does not get as far as the top level of
    the module [name] at [path]: there is no spec, or no module, or the
    loader raises. *)
Definition module_does_not_load {H : Host} (name path : string) (s : PyState) : Prop :=
  forall s', ~ module_loads name path s s'.

(** ** Check, then load or create (C3) *)

(** The calls that prepare the creation of a blueprint: the factory, its
    parent class, the asset tools. *)
Definition is_preparation (c : Call) : bool :=
  match c with
  | BlueprintFactory | get_asset_tools => true
  | set_editor_property _ prop _ => String.eqb prop "ParentClass"
  | _ => false
  end.

Definition prepares (e : Event) : bool :=
  match e with ECall c _ => is_preparation c | _ => false end.

(** [create], whose directory step is [ensure], makes the blueprint [name]
    of parent class [parent] in [dir] the way C3 says, on every host:
    - when the directory step raises, so does [create], and nothing is
      checked, loaded or created;
    - when it returns, the host is asked once whether the asset exists,
      and before anything is loaded or created;
    - when that question raises, so does [create], and nothing is loaded
      or created;
    - when the host says the asset exists, nothing is created, the asset
      is loaded once, and what [load_asset] gives is what [create] gives;
    - when the host says it does not, nothing is loaded; the factory, its
      parent class and the asset tools are asked for, and [create_asset]
      is called once, for [name] in [dir], with the tools and the factory
      the host gave, and what it gives is what [create] gives; unless one
      of the three preparing calls raised, which ends the run with that
      exception and without a creation. *)
Definition check_load_or_create {H : Host} (ensure : string -> M bool)
    (create : M Value) (dir name parent : string) : Prop :=
  forall s,
    let path := dir ++ "/" ++ name in
    let evs := events (create s) in
    match result (ensure dir s) with
    | Exc e =>
        result (create s) = Exc e
        /\ filter (is_asset_check path) evs = []
        /\ filter is_load_asset evs = [] /\ filter is_create_asset evs = []
    | Val _ =>
        exists r,
          filter (is_asset_check path) evs = [ECall (does_asset_exist path) r]
          /\ checked_first path false evs = true
          /\ match r with
             | Raises e =>
                 result (create s) = Exc e
                 /\ filter is_load_asset evs = [] /\ filter is_create_asset evs = []
             | Returns found =>
                 if truthy found then
                   filter is_create_asset evs = []
                   /\ exists r', filter is_load_asset evs = [ECall (load_asset path) r']
                                 /\ result (create s) = res_of r'
                 else
                   filter is_load_asset evs = []
                   /\ ((exists factory v tools r',
                          filter prepares evs
                          = [ ECall BlueprintFactory (Returns factory);
                              ECall (set_editor_property factory "ParentClass"
                                       (VType parent)) (Returns v);
                              ECall get_asset_tools (Returns tools) ]
                          /\ filter is_create_asset evs
                             = [ECall (create_asset tools name dir VNone factory) r']
                          /\ result (create s) = res_of r')
                       \/ (exists c e,
                             is_preparation c = true
                             /\ ends_with [ECall c (Raises e)] evs
                             /\ filter is_create_asset evs = []
                             /\ result (create s) = Exc e))
             end
    end.

(** ** Exceptions of host calls (C1) *)

(** The text [s] ends with [e]. *)
Fixpoint ends_with_text (e s : string) : bool :=
  String.eqb e s
  || match s with
     | EmptyString => false
     | String _ s' => ends_with_text e s'
     end.

(** The event is a logged line that ends with the text of [e]. *)
Definition reports (e : Exn) (ev : Event) : bool :=
  match ev with
  | ELog _ [Txt s] => ends_with_text e s
  | _ => false
  end.

(** Every host call of [evs] that raised is directly followed by a logged
    line that ends with the text of its exception. *)
Fixpoint raises_logged (evs : list Event) : bool :=
  match evs with
  | [] => true
  | ECall _ (Raises e) :: rest =>
      match rest with
      | next :: _ => reports e next
      | [] => false
      end && raises_logged rest
  | _ :: rest => raises_logged rest
  end.

(** A run has accounted for its exceptions: every host call that raised
    was logged, but for the last event of a run that raises, when that
    event is the call whose exception is leaving. *)
Definition accounted {A} (r : Res A) (evs : list Event) : Prop :=
  match r with
  | Val _ => raises_logged evs = true
  | Exc e =>
      raises_logged evs = true
      \/ exists pre c, evs = (pre ++ [ECall c (Raises e)])%list
                       /\ raises_logged pre = true
  end.

Definition logs_raises {H : Host} {A} (m : M A) : Prop :=
  forall s, accounted (result (m s)) (events (m s)).

(** The function [f], entered as [fn args], is [body] in a [try] whose
    handler logs [msg e] and returns [False]: when the body returns, [f]
    returns the same and logs nothing more; when the body raises [e], [f]
    returns [False] and its last event is the logged line. *)
Definition try_logs_false {H : Host} (fn : string) (args : list Value)
    (prefix : string) (msg : Exn -> string) (body f : M bool) : Prop :=
  forall s,
    match result (body s) with
    | Val b =>
        result (f s) = Val b /\ events (f s) = EEnter fn args :: events (body s)
    | Exc e =>
        result (f s) = Val false
        /\ events (f s)
           = EEnter fn args :: (events (body s) ++ [ELog prefix (txt (msg e))])%list
    end.

(** [m] has no handler for the calls of [P]: when one of them raises in a
    run of [m], its exception is the result of the run. *)
Definition propagates {H : Host} {A} (P : Call -> bool) (m : M A) : Prop :=
  forall s c e,
    P c = true -> In (ECall c (Raises e)) (events (m s)) -> result (m s) = Exc e.

Definition any_call (c : Call) : bool := true.

(** The host calls of the creation functions of a script whose assets are
    at [assets]: the directory, the question about the asset, its loading,
    the factory with its parent class, the asset tools, the creation. *)
Definition is_creation_call (assets : list string) (c : Call) : bool :=
  match c with
  | does_directory_exist _ | make_directory _ | BlueprintFactory
  | get_asset_tools | create_asset _ _ _ _ _ => true
  | does_asset_exist path | load_asset path => existsb (String.eqb path) assets
  | set_editor_property _ prop _ => String.eqb prop "ParentClass"
  | _ => false
  end.

(** The same, as a test on events. *)
Definition is_creation_event (assets : list string) (ev : Event) : bool :=
  match ev with
  | ECall c r => is_creation_call assets c
  | _ => false
  end.

Open Scope list_scope.
Open Scope nat_scope.


(** * Laws of the monad *)

Section Laws.
Context {H : Host}.

Lemma run_ext {A} (a b : Run A) :
  result a = result b -> final a = final b -> events a = events b -> a = b.
Proof. destruct a, b; cbn; intros; subst; reflexivity. Qed.

Lemma run_bind {A B} (m : M A) (f : A -> M B) s :
  bind m f s =
  match result (m s) with
  | Val a => mkRun (result (f a (final (m s)))) (final (f a (final (m s))))
                   (events (m s) ++ events (f a (final (m s))))
  | Exc e => mkRun (Exc e) (final (m s)) (events (m s))
  end.
Proof. reflexivity. Qed.

Lemma bind_assoc {A B C} (m : M A) (f : A -> M B) (g : B -> M C) s :
  bind (bind m f) g s = bind m (fun a => bind (f a) g) s.
Proof.
  rewrite !run_bind. destruct (result (m s)) as [a|e]; cbn; [|reflexivity].
  rewrite !run_bind. destruct (result (f a (final (m s)))) as [b|e]; cbn; [|reflexivity].
  now rewrite app_assoc.
Qed.

(** Projections of a bind whose first part is known. *)
Lemma bind_val {A B} (m : M A) (f : A -> M B) s a :
  result (m s) = Val a ->
  result (bind m f s) = result (f a (final (m s)))
  /\ final (bind m f s) = final (f a (final (m s)))
  /\ events (bind m f s) = events (m s) ++ events (f a (final (m s))).
Proof. intros E. rewrite run_bind, E. auto. Qed.

Lemma bind_exc {A B} (m : M A) (f : A -> M B) s e :
  result (m s) = Exc e ->
  result (bind m f s) = Exc e
  /\ final (bind m f s) = final (m s)
  /\ events (bind m f s) = events (m s).
Proof. intros E. rewrite run_bind, E. auto. Qed.

Lemma bind_val_run {A B} (m : M A) (f : A -> M B) s a :
  result (m s) = Val a ->
  bind m f s =
  mkRun (result (f a (final (m s)))) (final (f a (final (m s))))
        (events (m s) ++ events (f a (final (m s)))).
Proof. intros E. rewrite run_bind, E. reflexivity. Qed.

Lemma bind_exc_run {A B} (m : M A) (f : A -> M B) s e :
  result (m s) = Exc e ->
  bind m f s = mkRun (Exc e) (final (m s)) (events (m s)).
Proof. intros E. rewrite run_bind, E. reflexivity. Qed.

Lemma bind_ret {A B} (a : A) (f : A -> M B) s : bind (ret a) f s = f a s.
Proof. apply run_ext; reflexivity. Qed.

Lemma bind_raise {A B} e (f : A -> M B) s : bind (raise e) f s = raise e s.
Proof. reflexivity. Qed.

Lemma bind_emit {B} e (f : unit -> M B) s :
  bind (emit e) f s =
  mkRun (result (f tt s)) (final (f tt s)) (e :: events (f tt s)).
Proof. reflexivity. Qed.

Lemma call_returns c s v w :
  respond (world s) c = (Returns v, w) ->
  call c s = mkRun (Val v) (after s w) [ECall c (Returns v)].
Proof. unfold call. intros ->. reflexivity. Qed.

Lemma call_raises c s e w :
  respond (world s) c = (Raises e, w) ->
  call c s = mkRun (Exc e) (after s w) [ECall c (Raises e)].
Proof. unfold call. intros ->. reflexivity. Qed.

Lemma bind_call_returns {B} c (f : Value -> M B) s v w :
  respond (world s) c = (Returns v, w) ->
  bind (call c) f s =
  mkRun (result (f v (after s w))) (final (f v (after s w)))
        (ECall c (Returns v) :: events (f v (after s w))).
Proof. intros E. rewrite run_bind, (call_returns _ _ _ _ E). reflexivity. Qed.

Lemma bind_call_raises {B} c (f : Value -> M B) s e w :
  respond (world s) c = (Raises e, w) ->
  bind (call c) f s = mkRun (Exc e) (after s w) [ECall c (Raises e)].
Proof. intros E. rewrite run_bind, (call_raises _ _ _ _ E). reflexivity. Qed.

Lemma call_cases c (s : PyState) :
  (exists v w, respond (world s) c = (Returns v, w))
  \/ (exists e w, respond (world s) c = (Raises e, w)).
Proof. destruct (respond (world s) c) as [[v|e] w]; eauto. Qed.

End Laws.

(** ** Symbolic execution of a script *)

Ltac expose :=
  unfold enter, Creator.log, InputSetup.log, Weapon.log, Complete.log in *.

Ltac tidy :=
  cbv beta in *;
  cbn [ret emit raise result final events world sys_path after negb app] in *.

Ltac split_call c f s :=
  let v := fresh "v" in
  let e := fresh "e" in
  let w := fresh "w" in
  let E := fresh "E" in
  destruct (call_cases c s) as [(v & w & E)|(e & w & E)];
  [ rewrite (bind_call_returns c f s v w E) in *
  | rewrite (bind_call_raises c f s e w E) in * ];
  cbn [world after] in E.

Ltac split_last_call c s :=
  let v := fresh "v" in
  let e := fresh "e" in
  let w := fresh "w" in
  let E := fresh "E" in
  destruct (call_cases c s) as [(v & w & E)|(e & w & E)];
  [ rewrite (call_returns c s v w E) in *
  | rewrite (call_raises c s e w E) in * ];
  cbn [world after] in E.

Ltac split_bool b :=
  lazymatch b with
  | negb ?c => split_bool c
  | _ => destruct b eqn:?
  end.

(** One step of the computation [bind m f s], by the shape of [m]: a log or
    an entry is recorded, a returned value is passed on, a host call is
    split into its two answers, a test into its two branches. *)
Ltac step_head m f s :=
  lazymatch m with
  | emit ?e => rewrite (bind_emit e f s) in *
  | ret ?a => rewrite (bind_ret a f s) in *
  | raise ?e => rewrite (bind_raise e f s) in *
  | bind ?m1 ?f1 => rewrite (bind_assoc m1 f1 f s) in *
  | call ?c => split_call c f s
  | if ?b then _ else _ => split_bool b
  end.

Ltac step :=
  match goal with
  | |- context [bind ?m ?f ?s] => step_head m f s
  | _ : context [bind ?m ?f ?s] |- _ => step_head m f s
  | |- context [call ?c ?s] => split_last_call c s
  | _ : context [call ?c ?s] |- _ => split_last_call c s
  | |- context [(if ?b then _ else _) ?s] => split_bool b
  | _ : context [(if ?b then _ else _) ?s] |- _ => split_bool b
  end; tidy.

(** Runs a computation that is a chain of calls, logs and tests, on every
    answer the host may give. *)
Ltac exec := expose; tidy; repeat step.

(** Reads the goal as a property [Q] of the result and the events of the
    run [t], so that each step works on one copy of the program; [unfocus]
    gives the property back. *)
Ltac focus t :=
  let Q := fresh "Q" in
  pattern (result t), (events t);
  match goal with |- ?P _ _ => set (Q := P) end.

Ltac unfocus :=
  repeat match goal with Q := _ |- _ => subst Q end; cbv beta.

Ltac use_answers :=
  repeat match goal with
         | E : respond _ _ = _ |- _ => rewrite E; clear E
         end.

Section Directories.
Context {H : Host}.

Lemma creator_ensure_directory_result path s :
  result (Creator.ensure_directory_exists path s) = ensure_directory_result path s.
Proof.
  unfold Creator.ensure_directory_exists, ensure_directory_result.
  exec; use_answers; rewrite ?Heqb; reflexivity.
Qed.

End Directories.

(** ** Computations that never raise *)

Section Total.
Context {H : Host}.

Lemma total_ret {A} (a : A) : total (ret a).
Proof. intros s. now exists a. Qed.

Lemma total_emit e : total (emit e).
Proof. intros s. now exists tt. Qed.

Lemma total_bind {A B} (m : M A) (f : A -> M B) :
  total m -> (forall a, total (f a)) -> total (bind m f).
Proof.
  intros Hm Hf s. destruct (Hm s) as [a Ha].
  destruct (bind_val m f s a Ha) as (Hr & _). rewrite Hr. apply Hf.
Qed.

Lemma total_try_except {A} (body : M A) (handler : Exn -> M A) :
  (forall e, total (handler e)) -> total (try_except body handler).
Proof.
  intros Hh s. unfold try_except.
  destruct (result (body s)) as [a|e] eqn:E.
  - exists a. exact E.
  - apply Hh.
Qed.

Lemma total_if {A} (b : bool) (m1 m2 : M A) :
  total m1 -> total m2 -> total (if b then m1 else m2).
Proof. now destruct b. Qed.

Lemma total_for {A} (l : list A) (body : A -> M unit) :
  (forall x, total (body x)) -> total (for_ l body).
Proof.
  intros Hb. induction l as [|x l IH]; cbn [for_].
  - apply total_ret.
  - apply total_bind; [apply Hb | intros _; exact IH].
Qed.

(** A total computation returns a value in every state. *)
Lemma total_result {A} (m : M A) s : total m -> exists a, result (m s) = Val a.
Proof. intros Hm. apply Hm. Qed.

End Total.

Create HintDb total.
#[export] Hint Resolve total_ret total_emit total_bind total_try_except
  total_if total_for : total.

(** ** Counting events *)

Section Counting.
Context {H : Host}.
Variable P : Event -> bool.

Lemma count_app (a b : list Event) :
  List.length (filter P (a ++ b)) = List.length (filter P a) + List.length (filter P b).
Proof. now rewrite filter_app, length_app. Qed.

Lemma events_bind_le {A B} (m : M A) (f : A -> M B) s a b :
  List.length (filter P (events (m s))) <= a ->
  (forall x s', List.length (filter P (events (f x s'))) <= b) ->
  List.length (filter P (events (bind m f s))) <= a + b.
Proof.
  intros Hm Hf. rewrite run_bind.
  destruct (result (m s)) as [x|e]; cbn [events].
  - rewrite count_app. specialize (Hf x (final (m s))). lia.
  - lia.
Qed.

Lemma am_weaken {A} (m : M A) a b : at_most a P m -> a <= b -> at_most b P m.
Proof. intros Hm Hab s. specialize (Hm s). lia. Qed.

Lemma am_ret {A} (a : A) : at_most 0 P (ret a).
Proof. intros s. cbn. lia. Qed.

Lemma am_raise {A} e : at_most 0 P (@raise _ A e).
Proof. intros s. cbn. lia. Qed.

Lemma am_emit0 e : P e = false -> at_most 0 P (emit e).
Proof. intros E s. cbn. rewrite E. cbn. lia. Qed.

Lemma am_emit1 e : at_most 1 P (emit e).
Proof. intros s. cbn. destruct (P e); cbn; lia. Qed.

Lemma am_call0 c : (forall r, P (ECall c r) = false) -> at_most 0 P (call c).
Proof.
  intros E s. unfold call. destruct (respond (world s) c) as [r w].
  cbn. rewrite E. cbn. lia.
Qed.

Lemma am_call1 c : at_most 1 P (call c).
Proof.
  intros s. unfold call. destruct (respond (world s) c) as [r w].
  cbn. destruct (P (ECall c r)); cbn; lia.
Qed.

Lemma am_bind {A B} (m : M A) (f : A -> M B) a b :
  at_most a P m -> (forall x, at_most b P (f x)) -> at_most (a + b) P (bind m f).
Proof. intros Hm Hf s. apply events_bind_le; [apply Hm | intros; apply Hf]. Qed.

Lemma am_try {A} (body : M A) (handler : Exn -> M A) a b :
  at_most a P body -> (forall e, at_most b P (handler e)) ->
  at_most (a + b) P (try_except body handler).
Proof.
  intros Hb Hh s. unfold try_except. specialize (Hb s).
  destruct (result (body s)) as [x|e]; cbn [events].
  - lia.
  - rewrite count_app. specialize (Hh e (final (body s))). lia.
Qed.

Lemma am_if {A} (c : bool) (m1 m2 : M A) a b :
  at_most a P m1 -> at_most b P m2 -> at_most (Nat.max a b) P (if c then m1 else m2).
Proof. intros H1 H2 s. specialize (H1 s). specialize (H2 s). destruct c; lia. Qed.

Lemma am_for {A} (l : list A) (body : A -> M unit) n :
  (forall x, at_most n P (body x)) -> n = 0 -> at_most 0 P (for_ l body).
Proof.
  intros Hb ->. induction l as [|x l IH]; cbn [for_].
  - apply am_ret.
  - apply (am_bind _ _ 0 0); [apply Hb | intros _; exact IH].
Qed.

Lemma am_py_iter v : at_most 0 P (py_iter v).
Proof. destruct v; first [apply am_ret | apply am_raise]. Qed.

Lemma am_get_action_name v : at_most 0 P (get_action_name v).
Proof. destruct v; first [apply am_ret | apply am_raise]. Qed.

Lemma am_get_axis_name v : at_most 0 P (get_axis_name v).
Proof. destruct v; first [apply am_ret | apply am_raise]. Qed.

Lemma am_get_sys_path : at_most 0 P get_sys_path.
Proof. intros s. cbn. lia. Qed.

Lemma am_sys_path_append d : at_most 0 P (sys_path_append d).
Proof. intros s. cbn. lia. Qed.

Lemma am_find_by_name name comps :
  (forall v r, P (ECall (get_name v) r) = false) ->
  at_most 0 P (find_by_name name comps).
Proof.
  intros E. induction comps as [|c comps IH]; cbn [find_by_name].
  - apply am_ret.
  - apply (am_bind _ _ 0 0); [apply am_call0; intro; apply E|].
    intros n. destruct (eq_str n name); [apply am_ret | exact IH].
Qed.

Lemma at_most_0 {A} (m : M A) s : at_most 0 P m -> filter P (events (m s)) = [].
Proof.
  intros Hm. specialize (Hm s).
  destruct (filter P (events (m s))); [reflexivity | cbn in Hm; lia].
Qed.

End Counting.

Lemma am_destroy_test_instance {H : Host} (P : Event -> bool) actors :
  (forall c r, P (ECall c r) = false) -> (forall p m, P (ELog p m) = false) ->
  at_most 0 P (Creator.destroy_test_instance actors).
Proof.
  intros Ec El. induction actors as [|a actors IH]; cbn [Creator.destroy_test_instance].
  - apply am_ret.
  - apply (am_bind _ _ _ 0 0); [apply am_call0; intro; apply Ec|].
    intros label. destruct (eq_str label "TestSpaceship"); [|exact IH].
    apply (am_bind _ _ _ 0 0); [apply am_emit0, El|]. intros _.
    apply (am_bind _ _ _ 0 0); [apply am_call0; intro; apply Ec|]. intros _.
    apply am_ret.
Qed.

Ltac head_of t :=
  lazymatch t with
  | ?f _ => head_of f
  | _ => t
  end.

(** A bound on the events of a computation that satisfy a predicate which
    looks only at the kind of an event: the bound is put together along the
    structure of the computation. *)
Ltac bound :=
  lazymatch goal with
  | |- at_most _ _ (bind _ _) => eapply am_bind; [bound | intro; bound]
  | |- at_most _ _ (try_except _ _) => eapply am_try; [bound | intro; bound]
  | |- at_most _ _ (if _ then _ else _) => eapply am_if; bound
  | |- at_most _ _ (match ?x with Some _ => _ | None => _ end) =>
      eapply (am_weaken _ _ _ 1); [destruct x; bound | ]
  | |- at_most _ _ (ret _) => apply am_ret
  | |- at_most _ _ (raise _) => apply am_raise
  | |- at_most _ _ (emit _) => first [apply am_emit0; reflexivity | apply am_emit1]
  | |- at_most _ _ (call _) => first [apply am_call0; intro; reflexivity | apply am_call1]
  | |- at_most _ _ (for_ _ _) => eapply am_for; [intro; bound | reflexivity]
  | |- at_most _ _ (py_iter _) => apply am_py_iter
  | |- at_most _ _ (get_action_name _) => apply am_get_action_name
  | |- at_most _ _ (get_axis_name _) => apply am_get_axis_name
  | |- at_most _ _ get_sys_path => apply am_get_sys_path
  | |- at_most _ _ (sys_path_append _) => apply am_sys_path_append
  | |- at_most _ _ (find_by_name _ _) => apply am_find_by_name; intros; reflexivity
  | |- at_most _ _ (Creator.destroy_test_instance _) =>
      apply am_destroy_test_instance; intros; reflexivity
  | |- at_most _ _ ?m => let h := head_of m in unfold h; bound
  end.

(** [at_most n P m] for a numeral [n]. *)
Ltac bounded := eapply am_weaken; [bound | cbn; lia].

(** * The directory check (C9) *)

Section Directories.
Context {H : Host}.

Lemma weapon_ensure_directory_result path s :
  result (Weapon.ensure_directory_exists path s) = ensure_directory_result path s.
Proof.
  unfold Weapon.ensure_directory_exists, ensure_directory_result.
  exec; use_answers; rewrite ?Heqb; reflexivity.
Qed.

Lemma ensure_directory_result_not_false path s :
  ensure_directory_result path s <> Val false.
Proof.
  unfold ensure_directory_result.
  destruct (respond (world s) (does_directory_exist path)) as [[v|e] w]; [|discriminate].
  destruct (truthy v); [discriminate|].
  destruct (respond w (make_directory path)) as [[v'|e] w']; discriminate.
Qed.

Lemma creator_directory_branch_dead s :
  filter (logs_text "Failed to create blueprint directory")
         (events (Creator.create_spaceship_blueprint s)) = [].
Proof.
  unfold Creator.create_spaceship_blueprint, Creator.ensure_directory_exists.
  exec; reflexivity.
Qed.

Lemma laser_directory_branch_dead s :
  filter (logs_text "Failed to create weapons directory")
         (events (Weapon.create_laser_projectile_blueprint s)) = [].
Proof.
  unfold Weapon.create_laser_projectile_blueprint, Weapon.ensure_directory_exists.
  exec; reflexivity.
Qed.

Lemma missile_directory_branch_dead s :
  filter (logs_text "Failed to create weapons directory")
         (events (Weapon.create_missile_projectile_blueprint s)) = [].
Proof.
  unfold Weapon.create_missile_projectile_blueprint, Weapon.ensure_directory_exists.
  exec; reflexivity.
Qed.

End Directories.

(** C9. [ensure_directory_exists] (both copies) returns [True] whenever it
    returns: what it gives is [ensure_directory_result], which is [True] when
    the directory exists and when it was made, and otherwise the exception
    of the host call that raised; it is never [False].  So in the three
    blueprint-creation functions the branch that logs the failure to create
    the directory is never taken: that line is in no run. *)
Theorem C9_ensure_directory_exists_never_false :
  forall (H : Host) (path : string) (s : PyState),
    result (Creator.ensure_directory_exists path s) = ensure_directory_result path s
    /\ result (Weapon.ensure_directory_exists path s) = ensure_directory_result path s
    /\ ensure_directory_result path s <> Val false
    /\ filter (logs_text "Failed to create blueprint directory")
              (events (Creator.create_spaceship_blueprint s)) = []
    /\ filter (logs_text "Failed to create weapons directory")
              (events (Weapon.create_laser_projectile_blueprint s)) = []
    /\ filter (logs_text "Failed to create weapons directory")
              (events (Weapon.create_missile_projectile_blueprint s)) = [].
Proof.
  intros H path s.
  split; [apply creator_ensure_directory_result|].
  split; [apply weapon_ensure_directory_result|].
  split; [apply ensure_directory_result_not_false|].
  split; [apply creator_directory_branch_dead|].
  split; [apply laser_directory_branch_dead | apply missile_directory_branch_dead].
Qed.

(** * Functions behind a handler *)

Section Handlers.
Context {H : Host}.

Lemma total_enter fn args : total (enter fn args).
Proof. apply total_emit. Qed.

(** A function that is its entry and then a [try] with a total handler. *)
Lemma total_guarded {A} fn args (body : M A) handler :
  (forall e, total (handler e)) ->
  total (enter fn args ;; try_except body handler).
Proof.
  intros Hh. apply total_bind; [apply total_enter|].
  intros _. now apply total_try_except.
Qed.

Lemma total_log_false prefix msg : total (emit (ELog prefix msg) ;; ret false).
Proof. apply total_bind; [apply total_emit | intros _; apply total_ret]. Qed.

Lemma total_setup_input_mappings : total InputSetup.setup_input_mappings.
Proof. apply total_guarded. intros e. apply total_log_false. Qed.

Lemma total_import_and_run_module name path :
  total (Complete.import_and_run_module name path).
Proof. apply total_guarded. intros e. apply total_log_false. Qed.

Lemma total_spawn_test_instance : total Creator.spawn_test_instance.
Proof. apply total_guarded. intros e. apply total_log_false. Qed.

Lemma total_add_weapon_components : total Weapon.add_weapon_components_to_spaceship.
Proof. apply total_guarded. intros e. apply total_log_false. Qed.

(** The same behind the test [if blueprint is None]. *)
Lemma total_none_guarded fn args prefix msg (bp : Value) (body : M bool) handler :
  (forall e, total (handler e)) ->
  total (enter fn args ;;
         if is_none bp then emit (ELog prefix msg) ;; ret false
         else try_except body handler).
Proof.
  intros Hh. apply total_bind; [apply total_enter|]. intros _.
  apply total_if; [apply total_log_false | now apply total_try_except].
Qed.

Lemma total_add_blueprint_variables bp : total (Creator.add_blueprint_variables bp).
Proof. apply total_none_guarded. intros e. apply total_log_false. Qed.

Lemma total_setup_laser_components bp : total (Weapon.setup_laser_components bp).
Proof. apply total_none_guarded. intros e. apply total_log_false. Qed.

Lemma total_setup_missile_components bp : total (Weapon.setup_missile_components bp).
Proof. apply total_none_guarded. intros e. apply total_log_false. Qed.

(** [add_components_to_blueprint] calls [load_blueprint_class] before its
    [try]; once that call has returned, nothing escapes. *)
Lemma add_components_after_load bp s v w :
  respond (world s) (load_blueprint_class Creator.SPACESHIP_FULL_PATH) = (Returns v, w) ->
  exists b, result (Creator.add_components_to_blueprint bp s) = Val b.
Proof.
  intros E. unfold Creator.add_components_to_blueprint. expose.
  rewrite bind_emit. tidy.
  destruct (is_none bp).
  - rewrite bind_emit. tidy. now exists false.
  - rewrite (bind_call_returns _ _ _ _ _ E). tidy.
    destruct (is_none v).
    + rewrite bind_emit. tidy. now exists false.
    + apply total_try_except. intros e. apply total_log_false.
Qed.

Lemma try_except_exc {A} (body : M A) handler s e :
  result (body s) = Exc e ->
  try_except body handler s =
  mkRun (result (handler e (final (body s)))) (final (handler e (final (body s))))
        (events (body s) ++ events (handler e (final (body s)))).
Proof. intros E. unfold try_except. rewrite E. reflexivity. Qed.

Lemma try_except_val {A} (body : M A) handler s a :
  result (body s) = Val a -> try_except body handler s = body s.
Proof. intros E. unfold try_except. rewrite E. reflexivity. Qed.

End Handlers.

(** * The complete setup (C6, C2) *)

Section BigStep.
Context {H : Host}.

Lemma runs_self {A} (m : M A) s : runs m s (result (m s)) (events (m s)) (final (m s)).
Proof. unfold runs. now destruct (m s). Qed.

Lemma runs_ret {A} (a : A) s : runs (ret a) s (Val a) [] s.
Proof. reflexivity. Qed.

Lemma runs_emit e s : runs (emit e) s (Val tt) [e] s.
Proof. reflexivity. Qed.

Lemma runs_bind {A B} (m : M A) (f : A -> M B) s a t1 s1 r t2 s2 :
  runs m s (Val a) t1 s1 -> runs (f a) s1 r t2 s2 ->
  runs (bind m f) s r (t1 ++ t2) s2.
Proof. unfold runs. intros Hm Hf. rewrite run_bind, Hm. cbn. now rewrite Hf. Qed.

Lemma runs_bind_exc {A B} (m : M A) (f : A -> M B) s e t1 s1 :
  runs m s (Exc e) t1 s1 -> runs (bind m f) s (Exc e) t1 s1.
Proof. unfold runs. intros Hm. rewrite run_bind, Hm. reflexivity. Qed.

Lemma runs_events {A} (m : M A) s r t t' s' :
  runs m s r t s' -> t = t' -> runs m s r t' s'.
Proof. now intros Hm <-. Qed.

Lemma runs_inv {A} (m : M A) s r t s' :
  runs m s r t s' -> result (m s) = r /\ final (m s) = s' /\ events (m s) = t.
Proof. unfold runs. now intros ->. Qed.

End BigStep.

Section CompleteRun.
Context {H : Host}.

(** One turn of the loop of [Complete.main]. *)
Lemma turn_runs name file s :
  let r := run_script name file s in
  runs (turn name file) s (Val tt) (script_events name r) (final r).
Proof.
  intros r. subst r. unfold run_script.
  set (r := Complete.import_and_run_module name (Complete.path_join SCRIPT_DIR file) s).
  destruct (total_import_and_run_module name (Complete.path_join SCRIPT_DIR file) s)
    as [b Hb].
  fold r in Hb.
  assert (Hr : runs (Complete.import_and_run_module name
                       (Complete.path_join SCRIPT_DIR file)) s (Val b) (events r) (final r)).
  { rewrite <- Hb. apply runs_self. }
  unfold turn, script_events. rewrite Hb. clearbody r. expose.
  destruct b; cbn [negb].
  - eapply runs_events.
    + eapply runs_bind; [apply runs_emit|].
      eapply runs_bind; [exact Hr | apply runs_ret].
    + cbn [app]. now rewrite app_nil_r.
  - eapply runs_events.
    + eapply runs_bind; [apply runs_emit|].
      eapply runs_bind; [exact Hr | apply runs_emit].
    + reflexivity.
Qed.

Lemma complete_main_unrolled : Complete.main = unrolled_main.
Proof. reflexivity. Qed.

(** A run of [Complete.main] is its entry and first line, the three turns
    of its loop, each from the state the one before left, and the three
    closing lines; no exception leaves it. *)
Lemma complete_main_runs s :
  let r1 := run_script "internal_spaceship_creator" "internal_spaceship_creator.py" s in
  let r2 := run_script "internal_input_setup" "internal_input_setup.py" (final r1) in
  let r3 := run_script "internal_weapon_system" "internal_weapon_system.py" (final r2) in
  runs Complete.main s (Val tt)
       (EEnter "internal_complete_setup.main" []
        :: ELog "[SETUP] " "Starting complete Space Dogfight setup process..."
        :: script_events "internal_spaceship_creator" r1
        ++ script_events "internal_input_setup" r2
        ++ script_events "internal_weapon_system" r3
        ++ completion_logs)
       (final r3).
Proof.
  intros r1 r2 r3.
  rewrite complete_main_unrolled. unfold unrolled_main.
  eapply runs_events.
  - eapply runs_bind; [apply runs_emit|].
    eapply runs_bind; [apply runs_emit|].
    eapply runs_bind.
    + eapply runs_bind; [apply (turn_runs _ _ s)|].
      eapply runs_bind; [apply (turn_runs _ _ (final r1))|].
      eapply runs_bind; [apply (turn_runs _ _ (final r2))|].
      apply runs_ret.
    + eapply runs_bind; [apply runs_emit|].
      eapply runs_bind; [apply runs_emit|].
      apply runs_emit.
  - subst r1 r2 r3. cbn [app]. rewrite app_nil_r.
    rewrite <- !app_assoc. reflexivity.
Qed.

End CompleteRun.

(** ** The entries of [import_and_run_module] *)

Section ImportEntries.
Context {H : Host}.

Lemma script_at_cases path :
  Complete.script_at path
    = Some {| Complete.script_body := Creator.module_body;
              Complete.script_main := Some Creator.main |}
  \/ Complete.script_at path
    = Some {| Complete.script_body := InputSetup.module_body;
              Complete.script_main := Some InputSetup.main |}
  \/ Complete.script_at path
    = Some {| Complete.script_body := Weapon.module_body;
              Complete.script_main := Some Weapon.main |}
  \/ Complete.script_at path = None.
Proof.
  unfold Complete.script_at.
  repeat match goal with |- context [if ?b then _ else _] => destruct b end; auto.
Qed.

End ImportEntries.

(** A bound for the [try] block of [import_and_run_module], whatever file
    it is given: one case per script it may find there. *)
Ltac bound_import :=
  unfold Complete.import_and_run_module_try, Complete.exec_module, Complete.module_main;
  match goal with
  | |- at_most _ _ ?m =>
      match m with
      | context [Complete.script_at ?p] =>
          destruct (script_at_cases p) as [E|[E|[E|E]]]; rewrite E;
          cbn [Complete.script_body Complete.script_main]; bounded
      end
  end.

Section ImportOnce.
Context {H : Host}.

Lemma no_import_entry_inside name path :
  at_most 0 (is_enter "internal_complete_setup.import_and_run_module")
    (try_except (Complete.import_and_run_module_try name path)
       (fun e => Complete.log
                   (txt ("Error loading or running module " ++ name ++ ": " ++ e)%string) ;;
                 ret false)).
Proof.
  apply (am_try _ _ _ 0 0); [bound_import | intro; bounded].
Qed.

Lemma import_entries name file s :
  filter (is_enter "internal_complete_setup.import_and_run_module")
         (events (run_script name file s)) = [import_entry name file].
Proof.
  unfold run_script, Complete.import_and_run_module, enter.
  rewrite bind_emit. cbn [events filter is_enter].
  rewrite String.eqb_refl.
  now rewrite (at_most_0 _ _ _ (no_import_entry_inside name _)).
Qed.

Lemma script_events_entries name file s :
  filter (is_enter "internal_complete_setup.import_and_run_module")
         (script_events name (run_script name file s)) = [import_entry name file].
Proof.
  unfold script_events. cbn [filter is_enter]. rewrite filter_app, import_entries.
  destruct (result (run_script name file s)) as [[|]|]; reflexivity.
Qed.

End ImportOnce.

Lemma complete_main_import_entries {H : Host} s :
  filter (is_enter "internal_complete_setup.import_and_run_module")
         (events (Complete.main s))
  = [ import_entry "internal_spaceship_creator" "internal_spaceship_creator.py";
      import_entry "internal_input_setup" "internal_input_setup.py";
      import_entry "internal_weapon_system" "internal_weapon_system.py" ].
Proof.
  destruct (runs_inv _ _ _ _ _ (complete_main_runs s)) as (_ & _ & ->).
  cbn [filter is_enter]. rewrite !filter_app.
  rewrite !script_events_entries. reflexivity.
Qed.

(** C6. In every run, [internal_complete_setup.main] calls
    [import_and_run_module] for internal_spaceship_creator, then for
    internal_input_setup, then for internal_weapon_system, and for nothing
    else: the run is the entry and first line of [main], the run of each
    script in that order, each started in the state the one before left
    when it finished, and the closing lines.  There is no branch in it: the
    three entries are in every run, whatever the host answers. *)
Theorem C6_three_scripts_in_order :
  forall (H : Host) (s : PyState),
    let r1 := run_script "internal_spaceship_creator" "internal_spaceship_creator.py" s in
    let r2 := run_script "internal_input_setup" "internal_input_setup.py" (final r1) in
    let r3 := run_script "internal_weapon_system" "internal_weapon_system.py" (final r2) in
    runs Complete.main s (Val tt)
         (EEnter "internal_complete_setup.main" []
          :: ELog "[SETUP] " "Starting complete Space Dogfight setup process..."
          :: script_events "internal_spaceship_creator" r1
          ++ script_events "internal_input_setup" r2
          ++ script_events "internal_weapon_system" r3
          ++ completion_logs)
         (final r3)
    /\ filter (is_enter "internal_complete_setup.import_and_run_module")
              (events (Complete.main s))
       = [ import_entry "internal_spaceship_creator" "internal_spaceship_creator.py";
           import_entry "internal_input_setup" "internal_input_setup.py";
           import_entry "internal_weapon_system" "internal_weapon_system.py" ].
Proof.
  intros H s r1 r2 r3. split.
  - apply complete_main_runs.
  - apply complete_main_import_entries.
Qed.

(** * Failed steps inside a script (C2) *)

(** The result of [bind m f s] when [Hx] says what [m] gives in [s]. *)
Ltac bind_result Hx :=
  match goal with
  | |- result (bind ?m ?f ?s) = _ =>
      let Hr := fresh in
      destruct (bind_val m f s _ Hx) as (Hr & _ & _); rewrite Hr; clear Hr; cbv beta
  end.

Section Stages.
Context {H : Host}.

Lemma runs_of_result {A} (m : M A) s r :
  result (m s) = r -> runs m s r (events (m s)) (final (m s)).
Proof. intros <-. apply runs_self. Qed.

Lemma runs_total {A} (m : M A) s :
  total m -> exists a, runs m s (Val a) (events (m s)) (final (m s)).
Proof. intros Hm. destruct (Hm s) as [a Ha]. exists a. now apply runs_of_result. Qed.

Lemma total_warn (ok : bool) e : total (if negb ok then emit e else ret tt).
Proof. destruct ok; [apply total_ret | apply total_emit]. Qed.

Lemma enter_first {A} fn args (rest : M A) s :
  events ((enter fn args ;; rest) s) = EEnter fn args :: events (rest s).
Proof. unfold enter. now rewrite bind_emit. Qed.

Lemma in_events_bind_l {A B} (m : M A) (f : A -> M B) s e :
  In e (events (m s)) -> In e (events (bind m f s)).
Proof.
  intros Hin. rewrite run_bind. destruct (result (m s)); cbn [events]; auto.
  apply in_or_app. now left.
Qed.

Lemma in_events_bind_r {A B} (m : M A) (f : A -> M B) s a e :
  result (m s) = Val a -> In e (events (f a (final (m s)))) ->
  In e (events (bind m f s)).
Proof.
  intros Hm Hin. destruct (bind_val m f s a Hm) as (_ & _ & ->).
  apply in_or_app. now right.
Qed.

Lemma result_bind_total {A B} (m : M A) (f : A -> M B) s a :
  result (m s) = Val a -> total (f a) -> exists b, result (bind m f s) = Val b.
Proof.
  intros Hm Hf. destruct (bind_val m f s a Hm) as (-> & _ & _). apply Hf.
Qed.

(** [Creator.main] is its entry, its first line, the creation of the
    blueprint, and then either the abort or the remaining steps. *)
Lemma creator_main_stages :
  Creator.main =
  (enter "internal_spaceship_creator.main" [] ;;
   Creator.log "Starting spaceship setup..." ;;
   blueprint <- Creator.create_spaceship_blueprint ;;
   if is_none blueprint then
     Creator.log "Failed to create or get spaceship blueprint, aborting"
   else creator_steps blueprint).
Proof. reflexivity. Qed.

(** Without a blueprint [Creator.main] stops: nothing after the creation
    but the line that says so. *)
Lemma creator_main_aborts s :
  result (Creator.create_spaceship_blueprint s) = Val VNone ->
  runs Creator.main s (Val tt)
       (EEnter "internal_spaceship_creator.main" []
        :: ELog "[SPACESHIP CREATOR] " "Starting spaceship setup..."
        :: events (Creator.create_spaceship_blueprint s) ++ [creator_abort_log])
       (final (Creator.create_spaceship_blueprint s)).
Proof.
  intros Hc. rewrite creator_main_stages. expose.
  eapply runs_events.
  - eapply runs_bind; [apply runs_emit|].
    eapply runs_bind; [apply runs_emit|].
    eapply runs_bind; [apply (runs_of_result _ _ _ Hc)|].
    cbn [is_none]. apply runs_emit.
  - reflexivity.
Qed.

Lemma in_events_bind_any {A B} (m : M A) (f : A -> M B) s a e :
  result (m s) = Val a -> (forall s', In e (events (f a s'))) ->
  In e (events (bind m f s)).
Proof. intros Hm Hin. eapply in_events_bind_r; [exact Hm | apply Hin]. Qed.

Lemma in_events_bind_total {A B} (m : M A) (f : A -> M B) s e :
  total m -> (forall a s', In e (events (f a s'))) ->
  In e (events (bind m f s)).
Proof.
  intros Hm Hin. destruct (Hm s) as [a Ha].
  eapply in_events_bind_r; [exact Ha | apply Hin].
Qed.

(** After a step that returned, [False] or not, the later steps are
    entered. *)
Lemma creator_steps_continue bp ok s :
  result (Creator.add_components_to_blueprint bp s) = Val ok ->
  result (creator_steps bp s) = Val tt
  /\ In (EEnter "internal_spaceship_creator.add_blueprint_variables" [bp])
        (events (creator_steps bp s))
  /\ In (EEnter "internal_spaceship_creator.spawn_test_instance" [])
        (events (creator_steps bp s)).
Proof.
  intros Ha. unfold creator_steps. expose.
  split; [|split].
  - match goal with
    | |- result (bind ?m ?f ?s) = _ =>
        destruct (result_bind_total m f s ok Ha) as [[] Hr]; [|exact Hr]
    end.
    apply total_bind; [apply total_warn|]. intros _.
    apply total_bind; [apply total_add_blueprint_variables|]. intros ok2.
    apply total_bind; [apply total_warn|]. intros _.
    apply total_bind; [apply total_spawn_test_instance|]. intros ok3.
    apply total_bind; [apply total_warn|]. intros _.
    repeat (apply total_bind; [apply total_emit|]; intros _).
    apply total_emit.
  - eapply in_events_bind_any; [exact Ha|]. intros s1.
    apply in_events_bind_total; [apply total_warn|]. intros _ s2.
    apply in_events_bind_l.
    unfold Creator.add_blueprint_variables, enter. rewrite bind_emit. now left.
  - eapply in_events_bind_any; [exact Ha|]. intros s1.
    apply in_events_bind_total; [apply total_warn|]. intros _ s2.
    apply in_events_bind_total; [apply total_add_blueprint_variables|]. intros ok2 s3.
    apply in_events_bind_total; [apply total_warn|]. intros _ s4.
    apply in_events_bind_l.
    unfold Creator.spawn_test_instance, enter. rewrite bind_emit. now left.
Qed.

Lemma in_events_emit {B} e0 (f : unit -> M B) s e :
  In e (events (f tt s)) -> In e (events (bind (emit e0) f s)).
Proof. intros Hin. rewrite bind_emit. cbn [events]. now right. Qed.

Lemma result_bind_emit {B} e0 (f : unit -> M B) s :
  result (bind (emit e0) f s) = result (f tt s).
Proof. reflexivity. Qed.

(** The part of a stage of [Weapon.main] that follows the creation of the
    blueprint [bp]: it returns, and leaves the state of the setup it ran, if
    it ran one. *)
Lemma stage_rest (setup : Value -> M bool) e1 e2 bp s :
  total (setup bp) ->
  let rest := if is_none bp then emit e1
              else ok <- setup bp ;; if negb ok then emit e2 else ret tt in
  result (rest s) = Val tt
  /\ final (rest s) = if is_none bp then s else final (setup bp s).
Proof.
  intros Ht rest. subst rest. destruct (is_none bp); [split; reflexivity|].
  destruct (Ht s) as [ok Hok].
  destruct (bind_val _ (fun ok => if negb ok then emit e2 else ret tt) _ _ Hok)
    as (-> & -> & _).
  destruct ok; split; reflexivity.
Qed.

(** In [Weapon.main] a blueprint that could not be made, or components that
    could not be set up, stop nothing: when the two creations return, with
    a blueprint or with [None], the missile is tried after the laser and
    the weapon mounts after the missile, and [main] returns. *)
Lemma weapon_main_continues s laser_bp missile_bp :
  result (Weapon.create_laser_projectile_blueprint s) = Val laser_bp ->
  result (Weapon.create_missile_projectile_blueprint (after_laser s)) = Val missile_bp ->
  result (Weapon.main s) = Val tt
  /\ In (EEnter "internal_weapon_system.create_missile_projectile_blueprint" [])
        (events (Weapon.main s))
  /\ In (EEnter "internal_weapon_system.add_weapon_components_to_spaceship" [])
        (events (Weapon.main s)).
Proof.
  intros Hl Hm. unfold Weapon.main. expose.
  set (sl := final (Weapon.create_laser_projectile_blueprint s)).
  destruct (stage_rest Weapon.setup_laser_components
              (ELog "[WEAPON SYSTEM] "
                 "Failed to create or get laser projectile blueprint, continuing anyway")
              (ELog "[WEAPON SYSTEM] " "Failed to set up laser components, continuing anyway")
              laser_bp sl (total_setup_laser_components laser_bp)) as (Hr1 & Hf1).
  assert (Hs1 : after_laser s
                = if is_none laser_bp then sl
                  else final (Weapon.setup_laser_components laser_bp sl)).
  { unfold after_laser. now rewrite Hl. }
  rewrite <- Hf1 in Hs1. rewrite Hs1 in Hm. clear Hs1 Hf1.
  match type of Hr1 with result (?blk sl) = _ => set (s1 := final (blk sl)) in * end.
  set (sm := final (Weapon.create_missile_projectile_blueprint s1)).
  destruct (stage_rest Weapon.setup_missile_components
              (ELog "[WEAPON SYSTEM] "
                 "Failed to create or get missile projectile blueprint, continuing anyway")
              (ELog "[WEAPON SYSTEM] " "Failed to set up missile components, continuing anyway")
              missile_bp sm (total_setup_missile_components missile_bp)) as (Hr2 & Hf2).
  clear Hf2.
  match type of Hr2 with result (?blk sm) = _ => set (s2 := final (blk sm)) in * end.
  destruct (total_add_weapon_components s2) as [ok Hw].
  split; [|split].
  - rewrite !result_bind_emit.
    bind_result Hl. bind_result Hr1. bind_result Hm. bind_result Hr2. bind_result Hw.
    destruct ok; reflexivity.
  - do 2 apply in_events_emit.
    eapply in_events_bind_r; [exact Hl|].
    eapply in_events_bind_r; [exact Hr1|].
    apply in_events_bind_l.
    unfold Weapon.create_missile_projectile_blueprint, enter. rewrite bind_emit. now left.
  - do 2 apply in_events_emit.
    eapply in_events_bind_r; [exact Hl|].
    eapply in_events_bind_r; [exact Hr1|].
    eapply in_events_bind_r; [exact Hm|].
    eapply in_events_bind_r; [exact Hr2|].
    apply in_events_bind_l.
    unfold Weapon.add_weapon_components_to_spaceship, enter. rewrite bind_emit. now left.
Qed.

End Stages.

Section MainsContinue.
Context {H : Host}.

Lemma creator_main_continues s bp ok :
  result (Creator.create_spaceship_blueprint s) = Val bp ->
  is_none bp = false ->
  result (Creator.add_components_to_blueprint bp
            (final (Creator.create_spaceship_blueprint s))) = Val ok ->
  result (Creator.main s) = Val tt
  /\ In (EEnter "internal_spaceship_creator.add_blueprint_variables" [bp])
        (events (Creator.main s))
  /\ In (EEnter "internal_spaceship_creator.spawn_test_instance" [])
        (events (Creator.main s)).
Proof.
  intros Hc Hn Ha.
  destruct (creator_steps_continue bp ok _ Ha) as (Hr & Hv & Hs).
  rewrite creator_main_stages. expose. split; [|split].
  - rewrite !result_bind_emit. bind_result Hc. now rewrite Hn.
  - do 2 apply in_events_emit. eapply in_events_bind_r; [exact Hc|]. now rewrite Hn.
  - do 2 apply in_events_emit. eapply in_events_bind_r; [exact Hc|]. now rewrite Hn.
Qed.

Lemma total_input_main : total InputSetup.main.
Proof.
  unfold InputSetup.main. expose.
  apply total_bind; [apply total_emit|]. intros _.
  apply total_bind; [apply total_emit|]. intros _.
  apply total_bind; [apply total_setup_input_mappings|]. intros ok.
  apply total_if; [apply total_emit|].
  repeat (apply total_bind; [apply total_emit|]; intros _).
  apply total_emit.
Qed.

(** A script that gave [False] gets its warning in the run of
    [Complete.main]. *)
Lemma warning_logged name file s :
  result (run_script name file s) = Val false ->
  In (failure_warning name) (script_events name (run_script name file s)).
Proof.
  intros Hr. unfold script_events. rewrite Hr. right.
  apply in_or_app. right. now left.
Qed.

Lemma complete_main_warnings s :
  let r1 := run_script "internal_spaceship_creator" "internal_spaceship_creator.py" s in
  let r2 := run_script "internal_input_setup" "internal_input_setup.py" (final r1) in
  let r3 := run_script "internal_weapon_system" "internal_weapon_system.py" (final r2) in
  (result r1 = Val false ->
   In (failure_warning "internal_spaceship_creator") (events (Complete.main s)))
  /\ (result r2 = Val false ->
      In (failure_warning "internal_input_setup") (events (Complete.main s)))
  /\ (result r3 = Val false ->
      In (failure_warning "internal_weapon_system") (events (Complete.main s))).
Proof.
  intros r1 r2 r3.
  destruct (runs_inv _ _ _ _ _ (complete_main_runs s)) as (_ & _ & ->).
  fold r1 r2 r3. split; [|split]; intros Hr; do 2 right.
  - apply in_or_app. left. now apply warning_logged.
  - apply in_or_app. right. apply in_or_app. left. now apply warning_logged.
  - apply in_or_app. right. apply in_or_app. right. apply in_or_app. left.
    now apply warning_logged.
Qed.

Lemma complete_main_completes s :
  result (Complete.main s) = Val tt
  /\ exists before, events (Complete.main s) = before ++ completion_logs.
Proof.
  destruct (runs_inv _ _ _ _ _ (complete_main_runs s)) as (Hr & _ & He).
  split; [exact Hr|]. rewrite He.
  set (e1 := script_events "internal_spaceship_creator" _).
  set (e2 := script_events "internal_input_setup" _).
  set (e3 := script_events "internal_weapon_system" _).
  clearbody e1 e2 e3.
  exists (EEnter "internal_complete_setup.main" []
          :: ELog "[SETUP] " "Starting complete Space Dogfight setup process..."
          :: e1 ++ e2 ++ e3).
  cbn [app]. rewrite <- !app_assoc. reflexivity.
Qed.

End MainsContinue.

(** C2, as the code has it.  In every run of the complete setup no failure
    halts the sequence: [main] returns, it calls [import_and_run_module]
    for all three scripts, each script that gave [False] gets its warning,
    and the run ends with the completion lines.  Inside a script a failed
    component, variable or spawn step does not stop the later steps: in
    [internal_spaceship_creator.main], once the blueprint is there and
    [add_components_to_blueprint] has returned, [True] or [False],
    [add_blueprint_variables] and [spawn_test_instance] are entered; in
    [internal_weapon_system.main], when the two creations return, with a
    blueprint or with [None], the missile is tried after the laser and the
    weapon mounts after the missile; [internal_input_setup.main] always
    returns.  But a blueprint creation that gives [None] does halt
    [internal_spaceship_creator.main]: it logs that it aborts and leaves
    the later steps out. *)
Theorem C2_failures_do_not_halt_the_sequence :
  forall (H : Host) (s : PyState),
    (let r1 := run_script "internal_spaceship_creator" "internal_spaceship_creator.py" s in
     let r2 := run_script "internal_input_setup" "internal_input_setup.py" (final r1) in
     let r3 := run_script "internal_weapon_system" "internal_weapon_system.py" (final r2) in
     result (Complete.main s) = Val tt
     /\ filter (is_enter "internal_complete_setup.import_and_run_module")
               (events (Complete.main s))
        = [ import_entry "internal_spaceship_creator" "internal_spaceship_creator.py";
            import_entry "internal_input_setup" "internal_input_setup.py";
            import_entry "internal_weapon_system" "internal_weapon_system.py" ]
     /\ (result r1 = Val false ->
         In (failure_warning "internal_spaceship_creator") (events (Complete.main s)))
     /\ (result r2 = Val false ->
         In (failure_warning "internal_input_setup") (events (Complete.main s)))
     /\ (result r3 = Val false ->
         In (failure_warning "internal_weapon_system") (events (Complete.main s)))
     /\ exists before, events (Complete.main s) = before ++ completion_logs)
    /\ (forall bp ok,
          result (Creator.create_spaceship_blueprint s) = Val bp ->
          is_none bp = false ->
          result (Creator.add_components_to_blueprint bp
                    (final (Creator.create_spaceship_blueprint s))) = Val ok ->
          result (Creator.main s) = Val tt
          /\ In (EEnter "internal_spaceship_creator.add_blueprint_variables" [bp])
                (events (Creator.main s))
          /\ In (EEnter "internal_spaceship_creator.spawn_test_instance" [])
                (events (Creator.main s)))
    /\ (forall laser_bp missile_bp,
          result (Weapon.create_laser_projectile_blueprint s) = Val laser_bp ->
          result (Weapon.create_missile_projectile_blueprint (after_laser s))
            = Val missile_bp ->
          result (Weapon.main s) = Val tt
          /\ In (EEnter "internal_weapon_system.create_missile_projectile_blueprint" [])
                (events (Weapon.main s))
          /\ In (EEnter "internal_weapon_system.add_weapon_components_to_spaceship" [])
                (events (Weapon.main s)))
    /\ (exists u, result (InputSetup.main s) = Val u)
    /\ (result (Creator.create_spaceship_blueprint s) = Val VNone ->
        runs Creator.main s (Val tt)
             (EEnter "internal_spaceship_creator.main" []
              :: ELog "[SPACESHIP CREATOR] " "Starting spaceship setup..."
              :: events (Creator.create_spaceship_blueprint s) ++ [creator_abort_log])
             (final (Creator.create_spaceship_blueprint s))).
Proof.
  intros H s. split; [|split; [|split; [|split]]].
  - cbv zeta.
    destruct (complete_main_completes s) as (Hr & Hc).
    destruct (complete_main_warnings s) as (H1 & H2 & H3).
    split; [exact Hr|]. split; [apply complete_main_import_entries|].
    split; [exact H1|]. split; [exact H2|]. split; [exact H3 | exact Hc].
  - intros bp ok. apply creator_main_continues.
  - intros laser_bp missile_bp. apply weapon_main_continues.
  - apply total_input_main.
  - apply creator_main_aborts.
Qed.

(** C2 fails inside [internal_spaceship_creator.main]: when the asset tools
    give no blueprint, [create_spaceship_blueprint] returns [None] and
    [main] stops there; the three later steps are never entered. *)
Lemma C2_counterexample_no_blueprint_aborts :
  let run := @Creator.main (editor create_returns_none)
               (start create_returns_none fresh_editor) in
  result (@Creator.create_spaceship_blueprint (editor create_returns_none)
            (start create_returns_none fresh_editor)) = Val VNone
  /\ result run = Val tt
  /\ In creator_abort_log (events run)
  /\ entries "internal_spaceship_creator.add_components_to_blueprint" (events run) = 0
  /\ entries "internal_spaceship_creator.add_blueprint_variables" (events run) = 0
  /\ entries "internal_spaceship_creator.spawn_test_instance" (events run) = 0.
Proof.
  cbv zeta. split; [vm_compute; reflexivity|]. split; [vm_compute; reflexivity|].
  split; [vm_compute; tauto|]. repeat split; vm_compute; reflexivity.
Qed.

(** * Each operation once per caller (C7) *)

(** C7, as the code has it.  A caller never invokes an operation again,
    whatever it gave: in every run of a script's [main] each creation and
    each setup function is entered at most once, and in every run of
    [internal_complete_setup.main] [import_and_run_module] is entered once
    for each script. *)
Theorem C7_each_operation_once_per_caller :
  forall H : Host,
    (at_most 1 (is_enter "internal_spaceship_creator.create_spaceship_blueprint") Creator.main
     /\ at_most 1 (is_enter "internal_spaceship_creator.add_components_to_blueprint") Creator.main
     /\ at_most 1 (is_enter "internal_spaceship_creator.add_blueprint_variables") Creator.main
     /\ at_most 1 (is_enter "internal_spaceship_creator.spawn_test_instance") Creator.main)
    /\ at_most 1 (is_enter "internal_input_setup.setup_input_mappings") InputSetup.main
    /\ (at_most 1 (is_enter "internal_weapon_system.create_laser_projectile_blueprint") Weapon.main
        /\ at_most 1 (is_enter "internal_weapon_system.setup_laser_components") Weapon.main
        /\ at_most 1 (is_enter "internal_weapon_system.create_missile_projectile_blueprint") Weapon.main
        /\ at_most 1 (is_enter "internal_weapon_system.setup_missile_components") Weapon.main
        /\ at_most 1 (is_enter "internal_weapon_system.add_weapon_components_to_spaceship") Weapon.main)
    /\ (forall s,
          filter (is_enter "internal_complete_setup.import_and_run_module")
                 (events (Complete.main s))
          = [ import_entry "internal_spaceship_creator" "internal_spaceship_creator.py";
              import_entry "internal_input_setup" "internal_input_setup.py";
              import_entry "internal_weapon_system" "internal_weapon_system.py" ]).
Proof.
  intros H. repeat apply conj; try bounded.
  intros s. apply complete_main_import_entries.
Qed.

(** C7 fails across a run of the complete setup: a script's [main] runs
    when the module is executed and again when [import_and_run_module]
    calls it, so an operation that failed is invoked a second time.  Here
    the asset tools give no blueprint: [create_spaceship_blueprint] is
    entered twice and fails twice. *)
Lemma C7_counterexample_failed_creation_runs_again :
  let run := @Complete.main (editor create_returns_none)
               (start create_returns_none fresh_editor) in
  entries "internal_spaceship_creator.create_spaceship_blueprint" (events run) = 2
  /\ List.length (filter (logs_text "Failed to create spaceship blueprint") (events run)) = 2.
Proof. cbv zeta. split; vm_compute; reflexivity. Qed.

(** * A script run through [import_and_run_module] *)

Section Loading.
Context {H : Host}.

Lemma runs_call_returns c s v w :
  respond (world s) c = (Returns v, w) ->
  runs (call c) s (Val v) [ECall c (Returns v)] (after s w).
Proof. intros E. unfold runs. now apply call_returns. Qed.

Lemma runs_try_val {A} (body : M A) handler s a t s' :
  runs body s (Val a) t s' -> runs (try_except body handler) s (Val a) t s'.
Proof. unfold runs, try_except. now intros ->. Qed.

Lemma runs_try_exc {A} (body : M A) handler s e t s' r t2 s2 :
  runs body s (Exc e) t s' -> runs (handler e) s' r t2 s2 ->
  runs (try_except body handler) s r (t ++ t2) s2.
Proof. unfold runs, try_except. intros -> Hh. cbn. now rewrite Hh. Qed.

Lemma runs_get_sys_path s : runs get_sys_path s (Val (sys_path s)) [] s.
Proof. reflexivity. Qed.

Lemma runs_script_dir s :
  runs (if negb (existsb (String.eqb SCRIPT_DIR) (sys_path s))
        then sys_path_append SCRIPT_DIR else ret tt) s (Val tt) [] (with_script_dir s).
Proof.
  unfold runs, with_script_dir.
  destruct (existsb (String.eqb SCRIPT_DIR) (sys_path s)); reflexivity.
Qed.

Lemma world_with_script_dir s : world (with_script_dir s) = world s.
Proof.
  unfold with_script_dir.
  now destruct (existsb (String.eqb SCRIPT_DIR) (sys_path s)).
Qed.

Lemma append_eqb (d a b : string) :
  String.eqb (d ++ a) (d ++ b) = String.eqb a b.
Proof.
  induction d as [|c d IH]; [reflexivity|].
  cbn. now rewrite Ascii.eqb_refl.
Qed.

Lemma script_at_creator :
  Complete.script_at (Complete.path_join SCRIPT_DIR "internal_spaceship_creator.py")
  = Some {| Complete.script_body := Creator.module_body;
            Complete.script_main := Some Creator.main |}.
Proof. unfold Complete.script_at. now rewrite String.eqb_refl. Qed.

Lemma script_at_input :
  Complete.script_at (Complete.path_join SCRIPT_DIR "internal_input_setup.py")
  = Some {| Complete.script_body := InputSetup.module_body;
            Complete.script_main := Some InputSetup.main |}.
Proof.
  unfold Complete.script_at, Complete.path_join.
  rewrite append_eqb, String.eqb_refl. reflexivity.
Qed.

Lemma script_at_weapon :
  Complete.script_at (Complete.path_join SCRIPT_DIR "internal_weapon_system.py")
  = Some {| Complete.script_body := Weapon.module_body;
            Complete.script_main := Some Weapon.main |}.
Proof.
  unfold Complete.script_at, Complete.path_join.
  rewrite !append_eqb, String.eqb_refl. reflexivity.
Qed.

(** The guard of every script is always true: the top level of the module
    is a call of [main], whatever [__name__] is. *)
Lemma guard_always_true (name : string) {A} (a b : A) :
  (if String.eqb name "__main__" || true then a else b) = a.
Proof. now rewrite orb_true_r. Qed.

Lemma entries_app fn (a b : list Event) :
  entries fn (a ++ b) = entries fn a + entries fn b.
Proof. apply count_app. Qed.

Lemma entered_once {A} fn args (rest : M A) s :
  at_most 0 (is_enter fn) rest ->
  entries fn (events ((enter fn args ;; rest) s)) = 1.
Proof.
  intros Hrest. unfold enter, entries. rewrite bind_emit.
  cbn [events filter is_enter]. rewrite String.eqb_refl. cbn [List.length].
  now rewrite (at_most_0 _ _ _ Hrest).
Qed.

Lemma creator_main_entered_once s :
  entries "internal_spaceship_creator.main" (events (Creator.main s)) = 1.
Proof. unfold Creator.main. apply entered_once. bounded. Qed.

Lemma input_main_entered_once s :
  entries "internal_input_setup.main" (events (InputSetup.main s)) = 1.
Proof. unfold InputSetup.main. apply entered_once. bounded. Qed.

Lemma weapon_main_entered_once s :
  entries "internal_weapon_system.main" (events (Weapon.main s)) = 1.
Proof. unfold Weapon.main. apply entered_once. bounded. Qed.

End Loading.

(** The run of the [try] block of [import_and_run_module] up to the
    execution of the module's top level, when the module loads. *)
Ltac load_module E1 T1 E2 T2 E3 :=
  eapply runs_bind; [apply runs_get_sys_path|];
  eapply runs_bind; [apply runs_script_dir|];
  eapply runs_bind; [apply runs_emit|];
  eapply runs_bind; [eapply runs_call_returns; exact E1|];
  cbv beta; rewrite T1; cbn [negb];
  eapply runs_bind; [eapply runs_call_returns; exact E2|];
  cbv beta; rewrite T2; cbn [negb].

Ltac count_entries Hfn :=
  unfold entries; rewrite ?filter_app, ?length_app;
  cbn [filter is_enter List.length app]; rewrite ?Hfn;
  rewrite ?filter_app, ?length_app; cbn [filter is_enter List.length app]; lia.

Section Loaded.
Context {H : Host}.

(** A loaded script: its [main] runs when the module is executed, and, if
    that run returned, once more through [module.main()]; if it raised,
    [import_and_run_module] gives [False] and [main] does not run again. *)
Lemma loaded_script_entries fn name path body main s s' :
  String.eqb "internal_complete_setup.import_and_run_module" fn = false ->
  Complete.script_at path
    = Some {| Complete.script_body := body; Complete.script_main := Some main |} ->
  (forall n, body n = main) ->
  module_loads name path s s' ->
  match result (main s') with
  | Val _ =>
      entries fn (events (Complete.import_and_run_module name path s))
      = entries fn (events (main s')) + entries fn (events (main (final (main s'))))
  | Exc _ =>
      entries fn (events (Complete.import_and_run_module name path s))
      = entries fn (events (main s'))
      /\ result (Complete.import_and_run_module name path s) = Val false
  end.
Proof.
  intros Hfn Hscript Hbody (spec & w1 & module & w2 & code & w3
                            & E1 & T1 & E2 & T2 & E3 & ->).
  rewrite <- world_with_script_dir in E1.
  set (s0 := with_script_dir s) in *.
  set (s3 := after s0 w3).
  unfold Complete.import_and_run_module, Complete.import_and_run_module_try,
    Complete.exec_module, Complete.module_main.
  rewrite Hscript. cbn [Complete.script_body Complete.script_main].
  rewrite Hbody. expose.
  pose proof (runs_self main s3) as Hm1.
  destruct (result (main s3)) as [[]|e1] eqn:R1.
  - set (s4 := final (main s3)) in *.
    pose proof (runs_self main s4) as Hm2.
    set (t1 := events (main s3)) in *. set (t2 := events (main s4)) in *.
    clearbody t1 t2.
    destruct (result (main s4)) as [[]|e2] eqn:R2.
    + match goal with
      | |- entries _ (events (?m s)) = _ =>
          assert (Hrun : exists t, runs m s (Val true) t (final (main s4))
                                   /\ entries fn t = entries fn t1 + entries fn t2)
      end.
      { eexists. split.
        - eapply runs_bind; [apply runs_emit|].
          apply runs_try_val. load_module E1 T1 E2 T2 E3.
          eapply runs_bind.
          { eapply runs_bind; [eapply runs_call_returns; exact E3 | exact Hm1]. }
          eapply runs_bind; [apply runs_emit|].
          eapply runs_bind; [exact Hm2|].
          eapply runs_bind; [apply runs_emit | apply runs_ret].
        - count_entries Hfn. }
      destruct Hrun as (t & Hrun & Ht).
      destruct (runs_inv _ _ _ _ _ Hrun) as (_ & _ & ->). exact Ht.
    + match goal with
      | |- entries _ (events (?m s)) = _ =>
          assert (Hrun : exists t, runs m s (Val false) t (final (main s4))
                                   /\ entries fn t = entries fn t1 + entries fn t2)
      end.
      { eexists. split.
        - eapply runs_bind; [apply runs_emit|].
          eapply runs_try_exc.
          + load_module E1 T1 E2 T2 E3.
            eapply runs_bind.
            { eapply runs_bind; [eapply runs_call_returns; exact E3 | exact Hm1]. }
            eapply runs_bind; [apply runs_emit|].
            apply runs_bind_exc. exact Hm2.
          + eapply runs_bind; [apply runs_emit | apply runs_ret].
        - count_entries Hfn. }
      destruct Hrun as (t & Hrun & Ht).
      destruct (runs_inv _ _ _ _ _ Hrun) as (_ & _ & ->). exact Ht.
  - set (t1 := events (main s3)) in *. clearbody t1.
    match goal with
    | |- entries _ (events (?m s)) = _ /\ _ =>
        assert (Hrun : exists t, runs m s (Val false) t (final (main s3))
                                 /\ entries fn t = entries fn t1)
    end.
    { eexists. split.
      - eapply runs_bind; [apply runs_emit|].
        eapply runs_try_exc.
        + load_module E1 T1 E2 T2 E3.
          apply runs_bind_exc.
          eapply runs_bind; [eapply runs_call_returns; exact E3 | exact Hm1].
        + eapply runs_bind; [apply runs_emit | apply runs_ret].
      - count_entries Hfn. }
    destruct Hrun as (t & Hrun & Ht).
    destruct (runs_inv _ _ _ _ _ Hrun) as (Hr & _ & ->). split; [exact Ht | exact Hr].
Qed.

End Loaded.

(** * Runs that return [True]: reading a run backwards *)

Section Inversion.
Context {H : Host}.

Lemma runs_bind_inv {A B} (m : M A) (f : A -> M B) s b t s' :
  runs (bind m f) s (Val b) t s' ->
  exists a t1 s1 t2,
    runs m s (Val a) t1 s1 /\ runs (f a) s1 (Val b) t2 s' /\ t = t1 ++ t2.
Proof.
  unfold runs. rewrite run_bind.
  destruct (m s) as [[a|e] s1 t1]; cbn [result final events]; [|discriminate].
  destruct (f a s1) as [r s2 t2] eqn:Ef; cbn [result final events].
  intros E. injection E as -> -> <-.
  exists a, t1, s1, t2. auto.
Qed.

Lemma runs_call_inv c s v t s' :
  runs (call c) s (Val v) t s' ->
  exists w, respond (world s) c = (Returns v, w)
            /\ t = [ECall c (Returns v)] /\ s' = after s w.
Proof.
  unfold runs, call. destruct (respond (world s) c) as [[v'|e] w]; [|discriminate].
  intros E. injection E as -> <- <-. now exists w.
Qed.

Lemma runs_emit_inv e s r t s' :
  runs (emit e) s r t s' -> r = Val tt /\ t = [e] /\ s' = s.
Proof. unfold runs, emit. intros E. injection E as <- <- <-. auto. Qed.

Lemma runs_ret_inv {A} (a : A) s r t s' :
  runs (ret a) s r t s' -> r = Val a /\ t = [] /\ s' = s.
Proof. unfold runs, ret. intros E. injection E as <- <- <-. auto. Qed.

Lemma runs_raise_inv {A} e s (a : A) t s' : runs (raise e) s (Val a) t s' -> False.
Proof. unfold runs, raise. discriminate. Qed.

Lemma runs_py_iter_inv v s l t s' :
  runs (py_iter v) s (Val l) t s' -> v = VList l /\ t = [] /\ s' = s.
Proof.
  destruct v; cbn [py_iter]; intros Hr;
    try (now apply runs_raise_inv in Hr).
  apply runs_ret_inv in Hr. destruct Hr as (Hr & -> & ->).
  injection Hr as ->. auto.
Qed.

Lemma for_cons {A} (x : A) l (body : A -> M unit) :
  for_ (x :: l) body = bind (body x) (fun _ => for_ l body).
Proof. reflexivity. Qed.

Lemma for_nil {A} (body : A -> M unit) : for_ [] body = ret tt.
Proof. reflexivity. Qed.

(** A function that is its entry and a [try] whose handler returns
    [False]: when it returns [True], its [try] block returned [True]. *)
Lemma returns_true_runs fn args (body : M bool) (handler : Exn -> M bool) s :
  (forall e s1, result (handler e s1) = Val false) ->
  result ((enter fn args ;; try_except body handler) s) = Val true ->
  exists t s',
    runs body s (Val true) t s'
    /\ events ((enter fn args ;; try_except body handler) s) = EEnter fn args :: t
    /\ final ((enter fn args ;; try_except body handler) s) = s'.
Proof.
  intros Hh. unfold enter. rewrite bind_emit. cbn [result final events].
  unfold try_except. pose proof (runs_self body s) as Hb.
  destruct (result (body s)) as [b|e] eqn:Eb.
  - intros Hr. rewrite Eb in Hr. injection Hr as ->.
    exists (events (body s)), (final (body s)). auto.
  - cbn [result]. rewrite Hh. discriminate.
Qed.

Lemma log_false_gives_false prefix msg s :
  result ((emit (ELog prefix msg) ;; ret false) s) = Val false.
Proof. reflexivity. Qed.

End Inversion.

(** Reads the run [R] of a chain of binds backwards: every call on the
    way returned, every branch that returns [False] is excluded; blocks
    that are not calls, logs or returns are left as they are. *)
Ltac inv_leaf R :=
  lazymatch type of R with
  | runs (call _) _ _ _ _ =>
      let w := fresh "w" in
      let E := fresh "E" in
      apply runs_call_inv in R; destruct R as (w & E & -> & ->);
      cbn [world after] in E
  | runs (emit _) _ _ _ _ =>
      let Hr := fresh in
      apply runs_emit_inv in R; destruct R as (Hr & -> & ->);
      first [injection Hr; intros; subst | clear Hr]
  | runs (ret _) _ _ _ _ =>
      let Hr := fresh in
      apply runs_ret_inv in R; destruct R as (Hr & -> & ->);
      first [discriminate Hr | injection Hr; intros; subst | clear Hr]
  | runs (raise _) _ _ _ _ => apply runs_raise_inv in R; destruct R
  | runs (py_iter _) _ _ _ _ =>
      apply runs_py_iter_inv in R; destruct R as (-> & -> & ->)
  | _ => idtac
  end.

Ltac inv_spine R :=
  lazymatch type of R with
  | runs (bind _ _) _ (Val _) _ _ =>
      let a := fresh "a" in
      let t1 := fresh "t" in
      let s1 := fresh "s" in
      let t2 := fresh "t" in
      let R1 := fresh "R" in
      let R2 := fresh "R" in
      apply runs_bind_inv in R;
      destruct R as (a & t1 & s1 & t2 & R1 & R2 & ->);
      cbv beta zeta in R2; inv_leaf R1; inv_spine R2
  | runs (if ?c then _ else _) _ _ _ _ =>
      let b := fresh "b" in
      lazymatch c with
      | negb ?d => destruct d eqn:b
      | _ => destruct c eqn:b
      end;
      cbn [negb] in R; inv_spine R
  | _ => inv_leaf R
  end.

(** Unrolls the run [R] of a loop over a literal table and reads each turn
    backwards. *)
Ltac unroll R :=
  lazymatch type of R with
  | runs (for_ (_ :: _) _) _ _ _ _ =>
      let a := fresh "a" in
      let t1 := fresh "t" in
      let s1 := fresh "s" in
      let t2 := fresh "t" in
      let R1 := fresh "R" in
      let R2 := fresh "R" in
      rewrite for_cons in R; apply runs_bind_inv in R;
      destruct R as (a & t1 & s1 & t2 & R1 & R2 & ->);
      cbv beta zeta in R1, R2; inv_spine R1; unroll R2
  | runs (for_ [] _) _ _ _ _ => rewrite for_nil in R; inv_leaf R
  end.

Section Suffix.
Context {H : Host}.

Lemma ends_with_refl (l : list Event) : ends_with l l.
Proof. now exists []. Qed.

Lemma ends_with_cons suffix x (l : list Event) :
  ends_with suffix l -> ends_with suffix (x :: l).
Proof. intros [before ->]. now exists (x :: before). Qed.

Lemma ends_with_app suffix (l1 l2 : list Event) :
  ends_with suffix l2 -> ends_with suffix (l1 ++ l2).
Proof. intros [before ->]. exists (l1 ++ before). now rewrite app_assoc. Qed.

Lemma runs_quiet {A} (P : Event -> bool) (m : M A) s r t s' :
  at_most 0 P m -> runs m s r t s' -> filter P t = [].
Proof.
  intros Hm Hr. destruct (runs_inv _ _ _ _ _ Hr) as (_ & _ & <-).
  now apply at_most_0.
Qed.

End Suffix.

Ltac find_suffix :=
  repeat first [ apply ends_with_refl
               | apply ends_with_cons
               | apply ends_with_app ].

(** * The input mappings (C5) *)

Section InputMappings.
Context {H : Host}.

Lemma removal_adds_nothing_actions settings existing :
  at_most 0 is_add_mapping
    (for_ InputSetup.action_mappings (fun action =>
       existing_list <- py_iter existing ;;
       for_ existing_list (fun existing =>
         name <- get_action_name existing ;;
         if String.eqb name (fst action) then
           call (remove_action_mapping settings existing) ;; ret tt
         else ret tt))).
Proof. bounded. Qed.

Lemma removal_adds_nothing_axes settings existing :
  at_most 0 is_add_mapping
    (for_ InputSetup.axis_mappings (fun axis =>
       existing_list <- py_iter existing ;;
       for_ existing_list (fun existing =>
         name <- get_axis_name existing ;;
         if String.eqb name (fst (fst axis)) then
           call (remove_axis_mapping settings existing) ;; ret tt
         else ret tt))).
Proof. bounded. Qed.

Lemma input_mappings_added s :
  result (InputSetup.setup_input_mappings s) = Val true ->
  exists settings subsystem saved,
    ends_with [ECall (save_config_file subsystem settings) (Returns saved);
               ELog "[INPUT SETUP] " "Successfully set up input mappings"]
              (events (InputSetup.setup_input_mappings s))
    /\ calls (filter is_add_mapping (events (InputSetup.setup_input_mappings s)))
       = map (fun a => add_action_mapping settings
                         (VActionMapping (InputSetup.action_mapping_of a)))
             InputSetup.action_mappings
         ++ map (fun a => add_axis_mapping settings
                            (VAxisMapping (InputSetup.axis_mapping_of a)))
                InputSetup.axis_mappings.
Proof.
  intros Hres. unfold InputSetup.setup_input_mappings in *.
  apply returns_true_runs in Hres; [|intros; apply log_false_gives_false].
  destruct Hres as (t & s' & R & -> & _).
  unfold InputSetup.setup_input_mappings_try in R. expose.
  inv_spine R.
  match goal with
  | Ra : runs (for_ InputSetup.action_mappings (fun _ => bind (py_iter _) _)) _ _ ?ta _,
    Rx : runs (for_ InputSetup.axis_mappings (fun _ => bind (py_iter _) _)) _ _ ?tx _ |- _ =>
      pose proof (runs_quiet _ _ _ _ _ _ (removal_adds_nothing_actions _ _) Ra) as Qa;
      pose proof (runs_quiet _ _ _ _ _ _ (removal_adds_nothing_axes _ _) Rx) as Qx;
      clear Ra Rx
  end.
  match goal with
  | Ra : runs (for_ InputSetup.action_mappings _) _ _ _ _ |- _ =>
      unfold InputSetup.action_mappings in Ra; unroll Ra
  end.
  match goal with
  | Rx : runs (for_ InputSetup.axis_mappings _) _ _ _ _ |- _ =>
      unfold InputSetup.axis_mappings in Rx; unroll Rx
  end.
  do 3 eexists. split.
  - find_suffix.
  - repeat (progress (rewrite ?filter_app; cbn [filter is_add_mapping app])).
    rewrite Qa, Qx. cbn [filter is_add_mapping app calls flat_map].
    reflexivity.
Qed.

End InputMappings.



(** * Reading the components off a run *)

Section Components.
Context {H : Host}.

Lemma runs_try_inv (body : M bool) handler s t s' :
  (forall e s1, result (handler e s1) = Val false) ->
  runs (try_except body handler) s (Val true) t s' ->
  runs body s (Val true) t s'.
Proof.
  intros Hh. unfold runs, try_except.
  destruct (body s) as [[b|e] s1 t1]; cbn [result final events]; [easy|].
  intros E. pose proof (f_equal result E) as Er. cbn [result] in Er.
  rewrite Hh in Er. discriminate.
Qed.

Lemma calls_app (a b : list Event) : calls (a ++ b) = calls a ++ calls b.
Proof. apply flat_map_app. Qed.

End Components.

Section SpaceshipComponents.
Context {H : Host}.

Lemma find_adds_nothing name comps :
  at_most 0 is_add_component (find_by_name name comps).
Proof. bounded. Qed.

Lemma find_sets_nothing name comps :
  at_most 0 is_set_property (find_by_name name comps).
Proof. bounded. Qed.

End SpaceshipComponents.

(** * The input settings after the setup (C8) *)

Section Stores.
Variable T : Type.
Variable name : T -> string.
Variable eqb : T -> T -> bool.
Hypothesis eqb_name : forall x y, eqb x y = true -> name x = name y.
Hypothesis eqb_refl : forall x, eqb x x = true.

Lemma filter_all (l : list T) : filter (fun _ => true) l = l.
Proof. induction l as [|x l IH]; cbn [filter]; [reflexivity | now rewrite IH]. Qed.

Lemma filter_twice (f g : T -> bool) (l : list T) :
  filter f (filter g l) = filter (fun x => g x && f x) l.
Proof.
  induction l as [|x l IH]; [reflexivity|]. cbn [filter].
  destruct (g x); cbn [filter andb]; rewrite IH; reflexivity.
Qed.

Lemma filter_disjoint (f g : T -> bool) (l : list T) :
  (forall x, f x = true -> g x = false) -> filter f (filter g l) = [].
Proof.
  intros D. induction l as [|x l IH]; [reflexivity|]. cbn [filter].
  destruct (g x) eqn:G; [|exact IH]. cbn [filter].
  destruct (f x) eqn:F; [|exact IH]. apply D in F. congruence.
Qed.

Lemma removed_by_named names snapshot x :
  In x snapshot -> removed_by name eqb names snapshot x = named names (name x).
Proof.
  intros Hx. unfold removed_by, named. apply eq_true_iff_eq.
  rewrite !existsb_exists. split.
  - intros (n & Hn & He). apply existsb_exists in He. destruct He as (e & _ & He).
    apply andb_true_iff in He. destruct He as (Hname & Heq).
    exists n. split; [exact Hn|]. apply eqb_name in Heq. now rewrite Heq.
  - intros (n & Hn & He). exists n. split; [exact Hn|].
    apply existsb_exists. exists x. split; [exact Hx|].
    now rewrite He, eqb_refl.
Qed.

Lemma kept_are_unnamed names (l : list T) :
  filter (fun x => negb (removed_by name eqb names l x)) l
  = filter (fun x => negb (named names (name x))) l.
Proof. apply filter_ext_in. intros x Hx. now rewrite removed_by_named. Qed.

Lemma absent_after_removal names (l : list T) m :
  named names (name m) = true ->
  existsb (eqb m) (filter (fun x => negb (named names (name x))) l) = false.
Proof.
  intros Hm. destruct (existsb _ _) eqn:E; [|reflexivity].
  apply existsb_exists in E. destruct E as (x & Hx & He).
  apply filter_In in Hx. destruct Hx as (_ & Hx).
  apply eqb_name in He. rewrite <- He, Hm in Hx. discriminate.
Qed.

Lemma named_of_table {A} (f : A -> T) (g : A -> string) n (l : list A) :
  (forall a, name (f a) = g a) ->
  filter (fun m => String.eqb (name m) n) (map f l)
  = map f (filter (fun a => String.eqb (g a) n) l).
Proof.
  intros Hf. induction l as [|a l IH]; [reflexivity|]. cbn [map filter].
  rewrite Hf. destruct (String.eqb (g a) n); cbn [map]; now rewrite IH.
Qed.

End Stores.

Lemma action_mapping_eqb_name x y :
  action_mapping_eqb x y = true -> action_name x = action_name y.
Proof.
  unfold action_mapping_eqb. rewrite !andb_true_iff.
  intros (((((E & _) & _) & _) & _) & _). now apply String.eqb_eq.
Qed.

Lemma action_mapping_eqb_refl x : action_mapping_eqb x x = true.
Proof.
  unfold action_mapping_eqb. rewrite !String.eqb_refl, !eqb_reflx. reflexivity.
Qed.

Lemma axis_mapping_eqb_name x y :
  axis_mapping_eqb x y = true -> axis_name x = axis_name y.
Proof.
  unfold axis_mapping_eqb. rewrite !andb_true_iff.
  intros ((E & _) & _). now apply String.eqb_eq.
Qed.

Lemma axis_mapping_eqb_refl x : axis_mapping_eqb x x = true.
Proof.
  unfold axis_mapping_eqb, Qeqb_lit.
  rewrite !String.eqb_refl, Z.eqb_refl, Pos.eqb_refl. reflexivity.
Qed.

Section InputStore.
Context {H : Host}.
Variable actions : World -> list InputActionKeyMapping.
Variable axes : World -> list InputAxisKeyMapping.
Hypothesis keeps : keeps_input_settings H actions axes.

(** The inner removal loop, for one name of the table. *)
Lemma remove_actions_named settings n snapshot s u t s' :
  runs (for_ (map VActionMapping snapshot) (fun existing =>
          name <- get_action_name existing ;;
          if String.eqb name n then
            call (remove_action_mapping settings existing) ;; ret tt
          else ret tt)) s (Val u) t s' ->
  actions (world s')
  = filter (fun x => negb (existsb (fun e => String.eqb (action_name e) n
                                              && action_mapping_eqb x e) snapshot))
           (actions (world s))
  /\ axes (world s') = axes (world s).
Proof.
  revert s t. induction snapshot as [|m l IH]; intros s t R.
  - cbn [map] in R. rewrite for_nil in R. apply runs_ret_inv in R.
    destruct R as (_ & _ & ->). split; [|reflexivity].
    cbn [existsb negb]. symmetry. apply filter_all.
  - cbn [map] in R. rewrite for_cons in R. apply runs_bind_inv in R.
    destruct R as (a & t1 & s1 & t2 & R1 & R2 & ->).
    cbv beta in R1. cbn [get_action_name] in R1.
    apply IH in R2. destruct R2 as (Ha & Hx). rewrite Ha, Hx. clear Ha Hx IH.
    inv_spine R1.
    + match goal with
      | E : respond _ (remove_action_mapping _ _) = _ |- _ =>
          apply (remove_action_mapping_law _ _ _ keeps) in E; destruct E as (Ea & Ex)
      end.
      cbn [world after]. rewrite Ea, Ex. split; [|reflexivity].
      rewrite filter_twice. apply filter_ext. intros x. cbn [existsb].
      match goal with
      | b : String.eqb _ _ = true |- _ => rewrite b
      end.
      cbn [andb]. now rewrite negb_orb.
    + split; [|reflexivity]. apply filter_ext. intros x. cbn [existsb].
      match goal with
      | b : String.eqb _ _ = false |- _ => rewrite b
      end.
      reflexivity.
Qed.

Lemma remove_axes_named settings n snapshot s u t s' :
  runs (for_ (map VAxisMapping snapshot) (fun existing =>
          name <- get_axis_name existing ;;
          if String.eqb name n then
            call (remove_axis_mapping settings existing) ;; ret tt
          else ret tt)) s (Val u) t s' ->
  axes (world s')
  = filter (fun x => negb (existsb (fun e => String.eqb (axis_name e) n
                                              && axis_mapping_eqb x e) snapshot))
           (axes (world s))
  /\ actions (world s') = actions (world s).
Proof.
  revert s t. induction snapshot as [|m l IH]; intros s t R.
  - cbn [map] in R. rewrite for_nil in R. apply runs_ret_inv in R.
    destruct R as (_ & _ & ->). split; [|reflexivity].
    cbn [existsb negb]. symmetry. apply filter_all.
  - cbn [map] in R. rewrite for_cons in R. apply runs_bind_inv in R.
    destruct R as (a & t1 & s1 & t2 & R1 & R2 & ->).
    cbv beta in R1. cbn [get_axis_name] in R1.
    apply IH in R2. destruct R2 as (Hx & Ha). rewrite Ha, Hx. clear Ha Hx IH.
    inv_spine R1.
    + match goal with
      | E : respond _ (remove_axis_mapping _ _) = _ |- _ =>
          apply (remove_axis_mapping_law _ _ _ keeps) in E; destruct E as (Ex & Ea)
      end.
      cbn [world after]. rewrite Ea, Ex. split; [|reflexivity].
      rewrite filter_twice. apply filter_ext. intros x. cbn [existsb].
      match goal with
      | b : String.eqb _ _ = true |- _ => rewrite b
      end.
      cbn [andb]. now rewrite negb_orb.
    + split; [|reflexivity]. apply filter_ext. intros x. cbn [existsb].
      match goal with
      | b : String.eqb _ _ = false |- _ => rewrite b
      end.
      reflexivity.
Qed.

(** The removal loops, over the names of a table and a snapshot of the
    store. *)
Lemma remove_actions_tabled settings snapshot (tbl : list (string * Key)) s u t s' :
  runs (for_ tbl (fun action =>
          existing_list <- py_iter (VList (map VActionMapping snapshot)) ;;
          for_ existing_list (fun existing =>
            name <- get_action_name existing ;;
            if String.eqb name (fst action) then
              call (remove_action_mapping settings existing) ;; ret tt
            else ret tt))) s (Val u) t s' ->
  actions (world s')
  = filter (fun x => negb (removed_by action_name action_mapping_eqb
                                      (map fst tbl) snapshot x))
           (actions (world s))
  /\ axes (world s') = axes (world s).
Proof.
  revert s t. induction tbl as [|a tbl IH]; intros s t R.
  - rewrite for_nil in R. apply runs_ret_inv in R. destruct R as (_ & _ & ->).
    split; [|reflexivity]. symmetry. apply filter_all.
  - rewrite for_cons in R. apply runs_bind_inv in R.
    destruct R as (a0 & t1 & s1 & t2 & R1 & R2 & ->). cbv beta in R1.
    apply IH in R2. destruct R2 as (Ha & Hx). rewrite Ha, Hx. clear Ha Hx IH.
    apply runs_bind_inv in R1. destruct R1 as (l & t3 & s2 & t4 & Rp & Rf & ->).
    apply runs_py_iter_inv in Rp. destruct Rp as (El & _ & ->).
    injection El as <-. apply remove_actions_named in Rf.
    destruct Rf as (Ha & Hx). rewrite Ha, Hx. split; [|reflexivity].
    rewrite filter_twice. apply filter_ext. intros x.
    unfold removed_by. cbn [map existsb]. now rewrite negb_orb.
Qed.

Lemma remove_axes_tabled settings snapshot (tbl : list (string * Key * Q)) s u t s' :
  runs (for_ tbl (fun axis =>
          existing_list <- py_iter (VList (map VAxisMapping snapshot)) ;;
          for_ existing_list (fun existing =>
            name <- get_axis_name existing ;;
            if String.eqb name (fst (fst axis)) then
              call (remove_axis_mapping settings existing) ;; ret tt
            else ret tt))) s (Val u) t s' ->
  axes (world s')
  = filter (fun x => negb (removed_by axis_name axis_mapping_eqb
                                      (map (fun a => fst (fst a)) tbl) snapshot x))
           (axes (world s))
  /\ actions (world s') = actions (world s).
Proof.
  revert s t. induction tbl as [|a tbl IH]; intros s t R.
  - rewrite for_nil in R. apply runs_ret_inv in R. destruct R as (_ & _ & ->).
    split; [|reflexivity]. symmetry. apply filter_all.
  - rewrite for_cons in R. apply runs_bind_inv in R.
    destruct R as (a0 & t1 & s1 & t2 & R1 & R2 & ->). cbv beta in R1.
    apply IH in R2. destruct R2 as (Hx & Ha). rewrite Ha, Hx. clear Ha Hx IH.
    apply runs_bind_inv in R1. destruct R1 as (l & t3 & s2 & t4 & Rp & Rf & ->).
    apply runs_py_iter_inv in Rp. destruct Rp as (El & _ & ->).
    injection El as <-. apply remove_axes_named in Rf.
    destruct Rf as (Hx & Ha). rewrite Ha, Hx. split; [|reflexivity].
    rewrite filter_twice. apply filter_ext. intros x.
    unfold removed_by. cbn [map existsb]. now rewrite negb_orb.
Qed.

(** The loops that add a table whose mappings are pairwise different and
    none of which is in the store yet. *)
Lemma add_actions_tabled settings (line : string * Key -> Event)
    (tbl : list (string * Key)) s u t s' :
  ForallOrdPairs (fun a b => action_mapping_eqb (InputSetup.action_mapping_of b)
                                                (InputSetup.action_mapping_of a) = false) tbl ->
  Forall (fun a => existsb (action_mapping_eqb (InputSetup.action_mapping_of a))
                           (actions (world s)) = false) tbl ->
  runs (for_ tbl (fun action =>
          call (add_action_mapping settings
                  (VActionMapping (InputSetup.action_mapping_of action))) ;;
          emit (line action))) s (Val u) t s' ->
  actions (world s') = actions (world s) ++ map InputSetup.action_mapping_of tbl
  /\ axes (world s') = axes (world s).
Proof.
  revert s t. induction tbl as [|a tbl IH]; intros s t D F R.
  - rewrite for_nil in R. apply runs_ret_inv in R. destruct R as (_ & _ & ->).
    cbn [map]. now rewrite app_nil_r.
  - inversion D as [|? ? Da Dt]; subst. inversion F as [|? ? Fa Ft]; subst.
    rewrite for_cons in R. apply runs_bind_inv in R.
    destruct R as (a0 & t1 & s1 & t2 & R1 & R2 & ->). cbv beta in R1.
    inv_spine R1.
    match goal with
    | E : respond _ (add_action_mapping _ _) = _ |- _ =>
        apply (add_action_mapping_law _ _ _ keeps) in E; [|exact Fa];
        destruct E as (Ea & Ex)
    end.
    apply IH in R2; [|exact Dt|].
    + destruct R2 as (Ha & Hx). rewrite Ha, Hx. cbn [world after map].
      rewrite Ea, Ex, <- app_assoc. split; reflexivity.
    + cbn [world after]. rewrite Ea. rewrite Forall_forall in *.
      intros b Hb. rewrite existsb_app, (Ft b Hb). cbn [existsb orb].
      now rewrite (Da b Hb).
Qed.

Lemma add_axes_tabled settings (line : string * Key * Q -> Event)
    (tbl : list (string * Key * Q)) s u t s' :
  ForallOrdPairs (fun a b => axis_mapping_eqb (InputSetup.axis_mapping_of b)
                                              (InputSetup.axis_mapping_of a) = false) tbl ->
  Forall (fun a => existsb (axis_mapping_eqb (InputSetup.axis_mapping_of a))
                           (axes (world s)) = false) tbl ->
  runs (for_ tbl (fun axis =>
          call (add_axis_mapping settings
                  (VAxisMapping (InputSetup.axis_mapping_of axis))) ;;
          emit (line axis))) s (Val u) t s' ->
  axes (world s') = axes (world s) ++ map InputSetup.axis_mapping_of tbl
  /\ actions (world s') = actions (world s).
Proof.
  revert s t. induction tbl as [|a tbl IH]; intros s t D F R.
  - rewrite for_nil in R. apply runs_ret_inv in R. destruct R as (_ & _ & ->).
    cbn [map]. now rewrite app_nil_r.
  - inversion D as [|? ? Da Dt]; subst. inversion F as [|? ? Fa Ft]; subst.
    rewrite for_cons in R. apply runs_bind_inv in R.
    destruct R as (a0 & t1 & s1 & t2 & R1 & R2 & ->). cbv beta in R1.
    inv_spine R1.
    match goal with
    | E : respond _ (add_axis_mapping _ _) = _ |- _ =>
        apply (add_axis_mapping_law _ _ _ keeps) in E; [|exact Fa];
        destruct E as (Ex & Ea)
    end.
    apply IH in R2; [|exact Dt|].
    + destruct R2 as (Hx & Ha). rewrite Ha, Hx. cbn [world after map].
      rewrite Ea, Ex, <- app_assoc. split; reflexivity.
    + cbn [world after]. rewrite Ex. rewrite Forall_forall in *.
      intros b Hb. rewrite existsb_app, (Ft b Hb). cbn [existsb orb].
      now rewrite (Da b Hb).
Qed.

Lemma action_table_distinct :
  ForallOrdPairs (fun a b => action_mapping_eqb (InputSetup.action_mapping_of b)
                                                (InputSetup.action_mapping_of a) = false)
                 InputSetup.action_mappings.
Proof. repeat constructor. Qed.

Lemma axis_table_distinct :
  ForallOrdPairs (fun a b => axis_mapping_eqb (InputSetup.axis_mapping_of b)
                                              (InputSetup.axis_mapping_of a) = false)
                 InputSetup.axis_mappings.
Proof. repeat constructor. Qed.

Lemma action_table_absent old :
  Forall (fun a => existsb (action_mapping_eqb (InputSetup.action_mapping_of a))
                           (other_actions old) = false)
         InputSetup.action_mappings.
Proof.
  repeat constructor;
    apply (absent_after_removal _ action_name _ action_mapping_eqb_name); reflexivity.
Qed.

Lemma axis_table_absent old :
  Forall (fun a => existsb (axis_mapping_eqb (InputSetup.axis_mapping_of a))
                           (other_axes old) = false)
         InputSetup.axis_mappings.
Proof.
  repeat constructor;
    apply (absent_after_removal _ axis_name _ axis_mapping_eqb_name); reflexivity.
Qed.

(** The two arrays after a run of [setup_input_mappings] that returns
    [True]. *)
Lemma input_store_after s :
  result (InputSetup.setup_input_mappings s) = Val true ->
  actions (world (final (InputSetup.setup_input_mappings s)))
  = other_actions (actions (world s))
    ++ map InputSetup.action_mapping_of InputSetup.action_mappings
  /\ axes (world (final (InputSetup.setup_input_mappings s)))
     = other_axes (axes (world s))
       ++ map InputSetup.axis_mapping_of InputSetup.axis_mappings.
Proof.
  intros Hres. unfold InputSetup.setup_input_mappings in *.
  apply returns_true_runs in Hres; [|intros; apply log_false_gives_false].
  destruct Hres as (t & s' & R & _ & Hfin). rewrite Hfin. clear Hfin.
  unfold InputSetup.setup_input_mappings_try in R. expose.
  inv_spine R.
  repeat match goal with
         | E : respond _ (get_default_object _) = _ |- _ =>
             apply (get_default_object_law _ _ _ keeps) in E; destruct E as (? & ?)
         | E : respond _ (get_editor_subsystem _) = _ |- _ =>
             apply (get_editor_subsystem_law _ _ _ keeps) in E; destruct E as (? & ?)
         | E : respond _ (save_config_file _ _) = _ |- _ =>
             apply (save_config_file_law _ _ _ keeps) in E; destruct E as (? & ?)
         | E : respond _ (get_action_mappings _) = _ |- _ =>
             apply (get_action_mappings_law _ _ _ keeps) in E; destruct E as (-> & ? & ?)
         | E : respond _ (get_axis_mappings _) = _ |- _ =>
             apply (get_axis_mappings_law _ _ _ keeps) in E; destruct E as (-> & ? & ?)
         end.
  match goal with
  | R : runs (for_ _ (fun _ => bind (py_iter (VList (map VActionMapping _))) _)) _ _ _ _ |- _ =>
      apply remove_actions_tabled in R; destruct R as (Ra & Rax); cbn [world after] in Ra, Rax
  end.
  match goal with
  | R : runs (for_ _ (fun _ => bind (py_iter (VList (map VAxisMapping _))) _)) _ _ _ _ |- _ =>
      apply remove_axes_tabled in R; destruct R as (Rx & Rxa); cbn [world after] in Rx, Rxa
  end.
  match goal with
  | R : runs (for_ _ (fun _ => bind (call (add_action_mapping _ _)) _)) ?cleared _ _ _ |- _ =>
      assert (A1 : actions (world cleared) = other_actions (actions (world s))
                   /\ axes (world cleared) = other_axes (axes (world s)))
  end.
  { repeat match goal with
           | E : actions _ = _ |- _ => try rewrite E in *; clear E
           | E : axes _ = _ |- _ => try rewrite E in *; clear E
           end.
    split.
    - apply (kept_are_unnamed _ action_name action_mapping_eqb
               action_mapping_eqb_name action_mapping_eqb_refl).
    - apply (kept_are_unnamed _ axis_name axis_mapping_eqb
               axis_mapping_eqb_name axis_mapping_eqb_refl). }
  destruct A1 as (A1 & X1).
  match goal with
  | R : runs (for_ _ (fun _ => bind (call (add_action_mapping _ _)) _)) _ _ _ _ |- _ =>
      apply add_actions_tabled in R;
      [ destruct R as (A2 & X2)
      | exact action_table_distinct
      | rewrite A1; apply action_table_absent ]
  end.
  match goal with
  | R : runs (for_ _ (fun _ => bind (call (add_axis_mapping _ _)) _)) _ _ _ _ |- _ =>
      apply add_axes_tabled in R;
      [ destruct R as (X3 & A3)
      | exact axis_table_distinct
      | rewrite X2, X1; apply axis_table_absent ]
  end.
  cbn [world after].
  repeat match goal with
         | E : actions _ = _ |- _ => try rewrite E in *; clear E
         | E : axes _ = _ |- _ => try rewrite E in *; clear E
         end.
  split; reflexivity.
Qed.

Lemma named_actions_after old n :
  In n action_names ->
  actions_named n (other_actions old
                   ++ map InputSetup.action_mapping_of InputSetup.action_mappings)
  = table_actions n.
Proof.
  intros Hn. unfold actions_named, other_actions, table_actions.
  rewrite filter_app, filter_disjoint.
  - apply (named_of_table _ action_name). reflexivity.
  - intros x Hx. apply String.eqb_eq in Hx. subst n.
    apply negb_false_iff. apply existsb_exists. exists (action_name x).
    split; [exact Hn | apply String.eqb_refl].
Qed.

Lemma named_axes_after old n :
  In n axis_names ->
  axes_named n (other_axes old
                ++ map InputSetup.axis_mapping_of InputSetup.axis_mappings)
  = table_axes n.
Proof.
  intros Hn. unfold axes_named, other_axes, table_axes.
  rewrite filter_app, filter_disjoint.
  - apply (named_of_table _ axis_name). reflexivity.
  - intros x Hx. apply String.eqb_eq in Hx. subst n.
    apply negb_false_iff. apply existsb_exists. exists (axis_name x).
    split; [exact Hn | apply String.eqb_refl].
Qed.

End InputStore.

Lemma one_mapping_per_action n :
  In n action_names -> List.length (table_actions n) = 1.
Proof.
  intros Hn. cbn in Hn.
  repeat (destruct Hn as [<- | Hn]; [reflexivity|]). destruct Hn.
Qed.

(** The small editor keeps the input settings as the engine does. *)
Lemma editor_keeps_input_settings :
  keeps_input_settings (editor no_fault) action_store axis_store.
Proof.
  constructor; cbn [respond editor editor_respond no_fault];
    intros; repeat match goal with
                   | E : (_, _) = (_, _) |- _ => injection E as <- <-
                   end; cbn [action_store axis_store]; auto.
  - match goal with
    | E : existsb _ _ = false |- _ => rewrite E
    end. auto.
  - match goal with
    | E : existsb _ _ = false |- _ => rewrite E
    end. auto.
Qed.




(** * The variables of the spaceship blueprint *)

Section Variables.
Context {H : Host}.

Lemma added_variables_app a b :
  added_variables (a ++ b) = added_variables a ++ added_variables b.
Proof. apply flat_map_app. Qed.

Lemma answered_absent_app a b n :
  answered_absent (a ++ b) n = answered_absent a n || answered_absent b n.
Proof. apply existsb_app. Qed.

(** One row of the table: the check is made once; the variable is added
    when, and only when, the check answered that it is absent; and nothing
    escapes. *)
Lemma add_one_variable_facts ed bp var s :
  result (add_one_variable ed bp var s) = Val tt
  /\ calls (filter is_variable_check (events (add_one_variable ed bp var s)))
     = [variable_check bp var]
  /\ added_variables (events (add_one_variable ed bp var s))
     = (if answered_absent (events (add_one_variable ed bp var s)) (Creator.var_name var)
        then [variable_row bp var] else [])
  /\ (forall n, n <> Creator.var_name var ->
        answered_absent (events (add_one_variable ed bp var s)) n = false).
Proof.
  assert (Hn : forall n, n <> Creator.var_name var ->
                 String.eqb (Creator.var_name var) n = false).
  { intros n Hne. apply String.eqb_neq. congruence. }
  unfold add_one_variable, try_except, variable_check, variable_row.
  exec; cbn [filter is_variable_check calls flat_map app added_variables answered_absent
             existsb];
    rewrite ?String.eqb_refl;
    repeat match goal with
           | E : truthy _ = _ |- _ => rewrite E
           end;
    cbn [negb andb orb];
    (repeat apply conj; try reflexivity);
    intros n Hne; rewrite ?(Hn n Hne); reflexivity.
Qed.

Lemma variables_loop ed bp (vars : list (string * Value * Value)) :
  NoDup (map Creator.var_name vars) ->
  forall s,
    result (for_ vars (add_one_variable ed bp) s) = Val tt
    /\ calls (filter is_variable_check (events (for_ vars (add_one_variable ed bp) s)))
       = map (variable_check bp) vars
    /\ added_variables (events (for_ vars (add_one_variable ed bp) s))
       = map (variable_row bp)
             (filter (fun v => answered_absent
                                 (events (for_ vars (add_one_variable ed bp) s))
                                 (Creator.var_name v)) vars)
    /\ (forall n, ~ In n (map Creator.var_name vars) ->
          answered_absent (events (for_ vars (add_one_variable ed bp) s)) n = false).
Proof.
  induction vars as [|v vars IH]; intros Hnd s.
  - cbn. auto.
  - cbn [map] in Hnd. inversion Hnd as [|? ? Hv Hvars]; subst.
    destruct (add_one_variable_facts ed bp v s) as (R1 & C1 & A1 & N1).
    cbn [for_]. destruct (bind_val _ (fun _ => for_ vars (add_one_variable ed bp)) _ _ R1)
      as (Rb & _ & Eb).
    rewrite Rb, Eb. clear Rb Eb.
    destruct (IH Hvars (final (add_one_variable ed bp v s))) as (R2 & C2 & A2 & N2).
    set (e1 := events (add_one_variable ed bp v s)) in *.
    set (e2 := events (for_ vars (add_one_variable ed bp) _)) in *.
    clearbody e1 e2.
    split; [exact R2|]. split; [|split].
    + rewrite filter_app, calls_app, C1, C2. reflexivity.
    + rewrite added_variables_app, A1, A2. cbn [filter map].
      rewrite answered_absent_app, (N2 _ Hv), orb_false_r.
      assert (Hrest : filter (fun v0 => answered_absent (e1 ++ e2) (Creator.var_name v0)) vars
                      = filter (fun v0 => answered_absent e2 (Creator.var_name v0)) vars).
      { apply filter_ext_in. intros v' Hv'. rewrite answered_absent_app, N1; [reflexivity|].
        intros Heq. apply Hv. rewrite <- Heq. now apply in_map. }
      rewrite Hrest. destruct (answered_absent e1 (Creator.var_name v)); reflexivity.
    + intros n Hn. cbn [map In] in Hn. rewrite answered_absent_app, N1, N2; auto.
Qed.

Lemma variable_names_differ : NoDup (map Creator.var_name Creator.variables).
Proof.
  cbn. repeat (constructor; [cbn; intros Hin;
    repeat (destruct Hin as [Hin|Hin]; [discriminate Hin|]); exact Hin|]).
  constructor.
Qed.

(** A run of [add_blueprint_variables] on a blueprint, once the editor
    subsystem is there: the loop over the table, then one of three
    endings. *)
Lemma variables_run bp s ed w :
  is_none bp = false ->
  respond (world s) (get_editor_subsystem (VType "BlueprintEditorSubsystem"))
    = (Returns ed, w) ->
  exists tail,
    events (Creator.add_blueprint_variables bp s)
    = EEnter "internal_spaceship_creator.add_blueprint_variables" [bp]
      :: ECall (get_editor_subsystem (VType "BlueprintEditorSubsystem")) (Returns ed)
      :: events (for_ Creator.variables (add_one_variable ed bp) (after s w)) ++ tail
    /\ ((exists e w1 w2,
           respond w1 (compile_blueprint ed bp) = (Raises e, w2)
           /\ tail = [ECall (compile_blueprint ed bp) (Raises e); variables_error e]
           /\ result (Creator.add_blueprint_variables bp s) = Val false)
        \/ (exists v e w1 w2,
              respond w1 (save_asset Creator.SPACESHIP_FULL_PATH) = (Raises e, w2)
              /\ tail = [ECall (compile_blueprint ed bp) (Returns v);
                         ECall (save_asset Creator.SPACESHIP_FULL_PATH) (Raises e);
                         variables_error e]
              /\ result (Creator.add_blueprint_variables bp s) = Val false)
        \/ (exists v v',
              tail = [ECall (compile_blueprint ed bp) (Returns v);
                      ECall (save_asset Creator.SPACESHIP_FULL_PATH) (Returns v');
                      variables_done]
              /\ result (Creator.add_blueprint_variables bp s) = Val true)).
Proof.
  intros Hbp Hed.
  destruct (variables_loop ed bp Creator.variables variable_names_differ (after s w))
    as (Rl & _).
  unfold Creator.add_blueprint_variables, enter. rewrite bind_emit. cbn [result events].
  rewrite Hbp. unfold try_except, Creator.add_blueprint_variables_try.
  rewrite (bind_call_returns _ _ _ _ _ Hed).
  change (fun var : string * Value * Value => try_except _ _)
    with (add_one_variable ed bp).
  rewrite (bind_val_run _ _ _ _ Rl).
  set (loop := events (for_ Creator.variables (add_one_variable ed bp) (after s w))).
  set (s1 := final (for_ Creator.variables (add_one_variable ed bp) (after s w))).
  clearbody loop s1. unfold variables_error, variables_done.
  exec.
  - eexists. split; [rewrite <- ?app_assoc; cbn [app]; reflexivity|].
    right. right. eauto.
  - eexists. split; [rewrite <- ?app_assoc; cbn [app]; reflexivity|].
    right. left. eauto 10.
  - eexists. split; [rewrite <- ?app_assoc; cbn [app]; reflexivity|].
    left. eauto 10.
Qed.

Lemma filter_none {A} (f : A -> bool) (l : list A) :
  (forall x, f x = false) -> filter f l = [].
Proof.
  intros Hf. induction l as [|x l IH]; [reflexivity|]. cbn [filter]. now rewrite Hf.
Qed.

Lemma variables_added_when_absent bp s :
  added_variables (events (Creator.add_blueprint_variables bp s))
  = map (variable_row bp)
        (filter (fun v => answered_absent (events (Creator.add_blueprint_variables bp s))
                                          (Creator.var_name v))
                Creator.variables).
Proof.
  destruct (is_none bp) eqn:Hbp.
  - unfold Creator.add_blueprint_variables, enter. rewrite bind_emit, Hbp.
    cbn [result events]. exec. rewrite filter_none; reflexivity.
  - destruct (call_cases (get_editor_subsystem (VType "BlueprintEditorSubsystem")) s)
      as [(ed & w & E)|(e & w & E)].
    + destruct (variables_run bp s ed w Hbp E) as (tail & -> & Htail).
      destruct (variables_loop ed bp Creator.variables variable_names_differ (after s w))
        as (_ & _ & Ha & _).
      set (loop := events (for_ Creator.variables (add_one_variable ed bp) (after s w))) in *.
      clearbody loop.
      assert (Hq : forall n,
                 answered_absent
                   (EEnter "internal_spaceship_creator.add_blueprint_variables" [bp]
                    :: ECall (get_editor_subsystem (VType "BlueprintEditorSubsystem"))
                             (Returns ed) :: loop ++ tail) n
                 = answered_absent loop n
               /\ added_variables tail = []).
      { intros n. cbn [answered_absent existsb orb].
        fold (answered_absent (loop ++ tail) n). rewrite answered_absent_app.
        destruct Htail as [(e & _ & _ & _ & -> & _)
                          |[(v & e & _ & _ & _ & -> & _)|(v & v' & -> & _)]];
          unfold variables_error, variables_done;
          cbn [answered_absent added_variables existsb flat_map app orb];
          rewrite orb_false_r; split; reflexivity. }
      cbn [added_variables flat_map app]. fold (added_variables (loop ++ tail)).
      rewrite added_variables_app, (proj2 (Hq "")), app_nil_r, Ha.
      f_equal. apply filter_ext. intros v. symmetry. apply Hq.
    + unfold Creator.add_blueprint_variables, enter. rewrite bind_emit, Hbp.
      unfold try_except, Creator.add_blueprint_variables_try.
      rewrite (bind_call_raises _ _ _ _ _ E). cbn [result events final].
      exec. rewrite filter_none; reflexivity.
Qed.

Lemma variables_all_checked bp s ed w :
  is_none bp = false ->
  respond (world s) (get_editor_subsystem (VType "BlueprintEditorSubsystem"))
    = (Returns ed, w) ->
  calls (filter is_variable_check (events (Creator.add_blueprint_variables bp s)))
  = map (variable_check bp) Creator.variables.
Proof.
  intros Hbp E.
  destruct (variables_run bp s ed w Hbp E) as (tail & -> & Htail).
  destruct (variables_loop ed bp Creator.variables variable_names_differ (after s w))
    as (_ & Hc & _).
  set (loop := events (for_ Creator.variables (add_one_variable ed bp) (after s w))) in *.
  clearbody loop.
  cbn [filter is_variable_check]. rewrite filter_app, calls_app, Hc.
  destruct Htail as [(e & _ & _ & _ & -> & _)
                    |[(v & e & _ & _ & _ & -> & _)|(v & v' & -> & _)]];
    unfold variables_error, variables_done;
    cbn [filter is_variable_check calls flat_map app];
    rewrite app_nil_r; reflexivity.
Qed.

Lemma variables_failures_forgiven bp s ed w :
  is_none bp = false ->
  respond (world s) (get_editor_subsystem (VType "BlueprintEditorSubsystem"))
    = (Returns ed, w) ->
  (forall w1, exists v w2, respond w1 (compile_blueprint ed bp) = (Returns v, w2)) ->
  (forall w1, exists v w2,
      respond w1 (save_asset Creator.SPACESHIP_FULL_PATH) = (Returns v, w2)) ->
  result (Creator.add_blueprint_variables bp s) = Val true
  /\ In variables_done (events (Creator.add_blueprint_variables bp s)).
Proof.
  intros Hbp E Hc Hs.
  destruct (variables_run bp s ed w Hbp E) as (tail & -> & Htail).
  destruct Htail as [(e & w1 & w2 & Ec & _)
                    |[(v & e & w1 & w2 & Es & _)|(v & v' & -> & Hr)]].
  - destruct (Hc w1) as (v & w3 & Ec'). congruence.
  - destruct (Hs w1) as (v1 & w3 & Es'). congruence.
  - split; [exact Hr|]. right. right. apply in_or_app. right. cbn. auto.
Qed.

End Variables.

(** X1. Once the blueprint editor subsystem is there,
    [add_blueprint_variables] asks for each of the seventeen variables of
    its table whether the blueprint has it, once and in the order of the
    table, whatever the host answers or raises on the way: a variable that
    fails does not stop the loop. *)
Theorem X1_every_variable_checked_once :
  forall (H : Host) (bp : Value) (s : PyState) (ed : Value) (w : World),
    is_none bp = false ->
    respond (world s) (get_editor_subsystem (VType "BlueprintEditorSubsystem"))
      = (Returns ed, w) ->
    calls (filter is_variable_check (events (Creator.add_blueprint_variables bp s)))
    = map (fun var => does_member_variable_exist bp (Creator.var_name var))
          Creator.variables
    /\ List.length Creator.variables = 17.
Proof.
  intros H bp s ed w Hbp E. split; [|reflexivity].
  now apply (variables_all_checked bp s ed w).
Qed.

(** On an editor where every question about a variable raises, all
    seventeen are asked all the same. *)
Lemma X1_witness_checks_raise :
  calls (filter is_variable_check
           (events (@Creator.add_blueprint_variables (editor variable_checks_raise) (VObj 8)
                      (start variable_checks_raise fresh_editor))))
  = map (fun var => does_member_variable_exist (VObj 8) (Creator.var_name var))
        Creator.variables
  /\ List.length Creator.variables = 17.
Proof.
  apply (X1_every_variable_checked_once (editor variable_checks_raise) (VObj 8)
           (start variable_checks_raise fresh_editor) (VObj 2) fresh_editor);
    reflexivity.
Defined.

(** X2. In every run of [add_blueprint_variables] the variables it asks
    the editor to add are exactly the rows of its table for which the
    existence check answered that the variable is absent, in the order of
    the table, each once, on the blueprint given and with the pin type and
    the default value of the row.  A variable that exists, or whose check
    raised, is not added. *)
Theorem X2_variables_added_only_when_absent :
  forall (H : Host) (bp : Value) (s : PyState),
    added_variables (events (Creator.add_blueprint_variables bp s))
    = map (fun var => (bp, Creator.var_name var, Creator.var_type var,
                       Creator.var_default var))
          (filter (fun var =>
                     answered_absent (events (Creator.add_blueprint_variables bp s))
                                     (Creator.var_name var))
                  Creator.variables).
Proof. intros H bp s. apply variables_added_when_absent. Qed.

(** X3. A variable that cannot be checked or added never makes
    [add_blueprint_variables] fail: on a blueprint, when the editor
    subsystem is there and compiling and saving return, the function
    returns [True] and logs its success, whatever happened to the
    variables. *)
Theorem X3_variable_failures_do_not_fail_the_function :
  forall (H : Host) (bp : Value) (s : PyState) (ed : Value) (w : World),
    is_none bp = false ->
    respond (world s) (get_editor_subsystem (VType "BlueprintEditorSubsystem"))
      = (Returns ed, w) ->
    (forall w1, exists v w2, respond w1 (compile_blueprint ed bp) = (Returns v, w2)) ->
    (forall w1, exists v w2,
        respond w1 (save_asset Creator.SPACESHIP_FULL_PATH) = (Returns v, w2)) ->
    result (Creator.add_blueprint_variables bp s) = Val true
    /\ In variables_done (events (Creator.add_blueprint_variables bp s)).
Proof. intros H bp s ed w. apply variables_failures_forgiven. Qed.

(** On an editor where every question about a variable raises, no
    variable is added and the function returns [True]. *)
Lemma X3_witness_checks_raise :
  added_variables
    (events (@Creator.add_blueprint_variables (editor variable_checks_raise) (VObj 8)
               (start variable_checks_raise fresh_editor))) = []
  /\ result (@Creator.add_blueprint_variables (editor variable_checks_raise) (VObj 8)
               (start variable_checks_raise fresh_editor)) = Val true.
Proof.
  split; [vm_compute; reflexivity|].
  apply (X3_variable_failures_do_not_fail_the_function
           (editor variable_checks_raise) (VObj 8)
           (start variable_checks_raise fresh_editor) (VObj 2) fresh_editor);
    try reflexivity; intros w1; exists VNone, w1; reflexivity.
Defined.

(** * The test instance in the level *)

Section TestInstance.
Context {H : Host}.

Lemma destroy_loop_facts actors : forall s,
  List.length (filter is_destroy (events (Creator.destroy_test_instance actors s))) <= 1
  /\ List.length (filter found_test_instance
                    (events (Creator.destroy_test_instance actors s))) <= 1
  /\ (forall a r,
        In (ECall (destroy_actor a) r) (events (Creator.destroy_test_instance actors s)) ->
        In a actors
        /\ exists label,
             In (ECall (get_actor_label a) (Returns label))
                (events (Creator.destroy_test_instance actors s))
             /\ eq_str label "TestSpaceship" = true).
Proof.
  induction actors as [|actor actors IH]; intros s; cbn [Creator.destroy_test_instance].
  - cbn. repeat split; try lia.
  - exec.
    + cbn [filter is_destroy found_test_instance List.length]. rewrite Heqb.
      cbn [List.length]. split; [lia|]. split; [lia|].
      intros a r [Hin|[Hin|[Hin|[]]]]; try discriminate Hin.
      injection Hin as <- <-. split; [now left|].
      exists v. split; [now left | exact Heqb].
    + cbn [filter is_destroy found_test_instance List.length]. rewrite Heqb.
      cbn [List.length]. split; [lia|]. split; [lia|].
      intros a r [Hin|[Hin|[Hin|[]]]]; try discriminate Hin.
      injection Hin as <- <-. split; [now left|].
      exists v. split; [now left | exact Heqb].
    + destruct (IH (after s w)) as (D1 & D2 & D3).
      cbn [filter is_destroy found_test_instance]. rewrite Heqb.
      split; [exact D1|]. split; [exact D2|].
      intros a r [Hin|Hin]; [discriminate Hin|].
      destruct (D3 a r Hin) as (Ha & label & Hl & Hs).
      split; [now right|]. exists label. split; [now right | exact Hs].
    + cbn [filter is_destroy found_test_instance List.length].
      split; [lia|]. split; [lia|]. intros a r [Hin|[]]. discriminate Hin.
Qed.

(** A run of [spawn_test_instance] is the loop that looks for an old test
    instance, if the run gets there, between events that neither ask for
    a label nor destroy an actor. *)
Lemma spawn_events s :
  exists pre loop post,
    events (Creator.spawn_test_instance s) = pre ++ loop ++ post
    /\ quiet_about_actors pre /\ quiet_about_actors post
    /\ (loop = []
        \/ exists actors s1, loop = events (Creator.destroy_test_instance actors s1)).
Proof.
  unfold Creator.spawn_test_instance, enter. rewrite bind_emit. cbn [events].
  unfold try_except, Creator.spawn_test_instance_try.
  destruct (call_cases (load_blueprint_class Creator.SPACESHIP_FULL_PATH) s)
    as [(cls & w & E)|(e & w & E)].
  2:{ rewrite (bind_call_raises _ _ _ _ _ E). exec.
      eexists _, [], []. rewrite !app_nil_r.
      split; [reflexivity|]. repeat split; auto. }
  rewrite (bind_call_returns _ _ _ _ _ E).
  destruct (is_none cls) eqn:Hcls.
  { exec. eexists _, [], []. rewrite !app_nil_r.
    split; [reflexivity|]. repeat split; auto. }
  destruct (call_cases get_all_level_actors (after s w)) as [(v & w1 & E1)|(e & w1 & E1)].
  2:{ rewrite (bind_call_raises _ _ _ _ _ E1). exec.
      eexists _, [], []. rewrite !app_nil_r.
      split; [reflexivity|]. repeat split; auto. }
  rewrite (bind_call_returns _ _ _ _ _ E1).
  assert (Hv : (exists l, v = VList l) \/ py_iter v = raise "TypeError: object is not iterable").
  { destruct v; first [left; eexists; reflexivity | right; reflexivity]. }
  destruct Hv as [(l & ->)|Hv].
  2:{ rewrite Hv, bind_raise. exec.
      eexists _, [], []. rewrite !app_nil_r.
      split; [reflexivity|]. repeat split; auto. }
  cbn [py_iter]. rewrite bind_ret. rewrite run_bind.
  set (s1 := after (after s w) w1).
  set (loop := events (Creator.destroy_test_instance l s1)).
  assert (Hloop : exists actors s1, loop = events (Creator.destroy_test_instance actors s1))
    by (exists l, s1; reflexivity).
  destruct (result (Creator.destroy_test_instance l s1)).
  - set (s2 := final (Creator.destroy_test_instance l s1)).
    clearbody loop s2. cbn [result final events]. exec.
    all: rewrite <- ?app_assoc;
      match goal with
      | |- context [?e0 :: ?e1 :: ?e2 :: ?lp ++ ?tail] =>
          exists [e0; e1; e2], lp, tail
      end; (split; [reflexivity|]); repeat split; auto.
  - clearbody loop. cbn [result final events]. exec.
    eexists [_; _; _], loop, _. split; [cbn [app]; rewrite <- ?app_assoc; reflexivity|].
    repeat split; auto.
Qed.

Lemma quiet_not_in (P : Event -> bool) (l : list Event) x :
  filter P l = [] -> In x l -> P x = true -> False.
Proof.
  intros Hf Hin Hp. assert (Hx : In x (filter P l)) by (apply filter_In; auto).
  rewrite Hf in Hx. destruct Hx.
Qed.

Lemma spawn_removes_one s :
  List.length (filter is_destroy (events (Creator.spawn_test_instance s))) <= 1
  /\ List.length (filter found_test_instance (events (Creator.spawn_test_instance s))) <= 1
  /\ (forall a r,
        In (ECall (destroy_actor a) r) (events (Creator.spawn_test_instance s)) ->
        exists label,
          In (ECall (get_actor_label a) (Returns label))
             (events (Creator.spawn_test_instance s))
          /\ eq_str label "TestSpaceship" = true).
Proof.
  destruct (spawn_events s) as (pre & loop & post & -> & (Pd & Pf) & (Qd & Qf) & Hloop).
  rewrite !filter_app, Pd, Pf, Qd, Qf, !app_nil_r. cbn [app].
  destruct Hloop as [->|(actors & s1 & ->)].
  - cbn [filter List.length app]. split; [lia|]. split; [lia|].
    intros a r Hin. exfalso. apply in_app_or in Hin. destruct Hin as [Hin|Hin].
    + exact (quiet_not_in _ _ _ Pd Hin eq_refl).
    + exact (quiet_not_in _ _ _ Qd Hin eq_refl).
  - destruct (destroy_loop_facts actors s1) as (D1 & D2 & D3).
    split; [exact D1|]. split; [exact D2|].
    intros a r Hin. apply in_app_or in Hin. destruct Hin as [Hin|Hin].
    { exfalso. exact (quiet_not_in _ _ _ Pd Hin eq_refl). }
    apply in_app_or in Hin. destruct Hin as [Hin|Hin].
    2:{ exfalso. exact (quiet_not_in _ _ _ Qd Hin eq_refl). }
    destruct (D3 a r Hin) as (_ & label & Hl & Hs).
    exists label. split; [|exact Hs].
    apply in_or_app. right. apply in_or_app. now left.
Qed.

Lemma am_destroy_loop (P : Event -> bool) actors :
  (forall a r, P (ECall (get_actor_label a) r) = false) ->
  (forall a r, P (ECall (destroy_actor a) r) = false) ->
  (forall p m, P (ELog p m) = false) ->
  at_most 0 P (Creator.destroy_test_instance actors).
Proof.
  intros El Ed Eg. induction actors as [|a actors IH]; cbn [Creator.destroy_test_instance].
  - apply am_ret.
  - apply (am_bind _ _ _ 0 0); [apply am_call0; intro; apply El|].
    intros label. destruct (eq_str label "TestSpaceship"); [|exact IH].
    apply (am_bind _ _ _ 0 0); [apply am_emit0, Eg|]. intros _.
    apply (am_bind _ _ _ 0 0); [apply am_call0; intro; apply Ed|]. intros _.
    apply am_ret.
Qed.

Lemma spawn_success s :
  result (Creator.spawn_test_instance s) = Val true ->
  exists cls actor labelled,
    is_none cls = false /\ is_none actor = false
    /\ In (ECall (load_blueprint_class Creator.SPACESHIP_FULL_PATH) (Returns cls))
          (events (Creator.spawn_test_instance s))
    /\ filter is_spawn (events (Creator.spawn_test_instance s))
       = [ECall (spawn_actor_from_class cls spawn_transform) (Returns actor)]
    /\ ends_with [ECall (spawn_actor_from_class cls spawn_transform) (Returns actor);
                  ECall (set_actor_label actor "TestSpaceship") (Returns labelled);
                  ELog "[SPACESHIP CREATOR] " "Successfully spawned test spaceship"]
                 (events (Creator.spawn_test_instance s)).
Proof.
  intros Hres. unfold Creator.spawn_test_instance in *.
  apply returns_true_runs in Hres; [|intros; apply log_false_gives_false].
  destruct Hres as (t & s' & R & -> & _).
  unfold Creator.spawn_test_instance_try in R. expose.
  inv_spine R.
  match goal with
  | R : runs (Creator.destroy_test_instance _) _ _ _ _ |- _ =>
      pose proof (runs_quiet is_spawn _ _ _ _ _
                    (am_destroy_loop _ _ (fun _ _ => eq_refl) (fun _ _ => eq_refl)
                       (fun _ _ => eq_refl)) R) as Hq;
      clear R
  end.
  match goal with
  | E1 : respond _ (load_blueprint_class _) = (Returns ?cls, _),
    E2 : respond _ (spawn_actor_from_class _ _) = (Returns ?actor, _),
    E3 : respond _ (set_actor_label _ _) = (Returns ?r, _),
    H1 : is_none ?cls = false, H2 : is_none ?actor = false |- _ =>
      exists cls, actor, r; split; [exact H1|]; split; [exact H2|]
  end.
  split; [right; left; reflexivity|]. split.
  - unfold spawn_transform.
    repeat (progress (rewrite ?filter_app; cbn [filter is_spawn app])).
    rewrite Hq. reflexivity.
  - unfold spawn_transform. find_suffix.
Qed.

End TestInstance.

(** X4. In every run [spawn_test_instance] destroys at most one actor of
    the level, and only one the host reported under the label
    TestSpaceship; it stops looking at the first actor so labelled, so of
    several old test instances only the first is removed. *)
Theorem X4_at_most_one_old_instance_removed :
  forall (H : Host) (s : PyState),
    List.length (filter is_destroy (events (Creator.spawn_test_instance s))) <= 1
    /\ List.length (filter found_test_instance (events (Creator.spawn_test_instance s))) <= 1
    /\ (forall a r,
          In (ECall (destroy_actor a) r) (events (Creator.spawn_test_instance s)) ->
          exists label,
            In (ECall (get_actor_label a) (Returns label))
               (events (Creator.spawn_test_instance s))
            /\ eq_str label "TestSpaceship" = true).
Proof. intros H s. apply spawn_removes_one. Qed.

(** X5. On a run of [spawn_test_instance] that returns [True], the class
    of the spaceship blueprint was loaded and is not [None]; one actor was
    spawned from it, 200 units above the origin, not rotated and at scale
    one; the host gave an actor, which was then labelled TestSpaceship; and
    the run ends with the line that reports the spawn. *)
Theorem X5_spawned_once_and_labelled :
  forall (H : Host) (s : PyState),
    result (Creator.spawn_test_instance s) = Val true ->
    exists cls actor labelled,
      is_none cls = false /\ is_none actor = false
      /\ In (ECall (load_blueprint_class Creator.SPACESHIP_FULL_PATH) (Returns cls))
            (events (Creator.spawn_test_instance s))
      /\ filter is_spawn (events (Creator.spawn_test_instance s))
         = [ECall (spawn_actor_from_class cls spawn_transform) (Returns actor)]
      /\ ends_with [ECall (spawn_actor_from_class cls spawn_transform) (Returns actor);
                    ECall (set_actor_label actor "TestSpaceship") (Returns labelled);
                    ELog "[SPACESHIP CREATOR] " "Successfully spawned test spaceship"]
                   (events (Creator.spawn_test_instance s)).
Proof. intros H s. apply spawn_success. Qed.

(** On the small editor the spawn succeeds. *)
Lemma X5_witness_small_editor :
  exists cls actor labelled,
    is_none cls = false /\ is_none actor = false
    /\ In (ECall (load_blueprint_class Creator.SPACESHIP_FULL_PATH) (Returns cls))
          (events (@Creator.spawn_test_instance (editor no_fault)
                     (start no_fault fresh_editor)))
    /\ filter is_spawn (events (@Creator.spawn_test_instance (editor no_fault)
                                  (start no_fault fresh_editor)))
       = [ECall (spawn_actor_from_class cls spawn_transform) (Returns actor)]
    /\ ends_with [ECall (spawn_actor_from_class cls spawn_transform) (Returns actor);
                  ECall (set_actor_label actor "TestSpaceship") (Returns labelled);
                  ELog "[SPACESHIP CREATOR] " "Successfully spawned test spaceship"]
                 (events (@Creator.spawn_test_instance (editor no_fault)
                            (start no_fault fresh_editor))).
Proof.
  apply (X5_spawned_once_and_labelled (editor no_fault) (start no_fault fresh_editor)).
  vm_compute. reflexivity.
Defined.

(** * The interpreter's search path *)

Section SearchPath.
Context {H : Host}.

Lemma kp_ret {A} (a : A) : keeps_sys_path (ret a).
Proof. intros s. reflexivity. Qed.

Lemma kp_raise {A} e : keeps_sys_path (@raise _ A e).
Proof. intros s. reflexivity. Qed.

Lemma kp_emit e : keeps_sys_path (emit e).
Proof. intros s. reflexivity. Qed.

Lemma kp_call c : keeps_sys_path (call c).
Proof. intros s. unfold call. destruct (respond (world s) c). reflexivity. Qed.

Lemma kp_get_sys_path : keeps_sys_path get_sys_path.
Proof. intros s. reflexivity. Qed.

Lemma kp_bind {A B} (m : M A) (f : A -> M B) :
  keeps_sys_path m -> (forall a, keeps_sys_path (f a)) -> keeps_sys_path (bind m f).
Proof.
  intros Hm Hf s. rewrite run_bind. destruct (result (m s)) as [a|e]; cbn [final].
  - rewrite Hf. apply Hm.
  - apply Hm.
Qed.

Lemma kp_try {A} (body : M A) (handler : Exn -> M A) :
  keeps_sys_path body -> (forall e, keeps_sys_path (handler e)) ->
  keeps_sys_path (try_except body handler).
Proof.
  intros Hb Hh s. unfold try_except. destruct (result (body s)) as [a|e]; cbn [final].
  - apply Hb.
  - rewrite Hh. apply Hb.
Qed.

Lemma kp_if {A} (c : bool) (m1 m2 : M A) :
  keeps_sys_path m1 -> keeps_sys_path m2 -> keeps_sys_path (if c then m1 else m2).
Proof. now destruct c. Qed.

Lemma kp_for {A} (l : list A) (body : A -> M unit) :
  (forall x, keeps_sys_path (body x)) -> keeps_sys_path (for_ l body).
Proof.
  intros Hb. induction l as [|x l IH]; cbn [for_].
  - apply kp_ret.
  - apply kp_bind; [apply Hb | intros _; exact IH].
Qed.

Lemma kp_py_iter v : keeps_sys_path (py_iter v).
Proof. destruct v; first [apply kp_ret | apply kp_raise]. Qed.

Lemma kp_get_action_name v : keeps_sys_path (get_action_name v).
Proof. destruct v; first [apply kp_ret | apply kp_raise]. Qed.

Lemma kp_get_axis_name v : keeps_sys_path (get_axis_name v).
Proof. destruct v; first [apply kp_ret | apply kp_raise]. Qed.

Lemma kp_find_by_name name comps : keeps_sys_path (find_by_name name comps).
Proof.
  induction comps as [|c comps IH]; cbn [find_by_name].
  - apply kp_ret.
  - apply kp_bind; [apply kp_call|]. intros n.
    destruct (eq_str n name); [apply kp_ret | exact IH].
Qed.

Lemma kp_destroy_test_instance actors :
  keeps_sys_path (Creator.destroy_test_instance actors).
Proof.
  induction actors as [|a actors IH]; cbn [Creator.destroy_test_instance].
  - apply kp_ret.
  - apply kp_bind; [apply kp_call|]. intros label.
    destruct (eq_str label "TestSpaceship"); [|exact IH].
    repeat first [apply kp_bind; [|intro] | apply kp_emit | apply kp_call | apply kp_ret].
Qed.

End SearchPath.

(** [m] keeps [sys.path], along the structure of [m]. *)
Ltac frame :=
  lazymatch goal with
  | |- keeps_sys_path (bind _ _) => apply kp_bind; [frame | intro; frame]
  | |- keeps_sys_path (try_except _ _) => apply kp_try; [frame | intro; frame]
  | |- keeps_sys_path (if _ then _ else _) => apply kp_if; frame
  | |- keeps_sys_path (ret _) => apply kp_ret
  | |- keeps_sys_path (raise _) => apply kp_raise
  | |- keeps_sys_path (emit _) => apply kp_emit
  | |- keeps_sys_path (call _) => apply kp_call
  | |- keeps_sys_path (for_ _ _) => apply kp_for; intro; frame
  | |- keeps_sys_path (py_iter _) => apply kp_py_iter
  | |- keeps_sys_path (get_action_name _) => apply kp_get_action_name
  | |- keeps_sys_path (get_axis_name _) => apply kp_get_axis_name
  | |- keeps_sys_path get_sys_path => apply kp_get_sys_path
  | |- keeps_sys_path (find_by_name _ _) => apply kp_find_by_name
  | |- keeps_sys_path (Creator.destroy_test_instance _) => apply kp_destroy_test_instance
  | |- keeps_sys_path ?m => let h := head_of m in unfold h; frame
  end.

Section ScriptsKeepPath.
Context {H : Host}.

Lemma creator_main_keeps_path : keeps_sys_path Creator.main.
Proof. frame. Qed.

Lemma input_main_keeps_path : keeps_sys_path InputSetup.main.
Proof. frame. Qed.

Lemma weapon_main_keeps_path : keeps_sys_path Weapon.main.
Proof. frame. Qed.

Lemma script_keeps_path path name :
  match Complete.script_at path with
  | Some script =>
      keeps_sys_path (Complete.script_body script name)
      /\ match Complete.script_main script with
         | Some main => keeps_sys_path main
         | None => True
         end
  | None => True
  end.
Proof.
  destruct (script_at_cases path) as [E|[E|[E|E]]]; rewrite E;
    cbn [Complete.script_body Complete.script_main]; [| | |exact I];
    (split; [unfold Creator.module_body, InputSetup.module_body, Weapon.module_body;
             rewrite orb_true_r|]).
  - apply creator_main_keeps_path.
  - apply creator_main_keeps_path.
  - apply input_main_keeps_path.
  - apply input_main_keeps_path.
  - apply weapon_main_keeps_path.
  - apply weapon_main_keeps_path.
Qed.

Lemma path_with_script_dir_twice path :
  path_with_script_dir (path_with_script_dir path) = path_with_script_dir path.
Proof.
  unfold path_with_script_dir at 2 3.
  destruct (existsb (String.eqb SCRIPT_DIR) path) eqn:E.
  - unfold path_with_script_dir. now rewrite E.
  - unfold path_with_script_dir.
    rewrite existsb_app. cbn [existsb]. now rewrite String.eqb_refl, orb_true_r.
Qed.

Lemma final_try_keeps {A} (body : M A) (handler : Exn -> M A) s :
  (forall e, keeps_sys_path (handler e)) ->
  sys_path (final (try_except body handler s)) = sys_path (final (body s)).
Proof.
  intros Hh. unfold try_except. destruct (result (body s)); cbn [final]; [reflexivity|].
  apply Hh.
Qed.

Lemma final_bind_keeps {A B} (m : M A) (f : A -> M B) s :
  (forall a, keeps_sys_path (f a)) ->
  sys_path (final (bind m f s)) = sys_path (final (m s)).
Proof.
  intros Hf. rewrite run_bind. destruct (result (m s)); cbn [final]; [|reflexivity].
  apply Hf.
Qed.

Lemma bind_get_sys_path {B} (f : list string -> M B) s :
  bind get_sys_path f s = f (sys_path s) s.
Proof. apply run_ext; reflexivity. Qed.

Lemma import_settles_path name file :
  settles_sys_path (Complete.import_and_run_module name file).
Proof.
  intros s. unfold Complete.import_and_run_module, enter. rewrite bind_emit. cbn [final].
  rewrite final_try_keeps by (intro; frame).
  unfold Complete.import_and_run_module_try. rewrite bind_get_sys_path.
  rewrite final_bind_keeps.
  - unfold path_with_script_dir.
    destruct (existsb (String.eqb SCRIPT_DIR) (sys_path s)); reflexivity.
  - intros _. unfold Complete.exec_module, Complete.module_main.
    pose proof (script_keeps_path file name) as Hs.
    destruct (Complete.script_at file) as [script|].
    + destruct Hs as (Hb & Hm).
      destruct (Complete.script_main script) as [main|];
        repeat first [ apply kp_bind; [|intro] | apply kp_if | apply kp_emit | apply kp_call
                     | apply kp_ret | exact Hb | exact Hm | unfold Complete.log ].
    + repeat first [ apply kp_bind; [|intro] | apply kp_if | apply kp_emit | apply kp_call
                   | apply kp_ret | apply kp_raise | unfold Complete.log ].
Qed.

Lemma settles_then_keeps {A B} (m : M A) (f : A -> M B) :
  settles_sys_path m -> (forall a, keeps_sys_path (f a)) -> settles_sys_path (bind m f).
Proof. intros Hm Hf s. rewrite final_bind_keeps by exact Hf. apply Hm. Qed.

Lemma keeps_then_settles {A B} (m : M A) (f : A -> M B) :
  total m -> keeps_sys_path m -> (forall a, settles_sys_path (f a)) ->
  settles_sys_path (bind m f).
Proof.
  intros Ht Hm Hf s. destruct (Ht s) as [a Ha].
  destruct (bind_val m f s a Ha) as (_ & -> & _). rewrite Hf, Hm. reflexivity.
Qed.

Lemma settles_twice {A B} (m : M A) (f : A -> M B) :
  total m -> settles_sys_path m -> (forall a, settles_sys_path (f a)) ->
  settles_sys_path (bind m f).
Proof.
  intros Ht Hm Hf s. destruct (Ht s) as [a Ha].
  destruct (bind_val m f s a Ha) as (_ & -> & _).
  rewrite Hf, Hm. apply path_with_script_dir_twice.
Qed.

Lemma complete_main_settles_path : settles_sys_path Complete.main.
Proof.
  unfold Complete.main, Complete.scripts. cbn [for_ fst snd].
  assert (Hturn : forall name file,
             total (Complete.log (txt ("Running script: " ++ name)%string) ;;
                    success <- Complete.import_and_run_module name file ;;
                    if negb success
                    then Complete.log (txt ("⚠️ Failed to run script: " ++ name)%string)
                    else ret tt)
             /\ settles_sys_path
                  (Complete.log (txt ("Running script: " ++ name)%string) ;;
                   success <- Complete.import_and_run_module name file ;;
                   if negb success
                   then Complete.log (txt ("⚠️ Failed to run script: " ++ name)%string)
                   else ret tt)).
  { intros name file. split.
    - apply total_bind; [apply total_emit|]. intros _.
      apply total_bind; [apply total_import_and_run_module|]. intros ok. apply total_warn.
    - apply keeps_then_settles; [apply total_emit | apply kp_emit |]. intros _.
      apply settles_then_keeps; [apply import_settles_path|].
      intros ok. destruct ok; [apply kp_ret | apply kp_emit]. }
  apply keeps_then_settles; [apply total_emit | apply kp_emit |]. intros _.
  apply keeps_then_settles; [apply total_emit | apply kp_emit |]. intros _.
  apply settles_then_keeps; [|intros _; frame].
  apply settles_twice; [apply Hturn | apply Hturn |]. intros _.
  apply settles_twice; [apply Hturn | apply Hturn |]. intros _.
  apply settles_then_keeps; [apply Hturn | intros _; apply kp_ret].
Qed.

Lemma path_with_script_dir_has_it path : In SCRIPT_DIR (path_with_script_dir path).
Proof.
  unfold path_with_script_dir.
  destruct (existsb (String.eqb SCRIPT_DIR) path) eqn:E.
  - apply existsb_exists in E. destruct E as (d & Hd & E).
    apply String.eqb_eq in E. now subst d.
  - apply in_or_app. right. now left.
Qed.

Lemma path_with_script_dir_same path :
  In SCRIPT_DIR path -> path_with_script_dir path = path.
Proof.
  intros Hin. unfold path_with_script_dir.
  assert (E : existsb (String.eqb SCRIPT_DIR) path = true).
  { apply existsb_exists. exists SCRIPT_DIR. split; [exact Hin | apply String.eqb_refl]. }
  now rewrite E.
Qed.

Lemma no_spec_or_module name file s spec w :
  respond (world s) (spec_from_file_location name file) = (Returns spec, w) ->
  truthy spec = false
  \/ (exists module w', respond w (module_from_spec spec) = (Returns module, w')
                        /\ truthy module = false) ->
  result (Complete.import_and_run_module name file s) = Val false
  /\ filter is_entry (events (Complete.import_and_run_module name file s))
     = [EEnter "internal_complete_setup.import_and_run_module" [VStr name; VStr file]]
  /\ filter is_loader_call (events (Complete.import_and_run_module name file s)) = [].
Proof.
  intros E Hcase.
  unfold Complete.import_and_run_module, enter. rewrite bind_emit. cbn [result events].
  unfold try_except, Complete.import_and_run_module_try.
  rewrite bind_get_sys_path.
  assert (Hstep : exists s1, world s1 = world s
            /\ forall B (f : unit -> M B),
                 bind (if negb (existsb (String.eqb SCRIPT_DIR) (sys_path s))
                       then sys_path_append SCRIPT_DIR else ret tt) f s = f tt s1).
  { destruct (existsb (String.eqb SCRIPT_DIR) (sys_path s)); cbn [negb].
    - exists s. split; [reflexivity|]. intros B f. apply bind_ret.
    - eexists {| world := world s; sys_path := sys_path s ++ [SCRIPT_DIR] |}.
      split; [reflexivity|]. intros B f. apply run_ext; reflexivity. }
  destruct Hstep as (s1 & Hw & ->). unfold Complete.log. rewrite bind_emit.
  assert (E1 : respond (world s1) (spec_from_file_location name file) = (Returns spec, w))
    by (rewrite Hw; exact E).
  rewrite (bind_call_returns _ _ _ _ _ E1). cbn [result final events].
  destruct Hcase as [Hs|(module & w' & Em & Hm)].
  - rewrite Hs. cbn [negb]. rewrite bind_emit. cbn. auto.
  - destruct (truthy spec); cbn [negb].
    + assert (Em' : respond (world (after s1 w)) (module_from_spec spec)
                    = (Returns module, w')) by exact Em.
      rewrite (bind_call_returns _ _ _ _ _ Em'). cbn [result final events].
      rewrite Hm. cbn [negb]. rewrite bind_emit. cbn. auto.
    + rewrite bind_emit. cbn. auto.
Qed.

End ScriptsKeepPath.

(** X6. [import_and_run_module] leaves [sys.path] with [SCRIPT_DIR] on
    it and otherwise as it found it: the directory is appended when it
    was absent and nothing is added when it was there, however the import
    ends.  So a run of the complete setup, which imports three scripts,
    appends the directory at most once; and the three scripts themselves
    never touch [sys.path]. *)
Theorem X6_script_dir_put_on_sys_path_once :
  forall H : Host,
    (forall name file s,
        sys_path (final (Complete.import_and_run_module name file s))
        = path_with_script_dir (sys_path s))
    /\ (forall s, sys_path (final (Complete.main s)) = path_with_script_dir (sys_path s))
    /\ (forall path, In SCRIPT_DIR (path_with_script_dir path))
    /\ (forall path, In SCRIPT_DIR path -> path_with_script_dir path = path)
    /\ (forall path, ~ In SCRIPT_DIR path ->
                     path_with_script_dir path = path ++ [SCRIPT_DIR])
    /\ keeps_sys_path Creator.main
    /\ keeps_sys_path InputSetup.main
    /\ keeps_sys_path Weapon.main.
Proof.
  intros H. split; [intros name file; apply import_settles_path|].
  split; [apply complete_main_settles_path|].
  split; [apply path_with_script_dir_has_it|].
  split; [apply path_with_script_dir_same|].
  split.
  - intros path Hn. unfold path_with_script_dir.
    destruct (existsb (String.eqb SCRIPT_DIR) path) eqn:E; [|reflexivity].
    exfalso. apply Hn. apply existsb_exists in E. destruct E as (d & Hd & E).
    apply String.eqb_eq in E. now subst d.
  - split; [apply creator_main_keeps_path|].
    split; [apply input_main_keeps_path | apply weapon_main_keeps_path].
Qed.

(** X7. When the import machinery gives no spec for the file, or a spec
    but no module, [import_and_run_module] returns [False] without
    loading the file: the loader is never called and no function of the
    script is entered. *)
Theorem X7_no_spec_no_module_nothing_runs :
  forall (H : Host) (name file : string) (s : PyState) (spec : Value) (w : World),
    respond (world s) (spec_from_file_location name file) = (Returns spec, w) ->
    truthy spec = false
    \/ (exists module w', respond w (module_from_spec spec) = (Returns module, w')
                          /\ truthy module = false) ->
    result (Complete.import_and_run_module name file s) = Val false
    /\ filter is_entry (events (Complete.import_and_run_module name file s))
       = [EEnter "internal_complete_setup.import_and_run_module" [VStr name; VStr file]]
    /\ filter is_loader_call (events (Complete.import_and_run_module name file s)) = [].
Proof. intros H name file s spec w. apply no_spec_or_module. Qed.

(** On an editor whose import machinery finds no spec, the spaceship
    script is not run. *)
Lemma X7_witness_no_spec :
  result (@Complete.import_and_run_module (editor no_module_spec)
            "internal_spaceship_creator"
            (Complete.path_join editor_dir "internal_spaceship_creator.py")
            (start no_module_spec fresh_editor)) = Val false
  /\ filter is_entry
       (events (@Complete.import_and_run_module (editor no_module_spec)
                  "internal_spaceship_creator"
                  (Complete.path_join editor_dir "internal_spaceship_creator.py")
                  (start no_module_spec fresh_editor)))
     = [EEnter "internal_complete_setup.import_and_run_module"
          [VStr "internal_spaceship_creator";
           VStr (Complete.path_join editor_dir "internal_spaceship_creator.py")]]
  /\ filter is_loader_call
       (events (@Complete.import_and_run_module (editor no_module_spec)
                  "internal_spaceship_creator"
                  (Complete.path_join editor_dir "internal_spaceship_creator.py")
                  (start no_module_spec fresh_editor))) = [].
Proof.
  apply (X7_no_spec_no_module_nothing_runs (editor no_module_spec)
           "internal_spaceship_creator"
           (Complete.path_join editor_dir "internal_spaceship_creator.py")
           (start no_module_spec fresh_editor) VNone fresh_editor).
  - reflexivity.
  - left. reflexivity.
Defined.

(** * Searching the components of a blueprint *)

Section Search.
Context {H : Host}.

Lemma search_result_filter name evs :
  search_result name evs = search_result name (filter is_get_name evs).
Proof.
  induction evs as [|e evs IH]; [reflexivity|].
  destruct e as [c r| |]; try exact IH.
  destruct c; try exact IH.
  cbn [filter is_get_name search_result]. destruct r; [|exact IH].
  now rewrite IH.
Qed.

Lemma asked_names_filter evs :
  asked_names evs = asked_names (filter is_get_name evs).
Proof.
  induction evs as [|e evs IH]; [reflexivity|].
  destruct e as [c r| |]; try exact IH.
  destruct c; try exact IH.
  cbn [filter is_get_name asked_names flat_map app]. f_equal. exact IH.
Qed.

(** What the search loop did: it asked the components for their names in
    order, stopped at the first one named as asked, and gave that one, or
    [None] after it had asked them all. *)
Lemma find_by_name_run name comps : forall s v t s',
  runs (find_by_name name comps) s (Val v) t s' ->
  filter is_get_name t = t
  /\ v = match search_result name t with Some comp => comp | None => VNone end
  /\ exists unasked,
       comps = asked_names t ++ unasked
       /\ match search_result name t with
          | Some comp => exists before, asked_names t = before ++ [comp]
          | None => unasked = []
          end.
Proof.
  induction comps as [|c comps IH]; intros s v t s' R; cbn [find_by_name] in R.
  - apply runs_ret_inv in R. destruct R as (Hr & -> & _). injection Hr as <-.
    split; [reflexivity|]. split; [reflexivity|]. now exists [].
  - apply runs_bind_inv in R. destruct R as (n & t1 & s1 & t2 & R1 & R2 & ->).
    apply runs_call_inv in R1. destruct R1 as (w & _ & -> & ->). cbv beta in R2.
    cbn [app filter is_get_name search_result].
    change (asked_names (ECall (get_name c) (Returns n) :: t2))
      with (c :: asked_names t2).
    destruct (eq_str n name) eqn:En.
    + apply runs_ret_inv in R2. destruct R2 as (Hr & -> & _). injection Hr as <-.
      split; [reflexivity|]. split; [reflexivity|].
      exists comps. split; [reflexivity|]. now exists [].
    + destruct (IH _ _ _ _ R2) as (Hf & Hv & unasked & Hc & Hs).
      split; [now rewrite Hf|]. split; [exact Hv|].
      exists unasked. split; [cbn [app]; now rewrite <- Hc|].
      destruct (search_result name t2) as [comp|]; [|exact Hs].
      destruct Hs as (before & Hb). exists (c :: before). cbn [app]. now rewrite Hb.
Qed.

End Search.

(** Membership in the events of a run that was read backwards. *)
Ltac in_run :=
  first [ left; reflexivity
        | right; in_run
        | apply in_or_app; first [ left; solve [in_run] | right; in_run ] ].


(** * The weapons *)

(** What a block that places a mount adds to a run. *)
(** No part of a run that was read backwards asks for a name, but the
    search loop. *)
Ltac no_names :=
  repeat match goal with
         | R : runs ?m _ _ ?t _ |- _ =>
             lazymatch m with
             | find_by_name _ _ => fail
             | _ =>
                 lazymatch goal with
                 | _ : filter is_get_name t = [] |- _ => fail
                 | _ =>
                     assert (filter is_get_name t = [])
                       by (refine (runs_quiet is_get_name _ _ _ _ _ _ R); bounded)
                 end
             end
         end.

Ltac mount_block R props :=
  lazymatch type of R with
  | runs (if negb (is_none ?v) then _ else _) _ _ ?t _ =>
      let F := fresh "F" in
      assert (F : filter is_add_component t = []
                  /\ calls (filter is_set_property t) = property_calls v props
                  /\ filter is_add_variable t = []);
      [ clear - R; unfold property_calls; inv_spine R; repeat apply conj; reflexivity
      | clear R; destruct F as (? & ? & ?) ]
  end.

Section Mounts.
Context {H : Host}.

(** What the search loop gives, when it gives a component, is one the
    host named as asked. *)
Lemma find_by_name_found name comps : forall s v t s',
  runs (find_by_name name comps) s (Val v) t s' ->
  is_none v = false ->
  exists n, In (ECall (get_name v) (Returns n)) t /\ eq_str n name = true.
Proof.
  induction comps as [|c comps IH]; intros s v t s' R Hv; cbn [find_by_name] in R.
  - apply runs_ret_inv in R. destruct R as (Hr & _ & _).
    injection Hr as ->. discriminate Hv.
  - apply runs_bind_inv in R. destruct R as (n & t1 & s1 & t2 & R1 & R2 & ->).
    apply runs_call_inv in R1. destruct R1 as (w & _ & -> & ->). cbv beta in R2.
    destruct (eq_str n name) eqn:En.
    + apply runs_ret_inv in R2. destruct R2 as (Hr & _ & _). injection Hr as ->.
      exists n. split; [now left | exact En].
    + destruct (IH _ _ _ _ R2 Hv) as (n' & Hin & Hn).
      exists n'. split; [now right | exact Hn].
Qed.

Lemma added_variables_filter evs :
  added_variables evs = added_variables (filter is_add_variable evs).
Proof.
  induction evs as [|e evs IH]; [reflexivity|].
  destruct e as [c r| |]; try exact IH.
  destruct c; try exact IH.
  cbn [filter is_add_variable added_variables flat_map app]. f_equal. exact IH.
Qed.

Lemma quiet_adds_no_variable evs :
  filter is_add_variable evs = [] -> added_variables evs = [].
Proof. intros E. now rewrite added_variables_filter, E. Qed.

(** The block that adds the weapon variables asks for them in order and
    stops at the first that raises. *)
Lemma weapon_variables_block ed bp s :
  exists k,
    added_variables
      (events
         (try_except
            (call (add_member_variable ed bp "LaserCooldown" Weapon.float_pin (VFloat 0.2)) ;;
             Weapon.log "Added LaserCooldown variable to spaceship" ;;
             call (add_member_variable ed bp "MissileCooldown" Weapon.float_pin
                     (VFloat 2.0)) ;;
             Weapon.log "Added MissileCooldown variable to spaceship" ;;
             call (add_member_variable ed bp "MaxMissiles" Weapon.int_pin (VInt 8)) ;;
             Weapon.log "Added MaxMissiles variable to spaceship" ;;
             call (add_member_variable ed bp "CurrentMissiles" Weapon.int_pin (VInt 8)) ;;
             Weapon.log "Added CurrentMissiles variable to spaceship" ;;
             call (add_member_variable ed bp "LaserProjectileClass"
                     (VPinType "class" VNone) VNone) ;;
             call (add_member_variable ed bp "MissileProjectileClass"
                     (VPinType "class" VNone) VNone) ;;
             Weapon.log "Added weapon class reference variables to spaceship")
            (fun var_error =>
               Weapon.log (txt ("Error adding weapon variables to spaceship: "
                                ++ var_error)%string)) s))
    = firstn k (map (variable_row bp) weapon_variables).
Proof.
  unfold try_except. exec;
    first [ exists 6; reflexivity | exists 5; reflexivity | exists 4; reflexivity
          | exists 3; reflexivity | exists 2; reflexivity | exists 1; reflexivity ].
Qed.

Lemma find_adds_no_variable name comps :
  at_most 0 is_add_variable (find_by_name name comps).
Proof. bounded. Qed.

Lemma weapon_mounts s :
  result (Weapon.add_weapon_components_to_spaceship s) = Val true ->
  exists bp ed mesh left right center k compiled saved,
    is_none bp = false
    /\ In (ECall (load_asset Weapon.SPACESHIP_FULL_PATH) (Returns bp))
          (events (Weapon.add_weapon_components_to_spaceship s))
    /\ In (ECall (get_editor_subsystem (VType "BlueprintEditorSubsystem")) (Returns ed))
          (events (Weapon.add_weapon_components_to_spaceship s))
    /\ search_result "ShipMesh" (events (Weapon.add_weapon_components_to_spaceship s))
       = Some mesh
    /\ is_none mesh = false
    /\ filter is_add_component (events (Weapon.add_weapon_components_to_spaceship s))
       = [ added ed bp "SceneComponent" "LeftWeaponMount" (Some mesh) left;
           added ed bp "SceneComponent" "RightWeaponMount" (Some mesh) right;
           added ed bp "SceneComponent" "CenterWeaponMount" (Some mesh) center ]
    /\ calls (filter is_set_property (events (Weapon.add_weapon_components_to_spaceship s)))
       = property_calls left left_mount_properties
         ++ property_calls right right_mount_properties
         ++ property_calls center center_mount_properties
    /\ added_variables (events (Weapon.add_weapon_components_to_spaceship s))
       = firstn k (map (variable_row bp) weapon_variables)
    /\ ends_with [ ECall (compile_blueprint ed bp) (Returns compiled);
                   ECall (save_asset Weapon.SPACESHIP_FULL_PATH) (Returns saved);
                   ELog "[WEAPON SYSTEM] "
                        "Successfully added weapon components to spaceship" ]
                 (events (Weapon.add_weapon_components_to_spaceship s)).
Proof.
  intros Hres. unfold Weapon.add_weapon_components_to_spaceship in *.
  apply returns_true_runs in Hres; [|intros; apply log_false_gives_false].
  destruct Hres as (t & s' & R & -> & _).
  unfold Weapon.add_weapon_components_to_spaceship_try in R. expose.
  inv_spine R.
  no_names.
  (* the search for the mesh *)
  match goal with
  | R : runs (find_by_name _ _) _ (Val ?mesh) _ _, Hm : is_none ?mesh = false |- _ =>
      pose proof (runs_quiet is_add_component _ _ _ _ _ (find_adds_nothing _ _) R) as Fa;
      pose proof (runs_quiet is_set_property _ _ _ _ _ (find_sets_nothing _ _) R) as Fs;
      pose proof (runs_quiet is_add_variable _ _ _ _ _ (find_adds_no_variable _ _) R) as Fq;
      destruct (find_by_name_run _ _ _ _ _ _ R) as (Fg & Hfound & _);
      clear R
  end.
  (* the three mounts *)
  repeat match goal with
         | R : runs (if negb (is_none _) then
                       bind (call (set_editor_property _ "RelativeLocation" ?loc)) _
                     else _) _ _ _ _ |- _ =>
             mount_block R [("RelativeLocation", loc)]
         end.
  (* the variables *)
  match goal with
  | R : runs (try_except _ _) ?s1 _ ?t _,
    E : respond _ (get_editor_subsystem _) = (Returns ?ed, _),
    E' : respond _ (load_asset _) = (Returns ?bp, _) |- _ =>
      assert (Fw : filter is_add_component t = [] /\ filter is_set_property t = []
                   /\ exists k, added_variables t
                                = firstn k (map (variable_row bp) weapon_variables));
      [ split; [|split];
        [ refine (runs_quiet is_add_component _ _ _ _ _ _ R); bounded
        | refine (runs_quiet is_set_property _ _ _ _ _ _ R); bounded
        | destruct (runs_inv _ _ _ _ _ R) as (_ & _ & <-);
          apply (weapon_variables_block ed bp s1) ]
      | clear R; destruct Fw as (Fwa & Fws & k & Fwv) ]
  end.
  match goal with
  | E0 : respond _ (load_asset _) = (Returns ?bp, _),
    E1 : respond _ (get_editor_subsystem _) = (Returns ?ed, _),
    E2 : respond _ (add_new_component_to_blueprint _ _ _ "LeftWeaponMount" (Some ?mesh))
         = (Returns ?left, _),
    E3 : respond _ (add_new_component_to_blueprint _ _ _ "RightWeaponMount" _)
         = (Returns ?right, _),
    E4 : respond _ (add_new_component_to_blueprint _ _ _ "CenterWeaponMount" _)
         = (Returns ?center, _),
    E5 : respond _ (compile_blueprint _ _) = (Returns ?compiled, _),
    E6 : respond _ (save_asset _) = (Returns ?saved, _),
    Hb : is_none ?bp = false,
    Hm : is_none ?mesh = false |- _ =>
      exists bp, ed, mesh, left, right, center, k, compiled, saved;
      split; [exact Hb|]; split; [in_run|]; split; [in_run|];
      split; [|split; [exact Hm|]]
  end.
  - rewrite search_result_filter.
    repeat (progress (rewrite ?filter_app; cbn [filter is_get_name app])).
    repeat match goal with
           | F : filter is_get_name _ = [] |- _ => rewrite F; clear F
           end.
    rewrite Fg. cbn [app]. rewrite ?app_nil_r.
    match goal with
    | Hm : is_none ?mesh = false |- search_result _ ?t = Some ?mesh =>
        destruct (search_result "ShipMesh" t) as [comp|];
        [ now rewrite Hfound | rewrite Hfound in Hm; discriminate Hm ]
    end.
  - split; [|split; [|split; [|find_suffix]]].
    + repeat (progress (rewrite ?filter_app; cbn [filter is_add_component app])).
      repeat match goal with
             | F : filter is_add_component _ = [] |- _ => rewrite F; clear F
             end.
      reflexivity.
    + repeat (progress (rewrite ?filter_app; cbn [filter is_set_property app])).
      rewrite ?calls_app.
      repeat match goal with
             | F : filter is_set_property _ = [] |- _ => rewrite F; clear F
             | F : calls (filter is_set_property _) = _ |- _ => rewrite F; clear F
             end.
      cbn [calls flat_map app]. rewrite ?app_nil_r. reflexivity.
    + rewrite added_variables_filter.
      repeat (progress (rewrite ?filter_app; cbn [filter is_add_variable app])).
      repeat match goal with
             | F : filter is_add_variable _ = [] |- _ => rewrite F; clear F
             end.
      cbn [app]. rewrite ?app_nil_r, <- added_variables_filter. exact Fwv.
Qed.


Lemma in_events_try {A} (body : M A) (handler : Exn -> M A) s e :
  In e (events (body s)) -> In e (events (try_except body handler s)).
Proof.
  intros Hin. unfold try_except. destruct (result (body s)); cbn [events]; [exact Hin|].
  apply in_or_app. now left.
Qed.

Lemma found_in_search name comps s v :
  result (find_by_name name comps s) = Val v -> is_none v = false ->
  exists n, In (ECall (get_name v) (Returns n)) (events (find_by_name name comps s))
            /\ eq_str n name = true.
Proof.
  intros Hr Hv. apply runs_of_result in Hr.
  exact (find_by_name_found _ _ _ _ _ _ Hr Hv).
Qed.

Lemma runs_call_raises c s e w :
  respond (world s) c = (Raises e, w) ->
  runs (call c) s (Exc e) [ECall c (Raises e)] (after s w).
Proof. intros E. unfold runs. now apply call_raises. Qed.

Lemma runs_raise {A} e s : runs (@raise _ A e) s (Exc e) [] s.
Proof. reflexivity. Qed.

Lemma runs_try_total {A} (body : M A) (handler : Exn -> M A) s r t s' :
  runs body s r t s' ->
  events (try_except body handler s)
  = t ++ match r with Val _ => [] | Exc e => events (handler e s') end
  /\ result (try_except body handler s)
     = match r with Val a => Val a | Exc e => result (handler e s') end.
Proof.
  intros R. destruct (runs_inv _ _ _ _ _ R) as (Hr & Hf & He).
  unfold try_except. rewrite Hr. destruct r; cbn [result events].
  - now rewrite He, app_nil_r.
  - now rewrite He, Hf.
Qed.

End Mounts.

(** Builds the run of a chain of calls, logs and tests forwards, from the
    answers of the host that are among the hypotheses. *)
Ltac run_step :=
  lazymatch goal with
  | |- runs (bind (call _) _) _ _ _ _ =>
      first [ eapply runs_bind; [eapply runs_call_returns; eassumption | cbv beta]
            | apply runs_bind_exc; eapply runs_call_raises; eassumption ]
  | |- runs (bind (emit _) _) _ _ _ _ => eapply runs_bind; [apply runs_emit | cbv beta]
  | |- runs (bind (ret _) _) _ _ _ _ => eapply runs_bind; [apply runs_ret | cbv beta]
  | |- runs (bind (raise _) _) _ _ _ _ => apply runs_bind_exc; apply runs_raise
  | |- runs (bind (py_iter (VList _)) _) _ _ _ _ =>
      eapply runs_bind; [apply runs_ret | cbv beta]
  | |- runs (if negb ?b then _ else _) _ _ _ _ =>
      match goal with Hb : b = _ |- _ => rewrite Hb; cbn [negb] end
  | |- runs (if ?b then _ else _) _ _ _ _ =>
      match goal with Hb : b = _ |- _ => rewrite Hb end
  | |- runs (call _) _ _ _ _ =>
      first [ eapply runs_call_returns; eassumption
            | eapply runs_call_raises; eassumption ]
  | |- runs (ret _) _ _ _ _ => apply runs_ret
  | |- runs (emit _) _ _ _ _ => apply runs_emit
  | |- runs (raise _) _ _ _ _ => apply runs_raise
  end.

Ltac run_all := expose; repeat run_step.

Section Mounts2.
Context {H : Host}.

Lemma mounts_body_cases s :
  exists r t s',
    runs Weapon.add_weapon_components_to_spaceship_try s r t s'
    /\ ((r <> Val true /\ adds_nothing_to_blueprint t)
        \/ exists x, In x t /\ found_ship_mesh x = true).
Proof.
  unfold Weapon.add_weapon_components_to_spaceship_try, adds_nothing_to_blueprint.
  destruct (call_cases (load_asset Weapon.SPACESHIP_FULL_PATH) s)
    as [(bp & w & E)|(e & w & E)].
  2:{ do 3 eexists. split; [run_all|]. left. split; [discriminate | repeat split]. }
  destruct (is_none bp) eqn:Hbp.
  { do 3 eexists. split; [run_all|]. left. split; [discriminate | repeat split]. }
  destruct (call_cases (get_editor_subsystem (VType "BlueprintEditorSubsystem")) (after s w))
    as [(ed & w1 & E1)|(e & w1 & E1)].
  2:{ do 3 eexists. split; [run_all|]. left. split; [discriminate | repeat split]. }
  destruct (call_cases (open_blueprint ed bp) (after (after s w) w1))
    as [(o & w2 & E2)|(e & w2 & E2)].
  2:{ do 3 eexists. split; [run_all|]. left. split; [discriminate | repeat split]. }
  destruct (call_cases (get_components_from_blueprint bp)
              (after (after (after s w) w1) w2))
    as [(v & w3 & E3)|(e & w3 & E3)].
  2:{ do 3 eexists. split; [run_all|]. left. split; [discriminate | repeat split]. }
  assert (Hv : (exists l, v = VList l) \/ py_iter v = raise "TypeError: object is not iterable").
  { destruct v; first [left; eexists; reflexivity | right; reflexivity]. }
  destruct Hv as [(l & ->)|Hv].
  2:{ do 3 eexists. split; [run_all; rewrite Hv; run_all|].
      left. split; [discriminate | repeat split]. }
  set (s4 := after (after (after (after s w) w1) w2) w3) in *.
  pose proof (at_most_0 is_add_component _ s4 (find_adds_nothing "ShipMesh" l)) as Qa.
  pose proof (at_most_0 is_add_variable _ s4 (find_adds_no_variable "ShipMesh" l)) as Qv.
  assert (Qc : filter is_compile_or_save (events (find_by_name "ShipMesh" l s4)) = []).
  { apply at_most_0. bounded. }
  pose proof (runs_self (find_by_name "ShipMesh" l) s4) as Rs.
  destruct (result (find_by_name "ShipMesh" l s4)) as [mesh|e] eqn:Rf.
  2:{ do 3 eexists. split; [run_all; apply runs_bind_exc; exact Rs|].
      left. split; [discriminate|].
      cbn [app filter is_add_component is_compile_or_save is_add_variable].
      rewrite Qa, Qc, Qv. repeat split. }
  destruct (is_none mesh) eqn:Hm.
  { do 3 eexists. split; [run_all; eapply runs_bind; [exact Rs|]; cbv beta; run_all|].
    left. split; [discriminate|].
    cbn [app filter is_add_component is_compile_or_save is_add_variable].
    rewrite !filter_app, Qa, Qc, Qv. repeat split. }
  destruct (found_in_search _ _ _ _ Rf Hm) as (n & Hin & Hn).
  do 3 eexists. split; [run_all; eapply runs_bind; [exact Rs|]; cbv beta; apply runs_self|].
  right. exists (ECall (get_name mesh) (Returns n)). split; [|exact Hn].
  cbn [app]. do 4 right. apply in_or_app. now left.
Qed.

Lemma mounts_need_ship_mesh s :
  filter found_ship_mesh (events (Weapon.add_weapon_components_to_spaceship s)) = [] ->
  result (Weapon.add_weapon_components_to_spaceship s) = Val false
  /\ adds_nothing_to_blueprint (events (Weapon.add_weapon_components_to_spaceship s)).
Proof.
  destruct (mounts_body_cases s) as (r & t & s' & R & Hcase).
  unfold Weapon.add_weapon_components_to_spaceship, enter. rewrite bind_emit.
  cbn [result events].
  destruct (runs_try_total _
              (fun e => Weapon.log (txt ("Error adding weapon components to spaceship: "
                                         ++ e)%string) ;; ret false) _ _ _ _ R)
    as (-> & ->).
  destruct Hcase as [(Hr & Qa & Qc & Qv)|(x & Hin & Hx)].
  - intros _. unfold adds_nothing_to_blueprint.
    cbn [filter is_add_component is_compile_or_save is_add_variable].
    rewrite !filter_app, Qa, Qc, Qv.
    destruct r as [[|]|e]; [congruence| |]; repeat split.
  - intros Hq. exfalso. cbn [filter found_ship_mesh] in Hq.
    refine (quiet_not_in found_ship_mesh _ x Hq _ Hx).
    apply in_or_app. now left.
Qed.

End Mounts2.



(** X9. When no component of the spaceship blueprint is reported under
    the name ShipMesh, [add_weapon_components_to_spaceship] returns
    [False] and leaves the blueprint alone: it requests no component and
    no variable, and neither compiles nor saves. *)
Theorem X9_no_ship_mesh_no_mounts :
  forall (H : Host) (s : PyState),
    filter found_ship_mesh (events (Weapon.add_weapon_components_to_spaceship s)) = [] ->
    result (Weapon.add_weapon_components_to_spaceship s) = Val false
    /\ filter is_add_component (events (Weapon.add_weapon_components_to_spaceship s)) = []
    /\ filter is_compile_or_save (events (Weapon.add_weapon_components_to_spaceship s)) = []
    /\ filter is_add_variable (events (Weapon.add_weapon_components_to_spaceship s)) = [].
Proof. intros H s. apply mounts_need_ship_mesh. Qed.

(** On the small editor, whose blueprints have no component, nothing is
    mounted. *)
Lemma X9_witness_small_editor :
  result (@Weapon.add_weapon_components_to_spaceship (editor no_fault)
            (start no_fault fresh_editor)) = Val false
  /\ filter is_add_component
       (events (@Weapon.add_weapon_components_to_spaceship (editor no_fault)
                  (start no_fault fresh_editor))) = []
  /\ filter is_compile_or_save
       (events (@Weapon.add_weapon_components_to_spaceship (editor no_fault)
                  (start no_fault fresh_editor))) = []
  /\ filter is_add_variable
       (events (@Weapon.add_weapon_components_to_spaceship (editor no_fault)
                  (start no_fault fresh_editor))) = [].
Proof.
  apply (X9_no_ship_mesh_no_mounts (editor no_fault) (start no_fault fresh_editor)).
  vm_compute. reflexivity.
Defined.


(** * The two projectiles *)

(** What the block that sets up the visual component [v] adds to a run. *)
Ltac visual_block R props :=
  lazymatch type of R with
  | runs (if negb (is_none ?v) then bind (call (unreal_load_asset ?path)) _ else _)
         _ _ ?t _ =>
      let F := fresh "F" in
      assert (F : exists mesh,
                 filter is_add_component t = []
                 /\ calls (filter is_set_property t) = visual_calls v mesh props
                 /\ filter is_add_variable t = []
                 /\ (is_none v = false ->
                     In (ECall (unreal_load_asset path) (Returns mesh)) t));
      [ clear - R; unfold visual_calls; inv_spine R;
        first [ match goal with
                | E : respond _ (unreal_load_asset _) = (Returns ?c, _),
                  Hc : is_none ?c = _ |- _ =>
                    exists c; rewrite Hc;
                    repeat apply conj; first [reflexivity | intros _; in_run]
                end
              | exists VNone; repeat apply conj; first [reflexivity | discriminate] ]
      | clear R; destruct F as (? & ? & ? & ? & ?) ]
  end.

(** What the block that finds or makes the root adds to a run. *)
Ltac root_block R ed bp :=
  lazymatch type of R with
  | runs (if is_none ?found then _ else ret ?found) _ (Val ?root) ?t _ =>
      let F := fresh "F" in
      assert (F : filter is_add_component t
                  = (if is_none found
                     then [added ed bp "SceneComponent" "DefaultSceneRoot" None root]
                     else [])
                  /\ (is_none found = false -> root = found)
                  /\ filter is_set_property t = [] /\ filter is_add_variable t = []);
      [ clear - R; inv_spine R; repeat apply conj;
        first [reflexivity | discriminate | intros _; reflexivity]
      | clear R; destruct F as (? & ? & ? & ?) ]
  end.

(** Sums up the blocks of a run of a projectile's setup that was read
    backwards. *)
Ltac projectile_blocks movement_props visual_props collision_props vars vars_lemma :=
  no_names;
  match goal with
  | R : runs (find_by_name _ _) _ _ _ _ |- _ =>
      pose proof (runs_quiet is_add_component _ _ _ _ _ (find_adds_nothing _ _) R);
      pose proof (runs_quiet is_set_property _ _ _ _ _ (find_sets_nothing _ _) R);
      pose proof (runs_quiet is_add_variable _ _ _ _ _ (find_adds_no_variable _ _) R);
      let Fg := fresh "Fg" in
      let Hfound := fresh "Hfound" in
      destruct (find_by_name_run _ _ _ _ _ _ R) as (Fg & Hfound & _);
      clear R
  end;
  match goal with
  | R : runs (if is_none _ then _ else ret _) _ _ _ _,
    E : respond _ (get_editor_subsystem _) = (Returns ?ed, _),
    E' : respond _ (open_blueprint _ ?bp) = _ |- _ => root_block R ed bp
  end;
  repeat match goal with
         | R : runs (if negb (is_none _) then _ else _) _ _ _ _ |- _ =>
             first [ mount_block R movement_props
                   | mount_block R collision_props
                   | visual_block R visual_props ]
         end;
  match goal with
  | R : runs (try_except _ _) ?s1 _ ?t _,
    E : respond _ (get_editor_subsystem _) = (Returns ?ed, _),
    E' : respond _ (open_blueprint _ ?bp) = _ |- _ =>
      let F := fresh "F" in
      assert (F : filter is_add_component t = [] /\ filter is_set_property t = []
                  /\ exists k, added_variables t = firstn k (map (variable_row bp) vars));
      [ split; [|split];
        [ refine (runs_quiet is_add_component _ _ _ _ _ _ R); bounded
        | refine (runs_quiet is_set_property _ _ _ _ _ _ R); bounded
        | destruct (runs_inv _ _ _ _ _ R) as (_ & _ & <-);
          apply (vars_lemma ed bp s1) ]
      | clear R; destruct F as (? & ? & ? & ?) ]
  end.

(** Puts the facts about the blocks together. *)
Ltac projectile_done visual_name collision_name :=
  unfold projectile_set_up;
  match goal with
  | Hev : _ = events _ |- _ => clear Hev
  end;
  match goal with
  | |- exists ed root movement visual mesh collision k compiled saved,
         In _ ?l /\ _ =>
      let evs := fresh "evs" in
      set (evs := l);
      match goal with
      | Fg : filter is_get_name ?t = ?t,
        Hfound : ?found = match search_result "DefaultSceneRoot" ?t with
                          | Some _ => _ | None => _ end |- _ =>
          let Hg := fresh "Hg" in
          assert (Hg : root_found evs = found);
          [ unfold root_found; rewrite search_result_filter; unfold evs;
            repeat (progress (rewrite ?filter_app; cbn [filter is_get_name app]));
            repeat match goal with
                   | F : filter is_get_name _ = [] |- _ => rewrite F; clear F
                   end;
            rewrite Fg; cbn [app]; rewrite ?app_nil_r; symmetry; exact Hfound
          | rewrite Hg; clear Hg Fg Hfound; unfold evs; clear evs ]
      end
  end;
  match goal with
  | E0 : respond _ (get_editor_subsystem _) = (Returns ?ed, _),
    E1 : respond _ (add_new_component_to_blueprint _ _ _ "ProjectileMovement" (Some ?root))
         = (Returns ?movement, _),
    E2 : respond _ (add_new_component_to_blueprint _ _ _ visual_name _)
         = (Returns ?visual, _),
    E3 : respond _ (add_new_component_to_blueprint _ _ _ collision_name _)
         = (Returns ?collision, _),
    E4 : respond _ (compile_blueprint _ _) = (Returns ?compiled, _),
    E5 : respond _ (save_asset _) = (Returns ?saved, _),
    Fv : calls (filter is_set_property _) = visual_calls _ ?mesh _,
    Fm : is_none ?visual = false -> In _ _,
    Fk : added_variables _ = firstn ?k _,
    Hroot : is_none _ = false -> ?root = _,
    Fr : filter is_add_component _ = (if is_none ?found then _ else _) |- _ =>
      exists ed, root, movement, visual, mesh, collision, k, compiled, saved;
      split; [in_run|]; split; [exact Hroot|];
      split; [|split; [|split; [|split; [|find_suffix]]]]
  end;
  [ repeat (progress (rewrite ?filter_app; cbn [filter is_add_component app]));
    repeat match goal with
           | F : filter is_add_component _ = [] |- _ => rewrite F; clear F
           | F : filter is_add_component _ = (if _ then _ else _) |- _ =>
               rewrite F; clear F
           end;
    cbn [app]; match goal with |- context [is_none ?f] => destruct (is_none f) end;
    reflexivity
  | match goal with
    | Fm : is_none ?visual = false -> In _ _ |- _ =>
        let Hv := fresh "Hv" in
        intros Hv; specialize (Fm Hv);
        repeat first [ apply in_or_app; left; exact Fm | apply in_or_app; right ]
    end
  | repeat (progress (rewrite ?filter_app; cbn [filter is_set_property app]));
    rewrite ?calls_app;
    repeat match goal with
           | F : filter is_set_property _ = [] |- _ => rewrite F; clear F
           | F : calls (filter is_set_property _) = _ |- _ => rewrite F; clear F
           end;
    cbn [calls flat_map app]; rewrite ?app_nil_r; reflexivity
  | rewrite added_variables_filter;
    repeat (progress (rewrite ?filter_app; cbn [filter is_add_variable app]));
    repeat match goal with
           | F : filter is_add_variable _ = [] |- _ => rewrite F; clear F
           end;
    cbn [app]; rewrite ?app_nil_r, <- added_variables_filter; assumption ].

Section Projectiles.
Context {H : Host}.

Lemma laser_variables_block ed bp s :
  exists k,
    added_variables
      (events
         (try_except
            (call (add_member_variable ed bp "Damage" Weapon.float_pin (VFloat 20.0)) ;;
             Weapon.log "Added Damage variable to laser" ;;
             call (add_member_variable ed bp "Lifetime" Weapon.float_pin (VFloat 2.0)) ;;
             Weapon.log "Added Lifetime variable to laser")
            (fun var_error =>
               Weapon.log (txt ("Error adding variables to laser: " ++ var_error)%string)) s))
    = firstn k (map (variable_row bp) laser_variables).
Proof.
  unfold try_except. exec;
    first [ exists 2; reflexivity | exists 1; reflexivity ].
Qed.

Lemma missile_variables_block ed bp s :
  exists k,
    added_variables
      (events
         (try_except
            (call (add_member_variable ed bp "Damage" Weapon.float_pin (VFloat 50.0)) ;;
             Weapon.log "Added Damage variable to missile" ;;
             call (add_member_variable ed bp "Lifetime" Weapon.float_pin (VFloat 5.0)) ;;
             Weapon.log "Added Lifetime variable to missile" ;;
             call (add_member_variable ed bp "ExplosionRadius" Weapon.float_pin
                     (VFloat 200.0)) ;;
             Weapon.log "Added ExplosionRadius variable to missile" ;;
             call (add_member_variable ed bp "HomingTarget"
                     (VPinType "object" (VClass "Actor")) VNone) ;;
             Weapon.log "Added HomingTarget variable to missile")
            (fun var_error =>
               Weapon.log (txt ("Error adding variables to missile: " ++ var_error)%string))
            s))
    = firstn k (map (variable_row bp) missile_variables).
Proof.
  unfold try_except. exec;
    first [ exists 4; reflexivity | exists 3; reflexivity | exists 2; reflexivity
          | exists 1; reflexivity ].
Qed.

Lemma laser_components bp s :
  result (Weapon.setup_laser_components bp s) = Val true ->
  projectile_set_up (events (Weapon.setup_laser_components bp s)) bp Weapon.LASER_FULL_PATH
    "LaserVisual" "CapsuleComponent" "CollisionCapsule" "/Engine/BasicShapes/Cylinder"
    laser_movement_properties laser_visual_properties laser_collision_properties
    laser_variables "Successfully set up laser projectile components".
Proof.
  intros Hres. apply runs_of_result in Hres.
  remember (events (Weapon.setup_laser_components bp s)) as evs eqn:Hev.
  remember (final (Weapon.setup_laser_components bp s)) as sf eqn:Hsf.
  clear Hsf. revert Hev.
  unfold Weapon.setup_laser_components in Hres. expose.
  inv_spine Hres.
  match goal with
  | R : runs (try_except _ _) _ _ _ _ |- _ =>
      apply runs_try_inv in R; [|intros; apply log_false_gives_false];
      unfold Weapon.setup_laser_components_try in R; expose; inv_spine R
  end.
  projectile_blocks laser_movement_properties laser_visual_properties
    laser_collision_properties laser_variables laser_variables_block.
  projectile_done "LaserVisual" "CollisionCapsule".
Qed.

Lemma missile_components bp s :
  result (Weapon.setup_missile_components bp s) = Val true ->
  projectile_set_up (events (Weapon.setup_missile_components bp s)) bp
    Weapon.MISSILE_FULL_PATH
    "MissileVisual" "SphereComponent" "CollisionSphere" "/Engine/BasicShapes/Cone"
    missile_movement_properties missile_visual_properties missile_collision_properties
    missile_variables "Successfully set up missile projectile components".
Proof.
  intros Hres. apply runs_of_result in Hres.
  remember (events (Weapon.setup_missile_components bp s)) as evs eqn:Hev.
  remember (final (Weapon.setup_missile_components bp s)) as sf eqn:Hsf.
  clear Hsf. revert Hev.
  unfold Weapon.setup_missile_components in Hres. expose.
  inv_spine Hres.
  match goal with
  | R : runs (try_except _ _) _ _ _ _ |- _ =>
      apply runs_try_inv in R; [|intros; apply log_false_gives_false];
      unfold Weapon.setup_missile_components_try in R; expose; inv_spine R
  end.
  projectile_blocks missile_movement_properties missile_visual_properties
    missile_collision_properties missile_variables missile_variables_block.
  projectile_done "MissileVisual" "CollisionSphere".
Qed.

End Projectiles.





(** * Running a script forwards, case by case *)

Section Forward.
Context {H : Host}.

Lemma bind_cases {A B} (m : M A) (f : A -> M B) s (Q : Res B -> list Event -> Prop) :
  (forall a t1 s1, runs m s (Val a) t1 s1 ->
                   Q (result (f a s1)) (t1 ++ events (f a s1))) ->
  (forall e t1 s1, runs m s (Exc e) t1 s1 -> Q (Exc e) t1) ->
  Q (result (bind m f s)) (events (bind m f s)).
Proof.
  intros Hv He. rewrite run_bind.
  destruct (result (m s)) as [a|e] eqn:E; cbn [result events].
  - apply (Hv a (events (m s)) (final (m s))). now apply runs_of_result.
  - apply (He e (events (m s)) (final (m s))). now apply runs_of_result.
Qed.

Lemma try_cases {A} (body : M A) (handler : Exn -> M A) s
    (Q : Res A -> list Event -> Prop) :
  (forall a t1 s1, runs body s (Val a) t1 s1 -> Q (Val a) t1) ->
  (forall e t1 s1, runs body s (Exc e) t1 s1 ->
                   Q (result (handler e s1)) (t1 ++ events (handler e s1))) ->
  Q (result (try_except body handler s)) (events (try_except body handler s)).
Proof.
  intros Hv He. unfold try_except.
  destruct (result (body s)) as [a|e] eqn:E; cbn [result events].
  - replace (body s) with (mkRun (Val a) (final (body s)) (events (body s))).
    + cbn [result events]. apply (Hv a _ (final (body s))). now apply runs_of_result.
    + rewrite <- E. now destruct (body s).
  - apply (He e (events (body s)) (final (body s))). now apply runs_of_result.
Qed.

Lemma runs_call_exc_inv c s e t s' :
  runs (call c) s (Exc e) t s' ->
  exists w, respond (world s) c = (Raises e, w)
            /\ t = [ECall c (Raises e)] /\ s' = after s w.
Proof.
  unfold runs, call. destruct (respond (world s) c) as [[v|e'] w]; [discriminate|].
  intros E. injection E as -> <- <-. now exists w.
Qed.

Lemma runs_emit_exc e0 s e t s' : runs (emit e0) s (Exc e) t s' -> False.
Proof. unfold runs, emit. discriminate. Qed.

Lemma runs_ret_exc {A} (a : A) s e t s' : runs (ret a) s (Exc e) t s' -> False.
Proof. unfold runs, ret. discriminate. Qed.

Lemma runs_raise_exc {A} e0 s e t s' :
  runs (@raise _ A e0) s (Exc e) t s' -> e = e0 /\ t = [] /\ s' = s.
Proof. unfold runs, raise. intros E. injection E as <- <- <-. auto. Qed.

Lemma runs_py_iter_exc v s e t s' :
  runs (py_iter v) s (Exc e) t s' -> t = [] /\ s' = s.
Proof.
  unfold runs. destruct v; cbn [py_iter ret raise]; intros E;
    first [discriminate E | injection E as <- <- <-; auto].
Qed.

End Forward.

(** What a part that raised did. *)
Ltac exc_leaf R :=
  lazymatch type of R with
  | runs (call _) _ (Exc _) _ _ =>
      let w := fresh "w" in
      let E := fresh "E" in
      apply runs_call_exc_inv in R; destruct R as (w & E & -> & ->);
      cbn [world after] in E
  | runs (emit _) _ (Exc _) _ _ => destruct (runs_emit_exc _ _ _ _ _ R)
  | runs (ret _) _ (Exc _) _ _ => destruct (runs_ret_exc _ _ _ _ _ R)
  | runs (raise _) _ (Exc _) _ _ =>
      apply runs_raise_exc in R; destruct R as (-> & -> & ->)
  | runs (py_iter _) _ (Exc _) _ _ =>
      apply runs_py_iter_exc in R; destruct R as (-> & ->)
  | _ => idtac
  end.

(** One step forwards in a goal about the result and the events of a
    run: the first part of a bind has returned, or it has raised; what it
    did is among the hypotheses. *)
Ltac forward :=
  lazymatch goal with
  | |- context [events (bind (bind ?m1 ?f1) ?f ?s)] =>
      rewrite (bind_assoc m1 f1 f s)
  | |- context [events (bind (if ?b then _ else _) _ _)] =>
      split_bool b
  | |- context [events (bind ?m ?f ?s)] =>
      let R := fresh "R" in
      pattern (result (bind m f s)), (events (bind m f s));
      apply (bind_cases m f s);
      [ intros ? ? ? R; cbv beta; inv_leaf R
      | intros ? ? ? R; cbv beta; exc_leaf R ]
  | |- context [events ((if ?b then _ else _) ?s)] =>
      split_bool b
  end.

(** * The input settings, in every run *)

Section InputRuns.
Context {H : Host}.

Lemma action_adds_complete settings u t s s' :
  runs (for_ InputSetup.action_mappings (fun action =>
          call (add_action_mapping settings
                  (VActionMapping (InputSetup.action_mapping_of action))) ;;
          InputSetup.log [Txt ("Added action mapping: " ++ fst action ++ " -> ")%string;
                          Fmt (VKey (snd action))])) s (Val u) t s' ->
  calls (filter is_add_mapping t)
  = map (fun a => add_action_mapping settings (VActionMapping (InputSetup.action_mapping_of a)))
        InputSetup.action_mappings.
Proof.
  intros R. expose. unfold InputSetup.action_mappings in R. unroll R. reflexivity.
Qed.

Lemma axis_adds_complete settings u t s s' :
  runs (for_ InputSetup.axis_mappings (fun axis =>
          call (add_axis_mapping settings
                  (VAxisMapping (InputSetup.axis_mapping_of axis))) ;;
          InputSetup.log [Txt ("Added axis mapping: " ++ fst (fst axis) ++ " -> ")%string;
                          Fmt (VKey (snd (fst axis)));
                          Txt " (scale: "; Fmt (VFloat (snd axis)); Txt ")"])) s (Val u) t s' ->
  calls (filter is_add_mapping t)
  = map (fun a => add_axis_mapping settings (VAxisMapping (InputSetup.axis_mapping_of a)))
        InputSetup.axis_mappings.
Proof.
  intros R. expose. unfold InputSetup.axis_mappings in R. unroll R. reflexivity.
Qed.

Lemma saved_means_complete_body s :
  forall sub st rr,
    In (ECall (save_config_file sub st) rr) (events (InputSetup.setup_input_mappings_try s)) ->
    calls (filter is_add_mapping (events (InputSetup.setup_input_mappings_try s)))
    = all_mappings_added st.
Proof.
  unfold InputSetup.setup_input_mappings_try. expose.
  repeat forward.
  all: cbn [events ret emit raise]; intros.
  all: repeat match goal with
              | R : runs (for_ _ _) _ _ ?t _ |- _ =>
                  assert (filter is_save_config t = [])
                    by (refine (runs_quiet _ _ _ _ _ _ _ R); bounded);
                  first [ pose proof (action_adds_complete _ _ _ _ _ R)
                        | pose proof (axis_adds_complete _ _ _ _ _ R)
                        | assert (filter is_add_mapping t = [])
                            by (refine (runs_quiet _ _ _ _ _ _ _ R); bounded)
                        | idtac ];
                  clear R
              end.
  all: match goal with
       | Hin : In ?x ?L |- _ =>
           assert (Hf : In x (filter is_save_config L))
             by (apply filter_In; split; [exact Hin | reflexivity]);
           clear Hin
       end.
  all: repeat (progress (rewrite ?filter_app in Hf; cbn [filter is_save_config app] in Hf)).
  all: repeat match goal with
              | F : filter is_save_config _ = [] |- _ => rewrite F in Hf; clear F
              end.
  all: cbn [app In] in Hf; try (destruct Hf as [Hf|[]]; injection Hf as -> -> ->);
    try (exfalso; exact Hf).
  all: unfold all_mappings_added, InputSetup.log in *.
  all: repeat (progress (rewrite ?filter_app; cbn [filter is_add_mapping app])).
  all: rewrite ?calls_app.
  all: repeat match goal with
              | F : filter is_add_mapping _ = [] |- _ => rewrite F; clear F
              | F : calls (filter is_add_mapping _) = _ |- _ => rewrite F; clear F
              end.
  all: cbn [calls flat_map app]; rewrite ?app_nil_r; reflexivity.
Qed.

Lemma saved_means_complete s :
  List.length (filter is_save_config (events (InputSetup.setup_input_mappings s))) <= 1
  /\ forall sub st rr,
       In (ECall (save_config_file sub st) rr) (events (InputSetup.setup_input_mappings s)) ->
       calls (filter is_add_mapping (events (InputSetup.setup_input_mappings s)))
       = all_mappings_added st.
Proof.
  split.
  - assert (Hb : at_most 1 is_save_config InputSetup.setup_input_mappings) by bounded.
    apply Hb.
  - pose proof (saved_means_complete_body s) as Hbody.
    unfold InputSetup.setup_input_mappings, enter. rewrite bind_emit. cbn [events].
    unfold try_except.
    destruct (result (InputSetup.setup_input_mappings_try s)); cbn [events].
    + intros sub st rr [Hin|Hin]; [discriminate Hin|]. cbn [filter is_add_mapping].
      exact (Hbody _ _ _ Hin).
    + intros sub st rr [Hin|Hin]; [discriminate Hin|].
      apply in_app_or in Hin. destruct Hin as [Hin|Hin].
      * cbn [filter is_add_mapping]. rewrite filter_app, calls_app.
        rewrite (Hbody _ _ _ Hin). unfold InputSetup.log. rewrite bind_emit.
        cbn [events ret filter is_add_mapping calls flat_map]. now rewrite app_nil_r.
      * unfold InputSetup.log in Hin. rewrite bind_emit in Hin.
        cbn [events ret In] in Hin. destruct Hin as [Hin|[]]. discriminate Hin.
Qed.

Lemma am_for_in {A} (P : Event -> bool) (l : list A) (body : A -> M unit) :
  (forall x, In x l -> at_most 0 P (body x)) -> at_most 0 P (for_ l body).
Proof.
  induction l as [|x l IH]; intros Hb; cbn [for_].
  - apply am_ret.
  - apply (am_bind _ _ _ 0 0); [apply Hb; now left|].
    intros _. apply IH. intros y Hy. apply Hb. now right.
Qed.

Lemma am_bind_raise {A B} (P : Event -> bool) e (f : A -> M B) :
  at_most 0 P (bind (raise e) f).
Proof. intros s. rewrite bind_raise. cbn. lia. Qed.

Lemma am_bind_ret {A B} (P : Event -> bool) n (a : A) (f : A -> M B) :
  at_most n P (f a) -> at_most n P (bind (ret a) f).
Proof. intros Hf s. rewrite bind_ret. apply Hf. Qed.

Lemma named_in names n : In n names -> named names n = true.
Proof.
  intros Hin. unfold named. apply existsb_exists. exists n.
  split; [exact Hin | apply String.eqb_refl].
Qed.

(** The removal loops ask to remove only mappings that bear the name of
    the row they are at. *)
Lemma action_removals_named settings existing :
  at_most 0 removes_other_name
    (for_ InputSetup.action_mappings (fun action =>
       existing_list <- py_iter existing ;;
       for_ existing_list (fun existing =>
         name <- get_action_name existing ;;
         if String.eqb name (fst action) then
           call (remove_action_mapping settings existing) ;; ret tt
         else ret tt))).
Proof.
  apply am_for_in. intros action Hin.
  assert (Hn : named action_names (fst action) = true).
  { apply named_in. unfold action_names. now apply in_map. }
  apply (am_bind _ _ _ 0 0); [apply am_py_iter|]. intros l.
  apply am_for with (n := 0); [|reflexivity]. intros v.
  destruct v; cbn [get_action_name]; try apply am_bind_raise.
  apply am_bind_ret.
  destruct (String.eqb (action_name m) (fst action)) eqn:En; [|apply am_ret].
  apply String.eqb_eq in En.
  apply (am_bind _ _ _ 0 0); [|intro; apply am_ret].
  apply am_call0. intros r. cbn [removes_other_name]. now rewrite En, Hn.
Qed.

Lemma axis_removals_named settings existing :
  at_most 0 removes_other_name
    (for_ InputSetup.axis_mappings (fun axis =>
       existing_list <- py_iter existing ;;
       for_ existing_list (fun existing =>
         name <- get_axis_name existing ;;
         if String.eqb name (fst (fst axis)) then
           call (remove_axis_mapping settings existing) ;; ret tt
         else ret tt))).
Proof.
  apply am_for_in. intros axis Hin.
  assert (Hn : named axis_names (fst (fst axis)) = true).
  { apply named_in. unfold axis_names.
    now apply (in_map (fun a : string * Key * Q => fst (fst a))). }
  apply (am_bind _ _ _ 0 0); [apply am_py_iter|]. intros l.
  apply am_for with (n := 0); [|reflexivity]. intros v.
  destruct v; cbn [get_axis_name]; try apply am_bind_raise.
  apply am_bind_ret.
  destruct (String.eqb (axis_name m) (fst (fst axis))) eqn:En; [|apply am_ret].
  apply String.eqb_eq in En.
  apply (am_bind _ _ _ 0 0); [|intro; apply am_ret].
  apply am_call0. intros r. cbn [removes_other_name]. now rewrite En, Hn.
Qed.

Lemma removals_named : at_most 0 removes_other_name InputSetup.setup_input_mappings.
Proof.
  unfold InputSetup.setup_input_mappings, InputSetup.setup_input_mappings_try.
  eapply am_weaken.
  - eapply am_bind; [bound|]. intros _.
    eapply am_try; [|intro; bound].
    eapply am_bind; [bound|]. intros input_settings.
    eapply am_if; [bound|].
    eapply am_bind; [bound|]. intros existing_actions.
    eapply am_bind; [apply action_removals_named|]. intros _.
    eapply am_bind; [bound|]. intros existing_axes.
    eapply am_bind; [apply axis_removals_named|]. intros _.
    bound.
  - cbn. lia.
Qed.

Lemma no_input_settings_no_change s v w :
  respond (world s) (get_default_object (VType "InputSettings")) = (Returns v, w) ->
  is_none v = true ->
  result (InputSetup.setup_input_mappings s) = Val false
  /\ events (InputSetup.setup_input_mappings s)
     = [ EEnter "internal_input_setup.setup_input_mappings" [];
         ECall (get_default_object (VType "InputSettings")) (Returns v);
         ELog "[INPUT SETUP] " "Failed to get input settings" ].
Proof.
  intros E Hv. unfold InputSetup.setup_input_mappings, enter. rewrite bind_emit.
  cbn [result events]. unfold try_except, InputSetup.setup_input_mappings_try.
  rewrite (bind_call_returns _ _ _ _ _ E). cbn [result events final]. rewrite Hv.
  unfold InputSetup.log. rewrite bind_emit. cbn. auto.
Qed.

End InputRuns.

(** X12. When the editor has no input settings object,
    [setup_input_mappings] logs that and returns [False]; it asks the
    host for nothing else: no mapping is read, removed or added and
    nothing is saved. *)
Theorem X12_no_input_settings_nothing_touched :
  forall (H : Host) (s : PyState) (v : Value) (w : World),
    respond (world s) (get_default_object (VType "InputSettings")) = (Returns v, w) ->
    is_none v = true ->
    result (InputSetup.setup_input_mappings s) = Val false
    /\ events (InputSetup.setup_input_mappings s)
       = [ EEnter "internal_input_setup.setup_input_mappings" [];
           ECall (get_default_object (VType "InputSettings")) (Returns v);
           ELog "[INPUT SETUP] " "Failed to get input settings" ].
Proof. intros H s v w. apply no_input_settings_no_change. Qed.

Lemma X12_witness_no_settings :
  result (@InputSetup.setup_input_mappings (editor no_input_settings)
            (start no_input_settings used_editor)) = Val false
  /\ events (@InputSetup.setup_input_mappings (editor no_input_settings)
               (start no_input_settings used_editor))
     = [ EEnter "internal_input_setup.setup_input_mappings" [];
         ECall (get_default_object (VType "InputSettings")) (Returns VNone);
         ELog "[INPUT SETUP] " "Failed to get input settings" ].
Proof.
  apply (X12_no_input_settings_nothing_touched (editor no_input_settings)
           (start no_input_settings used_editor) VNone used_editor);
    reflexivity.
Defined.


(** X14. In every run [setup_input_mappings] asks to remove only
    mappings that bear one of the names of its tables: a binding under
    another name is never removed. *)
Theorem X14_only_named_mappings_removed :
  forall (H : Host) (s : PyState),
    filter removes_other_name (events (InputSetup.setup_input_mappings s)) = []
    /\ action_names = ["Boost"; "Brake"; "PrimaryFire"; "SecondaryFire"]
    /\ nodup string_dec axis_names
       = ["MoveForward"; "MoveRight"; "MoveUp"; "Turn"; "LookUp"; "CameraZoom"].
Proof.
  intros H s. split; [|split; reflexivity].
  apply at_most_0. apply removals_named.
Qed.

(** * What the mains report *)

Section Reports.
Context {H : Host}.

Lemma creator_main_report s :
  result (Creator.main s) = Val tt ->
  exists bp,
    result (Creator.create_spaceship_blueprint s) = Val bp
    /\ if is_none bp then ends_with [creator_abort_log] (events (Creator.main s))
       else ends_with creator_closing (events (Creator.main s)).
Proof.
  intros Hres. apply runs_of_result in Hres.
  remember (events (Creator.main s)) as evs eqn:Hev.
  remember (final (Creator.main s)) as sf eqn:Hsf. clear Hsf Hev.
  unfold Creator.main in Hres. expose.
  apply runs_bind_inv in Hres. destruct Hres as (u1 & t1 & s1 & t2 & R1 & R2 & ->).
  inv_leaf R1. cbv beta in R2.
  apply runs_bind_inv in R2. destruct R2 as (u2 & t3 & s2 & t4 & R3 & R4 & ->).
  inv_leaf R3. cbv beta in R4.
  apply runs_bind_inv in R4. destruct R4 as (bp & t5 & s3 & t6 & R5 & R6 & ->).
  cbv beta in R6. exists bp.
  destruct (runs_inv _ _ _ _ _ R5) as (Hr & _ & _). split; [exact Hr|]. clear R5 Hr.
  destruct (is_none bp).
  - inv_leaf R6. unfold creator_abort_log. find_suffix.
  - inv_spine R6. unfold creator_closing. find_suffix.
Qed.

Lemma input_main_report s ok :
  result (InputSetup.setup_input_mappings s) = Val ok ->
  result (InputSetup.main s) = Val tt
  /\ ends_with (input_closing ok) (events (InputSetup.main s)).
Proof.
  intros Hok. apply runs_of_result in Hok.
  set (t := events (InputSetup.setup_input_mappings s)) in *.
  set (s1 := final (InputSetup.setup_input_mappings s)) in *. clearbody t s1.
  assert (R : runs InputSetup.main s (Val tt)
                ([EEnter "internal_input_setup.main" []]
                 ++ [ELog "[INPUT SETUP] " "Starting input control system setup..."]
                 ++ t ++ input_closing ok) s1).
  { unfold InputSetup.main. expose.
    eapply runs_bind; [apply runs_emit|]. cbv beta.
    eapply runs_bind; [apply runs_emit|]. cbv beta.
    eapply runs_bind; [exact Hok|]. cbv beta.
    destruct ok; cbn [negb input_closing].
    - eapply runs_events.
      + eapply runs_bind; [apply runs_emit|]. cbv beta.
        eapply runs_bind; [apply runs_emit|]. cbv beta. apply runs_emit.
      + reflexivity.
    - apply runs_emit. }
  destruct (runs_inv _ _ _ _ _ R) as (Hr & _ & He). split; [exact Hr|].
  rewrite He. find_suffix.
Qed.

End Reports.

(** X15. What [internal_spaceship_creator.main] reports does not depend
    on how its steps went: a run that returns had a result from
    [create_spaceship_blueprint]; when that was [None] the run ends with
    the line that it aborts, and otherwise with the four closing lines,
    the last of which says that the test instance was spawned, whatever
    the three steps returned. *)
Theorem X15_creator_main_closing_lines :
  forall (H : Host) (s : PyState),
    result (Creator.main s) = Val tt ->
    exists bp,
      result (Creator.create_spaceship_blueprint s) = Val bp
      /\ if is_none bp then ends_with [creator_abort_log] (events (Creator.main s))
         else ends_with creator_closing (events (Creator.main s)).
Proof. intros H s. apply creator_main_report. Qed.

(** On an editor whose level takes no new actor, the spawn fails, main
    says so, and still ends with its closing lines. *)
Lemma X15_witness_spawn_fails :
  In (ELog "[SPACESHIP CREATOR] " "Failed to spawn test instance, continuing anyway")
     (events (@Creator.main (editor spawn_gives_none) (start spawn_gives_none fresh_editor)))
  /\ exists bp,
       result (@Creator.create_spaceship_blueprint (editor spawn_gives_none)
                 (start spawn_gives_none fresh_editor)) = Val bp
       /\ if is_none bp
          then ends_with [creator_abort_log]
                 (events (@Creator.main (editor spawn_gives_none)
                            (start spawn_gives_none fresh_editor)))
          else ends_with creator_closing
                 (events (@Creator.main (editor spawn_gives_none)
                            (start spawn_gives_none fresh_editor))).
Proof.
  split.
  - vm_compute. repeat first [left; reflexivity | right].
  - apply (X15_creator_main_closing_lines (editor spawn_gives_none)
             (start spawn_gives_none fresh_editor)).
    vm_compute. reflexivity.
Defined.

(** X16. [internal_input_setup.main] reports what happened: when
    [setup_input_mappings] returns [True] the run ends with the three
    lines that the setup is completed, and when it returns [False] the
    run ends with the line that it aborts; in both cases main returns. *)
Theorem X16_input_main_reports_the_outcome :
  forall (H : Host) (s : PyState) (ok : bool),
    result (InputSetup.setup_input_mappings s) = Val ok ->
    result (InputSetup.main s) = Val tt
    /\ ends_with (input_closing ok) (events (InputSetup.main s)).
Proof. intros H s ok. apply input_main_report. Qed.

Lemma X16_witness_no_settings :
  result (@InputSetup.main (editor no_input_settings)
            (start no_input_settings used_editor)) = Val tt
  /\ ends_with (input_closing false)
       (events (@InputSetup.main (editor no_input_settings)
                  (start no_input_settings used_editor))).
Proof.
  apply (X16_input_main_reports_the_outcome (editor no_input_settings)
           (start no_input_settings used_editor) false).
  vm_compute. reflexivity.
Defined.

(** * Exceptions of host calls (C1) *)

Section Accounting.
Context {H : Host}.

Lemma ends_with_text_refl e : ends_with_text e e = true.
Proof. destruct e; cbn [ends_with_text]; now rewrite String.eqb_refl. Qed.

Lemma ends_with_text_right a b e :
  ends_with_text e b = true -> ends_with_text e (a ++ b) = true.
Proof.
  intros Hb. induction a as [|c a IH]; [exact Hb|].
  cbn [String.append ends_with_text]. rewrite IH. apply orb_true_r.
Qed.

Lemma raises_logged_app a b :
  raises_logged a = true -> raises_logged b = true -> raises_logged (a ++ b) = true.
Proof.
  intros Ha Hb. induction a as [|ev a IH]; [exact Hb|].
  cbn [app]. destruct ev as [c [v|e]| |]; cbn [raises_logged] in *; auto.
  apply andb_true_iff in Ha. destruct Ha as (Hn & Ha).
  destruct a as [|next a]; [discriminate Hn|].
  cbn [app]. rewrite Hn. cbn [andb]. now apply IH.
Qed.

(** A handler that starts with the line for [e] settles the account of a
    body that raised [e]. *)
Lemma accounted_handled {A} e evs prefix msg rest :
  @accounted A (Exc e) evs ->
  ends_with_text e msg = true ->
  raises_logged rest = true ->
  raises_logged (evs ++ ELog prefix (txt msg) :: rest) = true.
Proof.
  intros [Hl|(pre & c & -> & Hl)] Hm Hr.
  - apply raises_logged_app; [exact Hl | exact Hr].
  - rewrite <- app_assoc. apply raises_logged_app; [exact Hl|].
    cbn [app raises_logged reports txt]. rewrite Hm. exact Hr.
Qed.

Lemma accounted_app {B} (r : Res B) t1 t2 :
  raises_logged t1 = true -> accounted r t2 -> accounted r (t1 ++ t2).
Proof.
  intros H1 H2. destruct r as [b|e]; cbn [accounted] in *.
  - now apply raises_logged_app.
  - destruct H2 as [H2|(pre & c & -> & H2)].
    + left. now apply raises_logged_app.
    + right. exists (t1 ++ pre), c. split; [now rewrite app_assoc|].
      now apply raises_logged_app.
Qed.

Lemma lr_ret {A} (a : A) : logs_raises (ret a).
Proof. intros s. reflexivity. Qed.

Lemma lr_raise {A} e : logs_raises (@raise _ A e).
Proof. intros s. now left. Qed.

Lemma lr_log prefix msg : logs_raises (emit (ELog prefix msg)).
Proof. intros s. reflexivity. Qed.

Lemma lr_enter fn args : logs_raises (emit (EEnter fn args)).
Proof. intros s. reflexivity. Qed.

Lemma lr_call c : logs_raises (call c).
Proof.
  intros s. unfold call. destruct (respond (world s) c) as [[v|e] w]; cbn.
  - reflexivity.
  - right. now exists [], c.
Qed.

Lemma lr_bind {A B} (m : M A) (f : A -> M B) :
  logs_raises m -> (forall a, logs_raises (f a)) -> logs_raises (bind m f).
Proof.
  intros Hm Hf s. rewrite run_bind. specialize (Hm s).
  destruct (result (m s)) as [a|e]; cbn [result events].
  - apply accounted_app; [exact Hm | apply Hf].
  - exact Hm.
Qed.

Lemma lr_try {A} (body : M A) prefix (msg : Exn -> string) (k : Exn -> M A) :
  logs_raises body ->
  (forall e, ends_with_text e (msg e) = true) ->
  (forall e, logs_raises (k e)) ->
  logs_raises (try_except body (fun e => emit (ELog prefix (txt (msg e))) ;; k e)).
Proof.
  intros Hb Hm Hk s. unfold try_except. specialize (Hb s).
  destruct (result (body s)) as [a|e] eqn:E.
  - now rewrite E.
  - rewrite bind_emit. cbn [result events]. specialize (Hk e (final (body s))).
    destruct (result (k e (final (body s)))) as [a|e'].
    + cbn [accounted app]. eapply accounted_handled; [exact Hb | apply Hm | exact Hk].
    + destruct Hk as [Hk|(pre & c & He & Hk)].
      * left. cbn [app]. eapply accounted_handled; [exact Hb | apply Hm | exact Hk].
      * right. exists (events (body s) ++ ELog prefix (txt (msg e)) :: pre), c.
        split; [rewrite He, <- app_assoc; reflexivity|].
        eapply accounted_handled; [exact Hb | apply Hm | exact Hk].
Qed.

Lemma lr_try_log (body : M unit) prefix (msg : Exn -> string) :
  logs_raises body ->
  (forall e, ends_with_text e (msg e) = true) ->
  logs_raises (try_except body (fun e => emit (ELog prefix (txt (msg e))))).
Proof.
  intros Hb Hm s. unfold try_except. specialize (Hb s).
  destruct (result (body s)) as [a|e] eqn:E.
  - now rewrite E.
  - cbn [emit result events].
    eapply (accounted_handled e _ prefix (msg e) []); [exact Hb | apply Hm | reflexivity].
Qed.

Lemma lr_if {A} (c : bool) (m1 m2 : M A) :
  logs_raises m1 -> logs_raises m2 -> logs_raises (if c then m1 else m2).
Proof. now destruct c. Qed.

Lemma lr_for {A} (l : list A) (body : A -> M unit) :
  (forall x, logs_raises (body x)) -> logs_raises (for_ l body).
Proof.
  intros Hb. induction l as [|x l IH]; cbn [for_].
  - apply lr_ret.
  - apply lr_bind; [apply Hb | intros _; exact IH].
Qed.

Lemma lr_py_iter v : logs_raises (py_iter v).
Proof. destruct v; first [apply lr_ret | apply lr_raise]. Qed.

Lemma lr_get_action_name v : logs_raises (get_action_name v).
Proof. destruct v; first [apply lr_ret | apply lr_raise]. Qed.

Lemma lr_get_axis_name v : logs_raises (get_axis_name v).
Proof. destruct v; first [apply lr_ret | apply lr_raise]. Qed.

Lemma lr_get_sys_path : logs_raises get_sys_path.
Proof. intros s. reflexivity. Qed.

Lemma lr_sys_path_append d : logs_raises (sys_path_append d).
Proof. intros s. reflexivity. Qed.

Lemma lr_find_by_name name comps : logs_raises (find_by_name name comps).
Proof.
  induction comps as [|c comps IH]; cbn [find_by_name].
  - apply lr_ret.
  - apply lr_bind; [apply lr_call|].
    intros n. destruct (eq_str n name); [apply lr_ret | exact IH].
Qed.

Lemma lr_destroy_test_instance actors :
  logs_raises (Creator.destroy_test_instance actors).
Proof.
  induction actors as [|a actors IH]; cbn [Creator.destroy_test_instance].
  - apply lr_ret.
  - apply lr_bind; [apply lr_call|].
    intros label. destruct (eq_str label "TestSpaceship"); [|exact IH].
    apply lr_bind; [apply lr_log|]. intros _.
    apply lr_bind; [apply lr_call|]. intros _. apply lr_ret.
Qed.

End Accounting.

(** The text of a handler's line ends with the exception. *)
Ltac ends_with_exception :=
  repeat first [ apply ends_with_text_refl | apply ends_with_text_right ].

(** A run accounts for its exceptions: by the structure of the
    computation. *)
Ltac account :=
  lazymatch goal with
  | |- logs_raises (bind _ _) => apply lr_bind; [account | intro; account]
  | |- logs_raises (try_except _ (fun e => bind (emit _) _)) =>
      eapply lr_try; [account | intro; ends_with_exception | intro; account]
  | |- logs_raises (try_except _ _) =>
      eapply lr_try_log; [account | intro; ends_with_exception]
  | |- logs_raises (if _ then _ else _) => apply lr_if; account
  | |- logs_raises (match ?x with Some _ => _ | None => _ end) => destruct x; account
  | |- logs_raises (ret _) => apply lr_ret
  | |- logs_raises (raise _) => apply lr_raise
  | |- logs_raises (emit (ELog _ _)) => apply lr_log
  | |- logs_raises (emit (EEnter _ _)) => apply lr_enter
  | |- logs_raises (call _) => apply lr_call
  | |- logs_raises (for_ _ _) => apply lr_for; intro; account
  | |- logs_raises (py_iter _) => apply lr_py_iter
  | |- logs_raises (get_action_name _) => apply lr_get_action_name
  | |- logs_raises (get_axis_name _) => apply lr_get_axis_name
  | |- logs_raises get_sys_path => apply lr_get_sys_path
  | |- logs_raises (sys_path_append _) => apply lr_sys_path_append
  | |- logs_raises (find_by_name _ _) => apply lr_find_by_name
  | |- logs_raises (Creator.destroy_test_instance _) => apply lr_destroy_test_instance
  | |- logs_raises ?m => let h := head_of m in unfold h; expose; account
  end.

(** The account of [import_and_run_module], that of the script's [main]
    being known. *)
Ltac script_accounts :=
  repeat first [ assumption | apply lr_bind; [|intro] | apply lr_if
               | eapply lr_try; [| intro; ends_with_exception | intro]
               | apply lr_ret | apply lr_log | apply lr_enter | apply lr_call
               | apply lr_get_sys_path | apply lr_sys_path_append ].

Section Accounts.
Context {H : Host}.

Lemma creator_main_logs_raises : logs_raises Creator.main.
Proof. account. Qed.

Lemma input_main_logs_raises : logs_raises InputSetup.main.
Proof. account. Qed.

Lemma weapon_main_logs_raises : logs_raises Weapon.main.
Proof. account. Qed.

Lemma import_logs_raises name path :
  logs_raises (Complete.import_and_run_module name path).
Proof.
  unfold Complete.import_and_run_module, Complete.import_and_run_module_try,
    Complete.exec_module, Complete.module_main.
  destruct (script_at_cases path) as [E|[E|[E|E]]]; rewrite E;
    cbn [Complete.script_body Complete.script_main];
    unfold Creator.module_body, InputSetup.module_body, Weapon.module_body;
    rewrite ?guard_always_true; expose.
  - pose proof creator_main_logs_raises. script_accounts.
  - pose proof input_main_logs_raises. script_accounts.
  - pose proof weapon_main_logs_raises. script_accounts.
  - account.
Qed.

(** A function that returns has logged every host call that raised. *)
Lemma total_logs {A} (m : M A) s :
  logs_raises m -> (exists a, result (m s) = Val a) ->
  raises_logged (events (m s)) = true.
Proof. intros Hm (a & Ha). specialize (Hm s). now rewrite Ha in Hm. Qed.

End Accounts.

(** ** Functions without a handler *)

Section Propagation.
Context {H : Host}.
Variable P : Call -> bool.

Lemma pr_ret {A} (a : A) : propagates P (ret a).
Proof. intros s c e _ []. Qed.

Lemma pr_emit_log prefix msg : propagates P (emit (ELog prefix msg)).
Proof. intros s c e _ [E|[]]. discriminate E. Qed.

Lemma pr_emit_enter fn args : propagates P (emit (EEnter fn args)).
Proof. intros s c e _ [E|[]]. discriminate E. Qed.

Lemma pr_call c0 : propagates P (call c0).
Proof.
  intros s c e _. unfold call. destruct (respond (world s) c0) as [r w].
  cbn [events result]. intros [E|[]]. injection E as _ ->. reflexivity.
Qed.

Lemma pr_bind {A B} (m : M A) (f : A -> M B) :
  propagates P m -> (forall a, propagates P (f a)) -> propagates P (bind m f).
Proof.
  intros Hm Hf s c e Hc. rewrite run_bind. specialize (Hm s c e Hc).
  destruct (result (m s)) as [a|e0]; cbn [result events].
  - intros Hin. apply in_app_or in Hin. destruct Hin as [Hin|Hin].
    + discriminate (Hm Hin).
    + now apply (Hf a (final (m s)) c e).
  - intros Hin. specialize (Hm Hin). now injection Hm as ->.
Qed.

Lemma pr_if {A} (b : bool) (m1 m2 : M A) :
  propagates P m1 -> propagates P m2 -> propagates P (if b then m1 else m2).
Proof. now destruct b. Qed.

(** A computation that makes no call of [P] has none to let through. *)
Lemma pr_quiet {A} (m : M A) :
  at_most 0 (fun ev => match ev with ECall c _ => P c | _ => false end) m ->
  propagates P m.
Proof.
  intros Hm s c e Hc Hin. apply (at_most_0 _ _ s) in Hm.
  assert (Hf : In (ECall c (Raises e))
                  (filter (fun ev => match ev with ECall c _ => P c | _ => false end)
                          (events (m s))))
    by (apply filter_In; split; [exact Hin | exact Hc]).
  rewrite Hm in Hf. destruct Hf.
Qed.

End Propagation.

Lemma pr_any {H : Host} {A} (P : Call -> bool) (m : M A) :
  propagates any_call m -> propagates P m.
Proof. intros Hm s c e _. now apply Hm. Qed.

Lemma am_destroy_calls {H : Host} (P : Event -> bool) actors :
  (forall v r, P (ECall (get_actor_label v) r) = false) ->
  (forall v r, P (ECall (destroy_actor v) r) = false) ->
  (forall p m, P (ELog p m) = false) ->
  at_most 0 P (Creator.destroy_test_instance actors).
Proof.
  intros El Ed Eg. induction actors as [|a actors IH]; cbn [Creator.destroy_test_instance].
  - apply am_ret.
  - apply (am_bind _ _ _ 0 0); [apply am_call0; intro; apply El|].
    intros label. destruct (eq_str label "TestSpaceship"); [|exact IH].
    apply (am_bind _ _ _ 0 0); [apply am_emit0, Eg|]. intros _.
    apply (am_bind _ _ _ 0 0); [apply am_call0; intro; apply Ed|]. intros _.
    apply am_ret.
Qed.

(** A bound on the events that satisfy a predicate on the host calls. *)
Ltac bound_calls :=
  lazymatch goal with
  | |- at_most _ _ (bind _ _) => eapply am_bind; [bound_calls | intro; bound_calls]
  | |- at_most _ _ (try_except _ _) => eapply am_try; [bound_calls | intro; bound_calls]
  | |- at_most _ _ (if _ then _ else _) => eapply am_if; bound_calls
  | |- at_most _ _ (match ?x with Some _ => _ | None => _ end) =>
      eapply (am_weaken _ _ _ 0); [destruct x; bound_calls | ]
  | |- at_most _ _ (ret _) => apply am_ret
  | |- at_most _ _ (raise _) => apply am_raise
  | |- at_most _ _ (emit _) => apply am_emit0; reflexivity
  | |- at_most _ _ (call _) => apply am_call0; intro; reflexivity
  | |- at_most _ _ (for_ _ _) => eapply am_for; [intro; bound_calls | reflexivity]
  | |- at_most _ _ (py_iter _) => apply am_py_iter
  | |- at_most _ _ (find_by_name _ _) => apply am_find_by_name; intros; reflexivity
  | |- at_most _ _ (Creator.destroy_test_instance _) =>
      apply am_destroy_calls; intros; reflexivity
  | |- at_most _ _ ?m => let h := head_of m in unfold h; bound_calls
  end.

Ltac no_such_call := eapply am_weaken; [bound_calls | cbn; lia].

(** A chain of calls, logs and tests has no handler. *)
Ltac lets_through :=
  lazymatch goal with
  | |- propagates _ (bind _ _) => apply pr_bind; [lets_through | intro; lets_through]
  | |- propagates _ (if _ then _ else _) => apply pr_if; lets_through
  | |- propagates _ (ret _) => apply pr_ret
  | |- propagates _ (emit (ELog _ _)) => apply pr_emit_log
  | |- propagates _ (emit (EEnter _ _)) => apply pr_emit_enter
  | |- propagates _ (call _) => apply pr_call
  | |- propagates _ ?m => let h := head_of m in unfold h; expose; lets_through
  end.

Section NoHandler.
Context {H : Host}.

Lemma creator_ensure_propagates path :
  propagates any_call (Creator.ensure_directory_exists path).
Proof. lets_through. Qed.

Lemma weapon_ensure_propagates path :
  propagates any_call (Weapon.ensure_directory_exists path).
Proof. lets_through. Qed.

Lemma spaceship_propagates : propagates any_call Creator.create_spaceship_blueprint.
Proof. lets_through. Qed.

Lemma laser_propagates : propagates any_call Weapon.create_laser_projectile_blueprint.
Proof. lets_through. Qed.

Lemma missile_propagates : propagates any_call Weapon.create_missile_projectile_blueprint.
Proof. lets_through. Qed.

Lemma creator_main_propagates :
  propagates (is_creation_call [Creator.SPACESHIP_FULL_PATH]) Creator.main.
Proof.
  unfold Creator.main. expose.
  repeat first
    [ apply pr_any, spaceship_propagates
    | apply pr_quiet; fold (is_creation_event [Creator.SPACESHIP_FULL_PATH]);
      no_such_call
    | apply pr_bind; [|intro] | apply pr_if ].
Qed.

Lemma weapon_main_propagates :
  propagates (is_creation_call [Weapon.LASER_FULL_PATH; Weapon.MISSILE_FULL_PATH])
    Weapon.main.
Proof.
  unfold Weapon.main. expose.
  repeat first
    [ apply pr_any, laser_propagates
    | apply pr_any, missile_propagates
    | apply pr_quiet;
      fold (is_creation_event [Weapon.LASER_FULL_PATH; Weapon.MISSILE_FULL_PATH]);
      no_such_call
    | apply pr_bind; [|intro] | apply pr_if ].
Qed.

End NoHandler.

(** ** The outermost handler *)

Section Outermost.
Context {H : Host}.

Lemma guarded_try_logs_false fn args prefix msg (body : M bool) :
  try_logs_false fn args prefix msg body
    (enter fn args ;;
     try_except body (fun e => emit (ELog prefix (txt (msg e))) ;; ret false)).
Proof.
  intros s. unfold enter. rewrite bind_emit. cbn [result events].
  destruct (result (body s)) as [b|e] eqn:E.
  - rewrite (try_except_val _ _ _ _ E). rewrite E. now split.
  - rewrite (try_except_exc _ _ _ _ E). rewrite bind_emit. cbn. auto.
Qed.

Lemma none_guarded_try_logs_false fn args prefix msg msg0 (bp : Value) (body : M bool) :
  is_none bp = false ->
  try_logs_false fn args prefix msg body
    (enter fn args ;;
     if is_none bp then emit (ELog prefix msg0) ;; ret false
     else try_except body (fun e => emit (ELog prefix (txt (msg e))) ;; ret false)).
Proof. intros ->. apply guarded_try_logs_false. Qed.

(** [add_components_to_blueprint], whose [try] starts after the call of
    [load_blueprint_class]. *)
Lemma add_components_try_logs_false bp s v w :
  is_none bp = false ->
  respond (world s) (load_blueprint_class Creator.SPACESHIP_FULL_PATH) = (Returns v, w) ->
  is_none v = false ->
  let entry :=
    [ EEnter "internal_spaceship_creator.add_components_to_blueprint" [bp];
      ECall (load_blueprint_class Creator.SPACESHIP_FULL_PATH) (Returns v) ] in
  match result (Creator.add_components_try bp (after s w)) with
  | Val b =>
      result (Creator.add_components_to_blueprint bp s) = Val b
      /\ events (Creator.add_components_to_blueprint bp s)
         = entry ++ events (Creator.add_components_try bp (after s w))
  | Exc e =>
      result (Creator.add_components_to_blueprint bp s) = Val false
      /\ events (Creator.add_components_to_blueprint bp s)
         = entry ++ events (Creator.add_components_try bp (after s w))
           ++ [ELog "[SPACESHIP CREATOR] " (txt ("Error adding components: " ++ e))]
  end.
Proof.
  intros Hbp E Hv entry. subst entry.
  unfold Creator.add_components_to_blueprint. expose.
  rewrite bind_emit. rewrite Hbp.
  rewrite (bind_call_returns _ _ _ _ _ E). rewrite Hv.
  cbn [result events final].
  destruct (result (Creator.add_components_try bp (after s w))) as [b|e] eqn:Eb.
  - rewrite (try_except_val _ _ _ _ Eb). rewrite Eb. now split.
  - rewrite (try_except_exc _ _ _ _ Eb). rewrite bind_emit. cbn. auto.
Qed.

End Outermost.

(** C1, as the code has it.  [setup_input_mappings],
    [import_and_run_module], [add_blueprint_variables],
    [spawn_test_instance], [setup_laser_components],
    [setup_missile_components] and [add_weapon_components_to_spaceship]
    never let an exception out, and neither does
    [add_components_to_blueprint] once its first call,
    [load_blueprint_class], made before the [try], has returned.  In every
    run of these functions each host call that raised is directly followed
    by a logged line that ends with the text of the exception.  An
    exception that leaves the [try] block of the function is logged by its
    handler as the last line, and the function returns [False]; when the
    block returns, the function returns what the block gives.  An
    exception caught by an inner handler does not make the function fail:
    [add_blueprint_variables] returns [True] whatever its calls for the
    single variables do, when the editor subsystem is there and compiling
    and saving return.  The creation functions have no handler: when a
    host call raises inside [ensure_directory_exists] or one of the three
    creation functions, the exception is the result of the function, and a
    call of the creation step that raised in a run of the script's [main]
    is the result of [main]. *)
Theorem C1_exceptions_logged_and_caught_or_let_through :
  forall H : Host,
    (* no exception leaves the functions with a handler *)
    (total InputSetup.setup_input_mappings
     /\ (forall name path, total (Complete.import_and_run_module name path))
     /\ (forall bp, total (Creator.add_blueprint_variables bp))
     /\ total Creator.spawn_test_instance
     /\ (forall bp, total (Weapon.setup_laser_components bp))
     /\ (forall bp, total (Weapon.setup_missile_components bp))
     /\ total Weapon.add_weapon_components_to_spaceship
     /\ (forall bp s v w,
           respond (world s) (load_blueprint_class Creator.SPACESHIP_FULL_PATH)
             = (Returns v, w) ->
           exists b, result (Creator.add_components_to_blueprint bp s) = Val b))
    (* every host call that raised is logged *)
    /\ ((forall s, raises_logged (events (InputSetup.setup_input_mappings s)) = true)
        /\ (forall name path s,
              raises_logged (events (Complete.import_and_run_module name path s)) = true)
        /\ (forall bp s,
              raises_logged (events (Creator.add_blueprint_variables bp s)) = true)
        /\ (forall s, raises_logged (events (Creator.spawn_test_instance s)) = true)
        /\ (forall bp s,
              raises_logged (events (Weapon.setup_laser_components bp s)) = true)
        /\ (forall bp s,
              raises_logged (events (Weapon.setup_missile_components bp s)) = true)
        /\ (forall s,
              raises_logged (events (Weapon.add_weapon_components_to_spaceship s)) = true)
        /\ (forall bp s v w,
              respond (world s) (load_blueprint_class Creator.SPACESHIP_FULL_PATH)
                = (Returns v, w) ->
              raises_logged (events (Creator.add_components_to_blueprint bp s)) = true))
    (* the outermost handler logs and returns False *)
    /\ (try_logs_false "internal_input_setup.setup_input_mappings" []
          "[INPUT SETUP] " (fun e => "Error setting up input mappings: " ++ e)%string
          InputSetup.setup_input_mappings_try InputSetup.setup_input_mappings
        /\ (forall name path,
              try_logs_false "internal_complete_setup.import_and_run_module"
                [VStr name; VStr path] "[SETUP] "
                (fun e => "Error loading or running module " ++ name ++ ": " ++ e)%string
                (Complete.import_and_run_module_try name path)
                (Complete.import_and_run_module name path))
        /\ (forall bp, is_none bp = false ->
              try_logs_false "internal_spaceship_creator.add_blueprint_variables" [bp]
                "[SPACESHIP CREATOR] "
                (fun e => "Error adding blueprint variables: " ++ e)%string
                (Creator.add_blueprint_variables_try bp)
                (Creator.add_blueprint_variables bp))
        /\ try_logs_false "internal_spaceship_creator.spawn_test_instance" []
             "[SPACESHIP CREATOR] " (fun e => "Error spawning test instance: " ++ e)%string
             Creator.spawn_test_instance_try Creator.spawn_test_instance
        /\ (forall bp, is_none bp = false ->
              try_logs_false "internal_weapon_system.setup_laser_components" [bp]
                "[WEAPON SYSTEM] "
                (fun e => "Error setting up laser components: " ++ e)%string
                (Weapon.setup_laser_components_try bp)
                (Weapon.setup_laser_components bp))
        /\ (forall bp, is_none bp = false ->
              try_logs_false "internal_weapon_system.setup_missile_components" [bp]
                "[WEAPON SYSTEM] "
                (fun e => "Error setting up missile components: " ++ e)%string
                (Weapon.setup_missile_components_try bp)
                (Weapon.setup_missile_components bp))
        /\ try_logs_false "internal_weapon_system.add_weapon_components_to_spaceship" []
             "[WEAPON SYSTEM] "
             (fun e => "Error adding weapon components to spaceship: " ++ e)%string
             Weapon.add_weapon_components_to_spaceship_try
             Weapon.add_weapon_components_to_spaceship
        /\ (forall bp s v w,
              is_none bp = false ->
              respond (world s) (load_blueprint_class Creator.SPACESHIP_FULL_PATH)
                = (Returns v, w) ->
              is_none v = false ->
              let entry :=
                [ EEnter "internal_spaceship_creator.add_components_to_blueprint" [bp];
                  ECall (load_blueprint_class Creator.SPACESHIP_FULL_PATH) (Returns v) ] in
              match result (Creator.add_components_try bp (after s w)) with
              | Val b =>
                  result (Creator.add_components_to_blueprint bp s) = Val b
                  /\ events (Creator.add_components_to_blueprint bp s)
                     = entry ++ events (Creator.add_components_try bp (after s w))
              | Exc e =>
                  result (Creator.add_components_to_blueprint bp s) = Val false
                  /\ events (Creator.add_components_to_blueprint bp s)
                     = entry ++ events (Creator.add_components_try bp (after s w))
                       ++ [ELog "[SPACESHIP CREATOR] "
                                (txt ("Error adding components: " ++ e))]
              end))
    (* an inner handler does not make the function fail *)
    /\ (forall bp s ed w,
          is_none bp = false ->
          respond (world s) (get_editor_subsystem (VType "BlueprintEditorSubsystem"))
            = (Returns ed, w) ->
          (forall w1, exists v w2,
              respond w1 (compile_blueprint ed bp) = (Returns v, w2)) ->
          (forall w1, exists v w2,
              respond w1 (save_asset Creator.SPACESHIP_FULL_PATH) = (Returns v, w2)) ->
          result (Creator.add_blueprint_variables bp s) = Val true)
    (* the creation functions let every exception through *)
    /\ ((forall path, propagates any_call (Creator.ensure_directory_exists path))
        /\ (forall path, propagates any_call (Weapon.ensure_directory_exists path))
        /\ propagates any_call Creator.create_spaceship_blueprint
        /\ propagates any_call Weapon.create_laser_projectile_blueprint
        /\ propagates any_call Weapon.create_missile_projectile_blueprint)
    (* and so do the mains that call them *)
    /\ (propagates (is_creation_call ["/Game/SpaceDogfight/Blueprints/BP_Spaceship"])
          Creator.main
        /\ propagates
             (is_creation_call [ "/Game/SpaceDogfight/Weapons/BP_LaserProjectile";
                                 "/Game/SpaceDogfight/Weapons/BP_MissileProjectile" ])
             Weapon.main).
Proof.
  intros H. split; [|split; [|split; [|split; [|split]]]].
  - repeat apply conj.
    + apply total_setup_input_mappings.
    + apply total_import_and_run_module.
    + apply total_add_blueprint_variables.
    + apply total_spawn_test_instance.
    + apply total_setup_laser_components.
    + apply total_setup_missile_components.
    + apply total_add_weapon_components.
    + apply add_components_after_load.
  - repeat apply conj.
    + intros s. apply total_logs; [account | apply total_setup_input_mappings].
    + intros name path s.
      apply total_logs; [apply import_logs_raises | apply total_import_and_run_module].
    + intros bp s. apply total_logs; [account | apply total_add_blueprint_variables].
    + intros s. apply total_logs; [account | apply total_spawn_test_instance].
    + intros bp s. apply total_logs; [account | apply total_setup_laser_components].
    + intros bp s. apply total_logs; [account | apply total_setup_missile_components].
    + intros s. apply total_logs; [account | apply total_add_weapon_components].
    + intros bp s v w E.
      apply total_logs; [account | now apply (add_components_after_load bp s v w)].
  - repeat apply conj; intros;
      first [ apply guarded_try_logs_false
            | now apply none_guarded_try_logs_false
            | now apply add_components_try_logs_false ].
  - intros bp s ed w Hbp E Hc Hs.
    now destruct (variables_failures_forgiven bp s ed w Hbp E Hc Hs).
  - repeat apply conj.
    + apply creator_ensure_propagates.
    + apply weapon_ensure_propagates.
    + apply spaceship_propagates.
    + apply laser_propagates.
    + apply missile_propagates.
  - split; [apply creator_main_propagates | apply weapon_main_propagates].
Qed.

(** C1 fails for the creation functions, which have no handler: when the
    asset tools raise in [create_asset], the exception leaves
    [create_spaceship_blueprint] and then [main]. *)
Lemma C1_counterexample_create_asset_raises :
  result (@Creator.create_spaceship_blueprint (editor create_raises)
            (start create_raises fresh_editor))
    = Exc "RuntimeError: asset tools failed"
  /\ result (@Creator.main (editor create_raises) (start create_raises fresh_editor))
    = Exc "RuntimeError: asset tools failed".
Proof. split; vm_compute; reflexivity. Qed.

(** * Check, then load or create (C3) *)

Ltac none_is_none :=
  repeat match goal with
         | Hn : is_none ?v = true |- _ => destruct v; try discriminate Hn; clear Hn
         end.

(** Settles one run of a creation function, the host's answers being
    known: the directory step, the question, and what followed. *)
Ltac settle_check :=
  none_is_none;
  repeat first
    [ match goal with
      | E : respond _ _ = _ |- context [respond _ _] => rewrite E
      end
    | match goal with
      | Hb : truthy ?v = _ |- context [truthy ?v] => rewrite Hb
      end ];
  cbv beta iota;
  lazymatch goal with
  | |- _ = Exc _ /\ _ => repeat split; reflexivity
  | |- exists r, _ =>
      match goal with
      | E : respond _ (does_asset_exist _) = (?r, _) |- _ => exists r
      end;
      split; [reflexivity|]; split; [reflexivity|];
      cbv beta iota;
      repeat match goal with
             | Hb : truthy ?v = _ |- context [truthy ?v] => rewrite Hb
             end;
      first
        [ split; [reflexivity|]; split; reflexivity
        | split; [reflexivity|]; eexists; split; reflexivity
        | split; [reflexivity|]; left; do 4 eexists;
          split; [reflexivity|]; split; reflexivity
        | split; [reflexivity|]; right; do 2 eexists;
          refine (conj _ (conj _ (conj _ _)));
          [ | find_suffix | | ]; reflexivity ]
  end.

Section CheckLoadCreate.
Context {H : Host}.

Lemma spaceship_check_load_or_create :
  check_load_or_create Creator.ensure_directory_exists
    Creator.create_spaceship_blueprint
    Creator.BLUEPRINT_PATH Creator.SPACESHIP_BP_NAME "Pawn".
Proof.
  intros s path evs. subst path evs.
  change (Creator.BLUEPRINT_PATH ++ "/" ++ Creator.SPACESHIP_BP_NAME)%string
    with Creator.SPACESHIP_FULL_PATH.
  rewrite creator_ensure_directory_result. unfold ensure_directory_result.
  focus (Creator.create_spaceship_blueprint s).
  unfold Creator.create_spaceship_blueprint, Creator.ensure_directory_exists.
  exec; unfocus.
  all: settle_check.
Qed.

Lemma laser_check_load_or_create :
  check_load_or_create Weapon.ensure_directory_exists
    Weapon.create_laser_projectile_blueprint
    Weapon.WEAPONS_PATH Weapon.LASER_BP_NAME "Actor".
Proof.
  intros s path evs. subst path evs.
  change (Weapon.WEAPONS_PATH ++ "/" ++ Weapon.LASER_BP_NAME)%string
    with Weapon.LASER_FULL_PATH.
  rewrite weapon_ensure_directory_result. unfold ensure_directory_result.
  focus (Weapon.create_laser_projectile_blueprint s).
  unfold Weapon.create_laser_projectile_blueprint, Weapon.ensure_directory_exists.
  exec; unfocus.
  all: settle_check.
Qed.

Lemma missile_check_load_or_create :
  check_load_or_create Weapon.ensure_directory_exists
    Weapon.create_missile_projectile_blueprint
    Weapon.WEAPONS_PATH Weapon.MISSILE_BP_NAME "Actor".
Proof.
  intros s path evs. subst path evs.
  change (Weapon.WEAPONS_PATH ++ "/" ++ Weapon.MISSILE_BP_NAME)%string
    with Weapon.MISSILE_FULL_PATH.
  rewrite weapon_ensure_directory_result. unfold ensure_directory_result.
  focus (Weapon.create_missile_projectile_blueprint s).
  unfold Weapon.create_missile_projectile_blueprint, Weapon.ensure_directory_exists.
  exec; unfocus.
  all: settle_check.
Qed.

End CheckLoadCreate.

(** C3. Each of the three creation functions, once its directory step has
    returned, asks the host whether its asset exists, once and before it
    loads or creates anything.  When the host says the asset exists, the
    function creates nothing and returns what [load_asset] gives for that
    path.  When the host says it does not, nothing is loaded: the function
    asks for a factory, sets its parent class, asks for the asset tools
    and calls [create_asset] once, for that name in that directory, and
    returns what it gives; only an exception of one of the three preparing
    calls keeps it from creating.  The paths are the ones of the scripts:
    BP_Spaceship under /Game/SpaceDogfight/Blueprints, the two projectiles
    under /Game/SpaceDogfight/Weapons. *)
Theorem C3_check_then_load_or_create :
  forall H : Host,
    check_load_or_create Creator.ensure_directory_exists
      Creator.create_spaceship_blueprint
      "/Game/SpaceDogfight/Blueprints" "BP_Spaceship" "Pawn"
    /\ check_load_or_create Weapon.ensure_directory_exists
      Weapon.create_laser_projectile_blueprint
      "/Game/SpaceDogfight/Weapons" "BP_LaserProjectile" "Actor"
    /\ check_load_or_create Weapon.ensure_directory_exists
      Weapon.create_missile_projectile_blueprint
      "/Game/SpaceDogfight/Weapons" "BP_MissileProjectile" "Actor".
Proof.
  intros H. split; [|split].
  - apply spaceship_check_load_or_create.
  - apply laser_check_load_or_create.
  - apply missile_check_load_or_create.
Qed.

(** * The components of the spaceship (C4) *)



(** What a block that configures the component [v] adds to a run: no
    component, no question about a name, and the properties of [props]
    when [v] is not [None]. *)
Ltac configured R props :=
  lazymatch type of R with
  | runs (if negb (is_none ?v) then _ else _) _ _ ?t _ =>
      let F := fresh "F" in
      assert (F : filter is_add_component t = []
                  /\ filter is_get_name t = []
                  /\ calls (filter is_set_property t) = property_calls v props);
      [ clear - R; unfold property_calls; inv_spine R; repeat split; reflexivity
      | clear R; destruct F as (? & ? & ?) ]
  end.

Section SpaceshipRoot.
Context {H : Host}.

Lemma spaceship_components_of_root bp s :
  result (Creator.add_components_to_blueprint bp s) = Val true ->
  let evs := events (Creator.add_components_to_blueprint bp s) in
  exists ed comps unasked root mesh cone collision arm camera movement,
    In (ECall (get_editor_subsystem (VType "BlueprintEditorSubsystem")) (Returns ed)) evs
    /\ In (ECall (get_components_from_blueprint bp) (Returns (VList comps))) evs
    /\ comps = asked_names evs ++ unasked
    /\ match search_result "DefaultSceneRoot" evs with
       | Some comp => exists before, asked_names evs = before ++ [comp]
       | None => unasked = []
       end
    /\ (is_none (root_found evs) = false -> root = root_found evs)
    /\ filter is_add_component evs
       = (if is_none (root_found evs)
          then [added ed bp "SceneComponent" "DefaultSceneRoot" None root]
          else [])
         ++ [ added ed bp "StaticMeshComponent" "ShipMesh" (Some root) mesh;
              added ed bp "SphereComponent" "CollisionSphere" (Some root) collision;
              added ed bp "SpringArmComponent" "CameraSpringArm" (Some root) arm;
              added ed bp "CameraComponent" "FollowCamera" (Some arm) camera;
              added ed bp "FloatingPawnMovement" "MovementComponent" (Some root) movement ]
    /\ (is_none mesh = false ->
        In (ECall (unreal_load_asset "/Engine/BasicShapes/Cone") (Returns cone)) evs)
    /\ calls (filter is_set_property evs)
       = mesh_calls mesh cone
         ++ property_calls collision collision_properties
         ++ property_calls arm spring_arm_properties
         ++ property_calls camera camera_properties
         ++ property_calls movement movement_properties
    /\ exists compiled saved,
         ends_with [ ECall (compile_blueprint ed bp) (Returns compiled);
                     ECall (save_asset Creator.SPACESHIP_FULL_PATH) (Returns saved);
                     ELog "[SPACESHIP CREATOR] "
                          "Successfully added components to spaceship blueprint" ]
                   evs.
Proof.
  intros Hres evs. subst evs. apply runs_of_result in Hres.
  remember (events (Creator.add_components_to_blueprint bp s)) as evs eqn:Hev.
  remember (final (Creator.add_components_to_blueprint bp s)) as sf eqn:Hsf.
  clear Hsf Hev.
  unfold Creator.add_components_to_blueprint in Hres. expose.
  inv_spine Hres.
  match goal with
  | R : runs (try_except _ _) _ _ _ _ |- _ =>
      apply runs_try_inv in R; [|intros; apply log_false_gives_false];
      unfold Creator.add_components_try in R; expose; inv_spine R
  end.
  (* the search for the root *)
  match goal with
  | R : runs (find_by_name _ _) _ _ _ _ |- _ =>
      pose proof (runs_quiet _ _ _ _ _ _ (find_adds_nothing _ _) R) as Fa;
      pose proof (runs_quiet _ _ _ _ _ _ (find_sets_nothing _ _) R) as Fs;
      destruct (find_by_name_run _ _ _ _ _ _ R) as (Fg & Hfound & unasked & Hcomps & Hstop);
      clear R
  end.
  (* the root, found or made *)
  match goal with
  | R : runs (if is_none ?found then _ else ret ?found) _ (Val ?root) ?t _,
    E : respond _ (get_editor_subsystem _) = (Returns ?ed, _) |- _ =>
      assert (Fr : filter is_add_component t
                   = (if is_none found
                      then [added ed bp "SceneComponent" "DefaultSceneRoot" None root]
                      else [])
                   /\ (is_none found = false -> root = found)
                   /\ filter is_set_property t = []
                   /\ filter is_get_name t = []);
      [ clear - R; inv_spine R;
        repeat split; first [reflexivity | discriminate | intros _; reflexivity]
      | clear R; destruct Fr as (Fr & Hroot & Frs & Frg) ]
  end.
  (* the mesh *)
  match goal with
  | R : runs (if negb (is_none ?mesh) then bind (call (unreal_load_asset _)) _ else _)
             _ _ ?t _ |- _ =>
      assert (Fm : exists cone,
                 filter is_add_component t = []
                 /\ filter is_get_name t = []
                 /\ calls (filter is_set_property t) = mesh_calls mesh cone
                 /\ (is_none mesh = false ->
                     In (ECall (unreal_load_asset "/Engine/BasicShapes/Cone")
                               (Returns cone)) t));
      [ clear - R; unfold mesh_calls; inv_spine R;
        first [ match goal with
                | E : respond _ (unreal_load_asset _) = (Returns ?c, _),
                  Hc : is_none ?c = _ |- _ =>
                    exists c; rewrite Hc;
                    repeat split; first [reflexivity | intros _; in_run]
                end
              | exists VNone; repeat split; first [reflexivity | discriminate] ]
      | clear R; destruct Fm as (cone & Fm & Fmg & Fms & Fmc) ]
  end.
  (* the four configured components *)
  match goal with
  | R : runs (if negb (is_none _) then bind (call (set_editor_property _ "SphereRadius" _)) _
              else _) _ _ _ _ |- _ => configured R collision_properties
  end.
  match goal with
  | R : runs (if negb (is_none _) then bind (call (set_editor_property _ "TargetArmLength" _)) _
              else _) _ _ _ _ |- _ => configured R spring_arm_properties
  end.
  match goal with
  | R : runs (if negb (is_none _) then bind (call (set_editor_property _ "FieldOfView" _)) _
              else _) _ _ _ _ |- _ => configured R camera_properties
  end.
  match goal with
  | R : runs (if negb (is_none _) then bind (call (set_editor_property _ "MaxSpeed" _)) _
              else _) _ _ _ _ |- _ => configured R movement_properties
  end.
  match goal with
  | |- exists ed comps unasked root mesh cone collision arm camera movement,
         In _ ?l /\ _ => set (evs := l)
  end.
  assert (Hg : filter is_get_name evs = t).
  { unfold evs.
    repeat (progress (rewrite ?filter_app; cbn [filter is_get_name app])).
    repeat match goal with
           | F : filter is_get_name _ = [] |- _ => rewrite F; clear F
           end.
    rewrite Fg. cbn [app]. now rewrite ?app_nil_r. }
  assert (Hsearch : search_result "DefaultSceneRoot" evs
                    = search_result "DefaultSceneRoot" t)
    by (now rewrite search_result_filter, Hg).
  assert (Hasked : asked_names evs = asked_names t)
    by (now rewrite asked_names_filter, Hg).
  assert (Hfound' : root_found evs = a2)
    by (unfold root_found; now rewrite Hsearch).
  rewrite Hsearch, Hasked, Hfound'. clear Hg Hsearch Hasked Hfound' Fg.
  match goal with
  | E0 : respond _ (get_editor_subsystem _) = (Returns ?ed, _),
    Ec : respond _ (get_components_from_blueprint _) = (Returns (VList ?comps), _),
    E1 : respond _ (add_new_component_to_blueprint _ _ _ "ShipMesh" (Some ?root))
         = (Returns ?mesh, _),
    E2 : respond _ (add_new_component_to_blueprint _ _ _ "CollisionSphere" _)
         = (Returns ?collision, _),
    E3 : respond _ (add_new_component_to_blueprint _ _ _ "CameraSpringArm" _)
         = (Returns ?arm, _),
    E4 : respond _ (add_new_component_to_blueprint _ _ _ "FollowCamera" _)
         = (Returns ?camera, _),
    E5 : respond _ (add_new_component_to_blueprint _ _ _ "MovementComponent" _)
         = (Returns ?movement, _),
    E6 : respond _ (compile_blueprint _ _) = (Returns ?compiled, _),
    E7 : respond _ (save_asset _) = (Returns ?saved, _) |- _ =>
      exists ed, comps, unasked, root, mesh, cone, collision, arm, camera, movement;
      split; [unfold evs; in_run|];
      split; [unfold evs; in_run|];
      split; [exact Hcomps|];
      split; [exact Hstop|];
      split; [exact Hroot|];
      split; [|split; [|split; [|exists compiled, saved; unfold evs; find_suffix]]]
  end.
  - unfold evs.
    repeat (progress (rewrite ?filter_app; cbn [filter is_add_component app])).
    repeat match goal with
           | F : filter is_add_component _ = [] |- _ => rewrite F; clear F
           end.
    rewrite Fr. cbn [app]. now destruct (is_none a2).
  - intros Hm. specialize (Fmc Hm). unfold evs.
    repeat first [ apply in_or_app; left; exact Fmc
                 | apply in_or_app; right ].
  - unfold evs.
    repeat (progress (rewrite ?filter_app; cbn [filter is_set_property app])).
    rewrite ?calls_app.
    repeat match goal with
           | F : filter is_set_property _ = [] |- _ => rewrite F; clear F
           | F : calls (filter is_set_property _) = _ |- _ => rewrite F; clear F
           end.
    cbn [calls flat_map app]. rewrite ?app_nil_r. reflexivity.
Qed.

End SpaceshipRoot.

(** C4, as the code has it.  On a run of [add_components_to_blueprint]
    that returns [True], the function has asked the components of the
    blueprint for their names, in order and up to the first one named
    DefaultSceneRoot: that one is the root, and when there is none (every
    component was asked) the function has requested DefaultSceneRoot of
    the blueprint editor and the root is what the host gave.  The
    components requested are then, in this order, ShipMesh,
    CollisionSphere, CameraSpringArm, FollowCamera and MovementComponent,
    each under the root, FollowCamera under what the host gave for
    CameraSpringArm.  The properties set are the fixed ones of the script,
    on each component the host gave, the mesh being the asset loaded from
    /Engine/BasicShapes/Cone: for a component the host answered with
    [None], nothing is set, and the function still returns [True].  The
    run ends with the compilation of the blueprint, the saving of the
    asset and the line that reports success. *)
Theorem C4_components_under_the_root :
  forall (H : Host) (bp : Value) (s : PyState),
    result (Creator.add_components_to_blueprint bp s) = Val true ->
    let evs := events (Creator.add_components_to_blueprint bp s) in
    exists ed comps unasked root mesh cone collision arm camera movement,
      In (ECall (get_editor_subsystem (VType "BlueprintEditorSubsystem")) (Returns ed)) evs
      /\ In (ECall (get_components_from_blueprint bp) (Returns (VList comps))) evs
      /\ comps = asked_names evs ++ unasked
      /\ match search_result "DefaultSceneRoot" evs with
         | Some comp => exists before, asked_names evs = before ++ [comp]
         | None => unasked = []
         end
      /\ (is_none (root_found evs) = false -> root = root_found evs)
      /\ filter is_add_component evs
         = (if is_none (root_found evs)
            then [added ed bp "SceneComponent" "DefaultSceneRoot" None root]
            else [])
           ++ [ added ed bp "StaticMeshComponent" "ShipMesh" (Some root) mesh;
                added ed bp "SphereComponent" "CollisionSphere" (Some root) collision;
                added ed bp "SpringArmComponent" "CameraSpringArm" (Some root) arm;
                added ed bp "CameraComponent" "FollowCamera" (Some arm) camera;
                added ed bp "FloatingPawnMovement" "MovementComponent" (Some root) movement ]
      /\ (is_none mesh = false ->
          In (ECall (unreal_load_asset "/Engine/BasicShapes/Cone") (Returns cone)) evs)
      /\ calls (filter is_set_property evs)
         = mesh_calls mesh cone
           ++ property_calls collision collision_properties
           ++ property_calls arm spring_arm_properties
           ++ property_calls camera camera_properties
           ++ property_calls movement movement_properties
      /\ exists compiled saved,
           ends_with [ ECall (compile_blueprint ed bp) (Returns compiled);
                       ECall (save_asset Creator.SPACESHIP_FULL_PATH) (Returns saved);
                       ELog "[SPACESHIP CREATOR] "
                            "Successfully added components to spaceship blueprint" ]
                     evs.
Proof. intros H bp s. apply spaceship_components_of_root. Qed.

(** On the small editor, whose blueprint has no root yet, every component
    is given and the function returns [True]. *)
Lemma C4_witness_fresh_blueprint :
  let evs := events (@Creator.add_components_to_blueprint (editor no_fault) (VObj 8)
                       (start no_fault fresh_editor)) in
  result (@Creator.add_components_to_blueprint (editor no_fault) (VObj 8)
            (start no_fault fresh_editor)) = Val true
  /\ exists ed comps unasked root mesh cone collision arm camera movement,
      In (ECall (get_editor_subsystem (VType "BlueprintEditorSubsystem")) (Returns ed)) evs
      /\ In (ECall (get_components_from_blueprint (VObj 8)) (Returns (VList comps))) evs
      /\ comps = asked_names evs ++ unasked
      /\ match search_result "DefaultSceneRoot" evs with
         | Some comp => exists before, asked_names evs = before ++ [comp]
         | None => unasked = []
         end
      /\ (is_none (root_found evs) = false -> root = root_found evs)
      /\ filter is_add_component evs
         = (if is_none (root_found evs)
            then [added ed (VObj 8) "SceneComponent" "DefaultSceneRoot" None root]
            else [])
           ++ [ added ed (VObj 8) "StaticMeshComponent" "ShipMesh" (Some root) mesh;
                added ed (VObj 8) "SphereComponent" "CollisionSphere" (Some root) collision;
                added ed (VObj 8) "SpringArmComponent" "CameraSpringArm" (Some root) arm;
                added ed (VObj 8) "CameraComponent" "FollowCamera" (Some arm) camera;
                added ed (VObj 8) "FloatingPawnMovement" "MovementComponent" (Some root) movement ]
      /\ (is_none mesh = false ->
          In (ECall (unreal_load_asset "/Engine/BasicShapes/Cone") (Returns cone)) evs)
      /\ calls (filter is_set_property evs)
         = mesh_calls mesh cone
           ++ property_calls collision collision_properties
           ++ property_calls arm spring_arm_properties
           ++ property_calls camera camera_properties
           ++ property_calls movement movement_properties
      /\ exists compiled saved,
           ends_with [ ECall (compile_blueprint ed (VObj 8)) (Returns compiled);
                       ECall (save_asset Creator.SPACESHIP_FULL_PATH) (Returns saved);
                       ELog "[SPACESHIP CREATOR] "
                            "Successfully added components to spaceship blueprint" ]
                     evs.
Proof.
  split.
  - vm_compute. reflexivity.
  - apply (C4_components_under_the_root (editor no_fault) (VObj 8)
             (start no_fault fresh_editor)).
    vm_compute. reflexivity.
Defined.


(** A run that returns [True] without the collision sphere: the editor
    answers [None] to the request for CollisionSphere, the function logs
    the failure and goes on, no SphereRadius is set, and the result is
    [True] all the same. *)
Lemma C4_counterexample_true_without_collision_sphere :
  result (@Creator.add_components_to_blueprint (editor no_collision_sphere) (VObj 8)
            (start no_collision_sphere fresh_editor)) = Val true
  /\ In (added (VObj 2) (VObj 8) "SphereComponent" "CollisionSphere" (Some (VObj 26)) VNone)
        (events (@Creator.add_components_to_blueprint (editor no_collision_sphere) (VObj 8)
                   (start no_collision_sphere fresh_editor)))
  /\ In (ELog "[SPACESHIP CREATOR] " "Failed to create collision component")
        (events (@Creator.add_components_to_blueprint (editor no_collision_sphere) (VObj 8)
                   (start no_collision_sphere fresh_editor)))
  /\ existsb (sets_property "SphereRadius")
             (calls (events (@Creator.add_components_to_blueprint
                               (editor no_collision_sphere) (VObj 8)
                               (start no_collision_sphere fresh_editor)))) = false.
Proof.
  split; [vm_compute; reflexivity|].
  split; [vm_compute; repeat first [left; reflexivity | right]|].
  split; [vm_compute; repeat first [left; reflexivity | right]|].
  vm_compute. reflexivity.
Qed.

(** * A module that does not load (C10) *)

Section NotLoaded.
Context {H : Host}.

Lemma entries_none fn (t : list Event) :
  filter is_entry t = [] -> entries fn t = 0.
Proof.
  unfold entries. induction t as [|e t IH]; [reflexivity|].
  destruct e; cbn [filter is_entry is_enter]; try exact IH. discriminate.
Qed.

(** Without a spec, without a module, or with a loader that raises,
    [import_and_run_module] gives [False] and enters no function of the
    script. *)
Lemma not_loaded_nothing_entered name path s :
  module_does_not_load name path s ->
  result (Complete.import_and_run_module name path s) = Val false
  /\ forall fn,
       String.eqb "internal_complete_setup.import_and_run_module" fn = false ->
       entries fn (events (Complete.import_and_run_module name path s)) = 0.
Proof.
  intros Hno.
  assert (Hrun : exists t s1,
             runs (Complete.import_and_run_module name path) s (Val false)
                  (EEnter "internal_complete_setup.import_and_run_module"
                          [VStr name; VStr path] :: t) s1
             /\ filter is_entry t = []).
  { set (s0 := with_script_dir s).
    unfold Complete.import_and_run_module, Complete.import_and_run_module_try,
      Complete.exec_module. expose.
    destruct (respond (world s0) (spec_from_file_location name path))
      as [[spec|e] w1] eqn:E1.
    - destruct (truthy spec) eqn:T1.
      + destruct (respond w1 (module_from_spec spec)) as [[module|e] w2] eqn:E2.
        * destruct (truthy module) eqn:T2.
          -- destruct (respond w2 (loader_get_code path)) as [[code|e] w3] eqn:E3.
             ++ exfalso. apply (Hno (after s0 w3)).
                exists spec, w1, module, w2, code, w3.
                unfold s0 in E1. rewrite world_with_script_dir in E1. auto 10.
             ++ do 2 eexists. split.
                ** eapply (runs_bind _ _ _ _ [_]); [apply runs_emit|].
                   eapply runs_try_exc.
                   { load_module E1 T1 E2 T2 E3.
                     apply runs_bind_exc. apply runs_bind_exc.
                     eapply runs_call_raises. exact E3. }
                   eapply runs_bind; [apply runs_emit | apply runs_ret].
                ** reflexivity.
          -- do 2 eexists. split.
             ++ eapply (runs_bind _ _ _ _ [_]); [apply runs_emit|].
                apply runs_try_val.
                eapply runs_bind; [apply runs_get_sys_path|].
                eapply runs_bind; [apply runs_script_dir|].
                eapply runs_bind; [apply runs_emit|].
                eapply runs_bind; [eapply runs_call_returns; exact E1|].
                cbv beta; rewrite T1; cbn [negb].
                eapply runs_bind; [eapply runs_call_returns; exact E2|].
                cbv beta; rewrite T2; cbn [negb].
                eapply runs_bind; [apply runs_emit | apply runs_ret].
             ++ reflexivity.
        * do 2 eexists. split.
          -- eapply (runs_bind _ _ _ _ [_]); [apply runs_emit|].
             eapply runs_try_exc.
             { eapply runs_bind; [apply runs_get_sys_path|].
               eapply runs_bind; [apply runs_script_dir|].
               eapply runs_bind; [apply runs_emit|].
               eapply runs_bind; [eapply runs_call_returns; exact E1|].
               cbv beta; rewrite T1; cbn [negb].
               apply runs_bind_exc. eapply runs_call_raises. exact E2. }
             eapply runs_bind; [apply runs_emit | apply runs_ret].
          -- reflexivity.
      + do 2 eexists. split.
        * eapply (runs_bind _ _ _ _ [_]); [apply runs_emit|].
          apply runs_try_val.
          eapply runs_bind; [apply runs_get_sys_path|].
          eapply runs_bind; [apply runs_script_dir|].
          eapply runs_bind; [apply runs_emit|].
          eapply runs_bind; [eapply runs_call_returns; exact E1|].
          cbv beta; rewrite T1; cbn [negb].
          eapply runs_bind; [apply runs_emit | apply runs_ret].
        * reflexivity.
    - do 2 eexists. split.
      + eapply (runs_bind _ _ _ _ [_]); [apply runs_emit|].
        eapply runs_try_exc.
        { eapply runs_bind; [apply runs_get_sys_path|].
          eapply runs_bind; [apply runs_script_dir|].
          eapply runs_bind; [apply runs_emit|].
          apply runs_bind_exc. eapply runs_call_raises. exact E1. }
        eapply runs_bind; [apply runs_emit | apply runs_ret].
      + reflexivity. }
  destruct Hrun as (t & s1 & Hrun & Ht).
  destruct (runs_inv _ _ _ _ _ Hrun) as (Hr & _ & He).
  split; [exact Hr|]. intros fn Hfn. rewrite He.
  unfold entries. cbn [filter is_enter]. rewrite Hfn.
  now apply entries_none.
Qed.

End NotLoaded.



